(** * Jaculus: storage command session and RTOS timer bridge

    A shallow embedding of
    - [jac::storage::CommandImplementation]
      (runtime/components/jacStorage/include/uploaderFeatures/commandImplementation.hpp)
    - [jac::RtosTimers]
      (runtime/components/jacMachine/include/features/rtosTimers.hpp)
    together with the properties the storage/timer specification states
    about them.

    How the code is read:
    - an operation of the session is a function from the state of the
      world (files, descriptors, [errno], output sink, the session's own
      fields) to an outcome; a binding of the timer feature is a function
      from the state of the machine (registry, RTOS timers, scheduled
      invocations) to a result;
    - the filesystem is a flat map from path to content; what the
      environment makes fail is a list of decisions consumed one per call,
      so that every pattern of failures is an input;
    - [assert] is compiled in; a failed assertion and an uncaught C++
      exception end the program;
    - Mbed TLS, the C library, FatFs, FreeRTOS and Duktape are outside the
      repository and are modelled after their documented behaviour, as
      far as the two headers use them. *)

From Stdlib Require Import ZArith Lia.
From Stdlib Require Import Strings.Ascii Strings.Byte.
From stdpp Require Import base option list strings gmap pretty.

Local Open Scope Z_scope.

(** ** Bytes as the C code sees them: [unsigned char] values 0..255 *)

Definition byte_to_Z (b : byte) : Z := Z.of_N (Byte.to_N b).

Definition byte_of_Z (z : Z) : byte :=
  match Byte.of_N (Z.to_N (z mod 256)) with
  | Some b => b
  | None => Byte.x00
  end.

(** ** Machine integers: [unsigned] and [int] of 32 bits *)

Definition to_uint32 (z : Z) : Z := z mod 2 ^ 32.
Definition to_int32 (z : Z) : Z := (z + 2 ^ 31) mod 2 ^ 32 - 2 ^ 31.

(** ** Base64

    [mbedtls_base64_encode] of Mbed TLS: RFC 4648 with '=' padding; the
    destination must hold the output and a terminating NUL. *)

Module Base64.

(** The alphabet table [base64_enc_map] of Mbed TLS (RFC 4648, table 1). *)
Definition base64_enc_map : list byte :=
  String.list_byte_of_string
    "ABCDEFGHIJKLMNOPQRSTUVWXYZabcdefghijklmnopqrstuvwxyz0123456789+/".

Definition pad : byte := Byte.x3d.  (* '=' *)

Definition enc (i : Z) : byte := nth (Z.to_nat i) base64_enc_map Byte.x00.

(** [size_t] on the 32-bit target. *)
Definition SIZE_T_MAX : Z := 2 ^ 32 - 1.

Inductive b64_status := B64_OK | MBEDTLS_ERR_BASE64_BUFFER_TOO_SMALL.

(** The four table indices computed from a group [C1 C2 C3]. *)
Definition sextet1 (C1 : Z) : Z := Z.land (Z.shiftr C1 2) 63.
Definition sextet2 (C1 C2 : Z) : Z :=
  Z.land (Z.shiftl (Z.land C1 3) 4 + Z.shiftr C2 4) 63.
Definition sextet3 (C2 C3 : Z) : Z :=
  Z.land (Z.shiftl (Z.land C2 15) 2 + Z.shiftr C3 6) 63.
Definition sextet4 (C3 : Z) : Z := Z.land C3 63.

(** The encoding loop of [mbedtls_base64_encode]: whole groups of three
    source bytes, then the one- or two-byte tail with '=' padding. *)
Fixpoint encode_groups (src : list byte) : list byte :=
  match src with
  | [] => []
  | [b1] =>
      let C1 := byte_to_Z b1 in
      let C2 := 0 in
      [ enc (sextet1 C1); enc (sextet2 C1 C2); pad; pad ]
  | [b1; b2] =>
      let C1 := byte_to_Z b1 in
      let C2 := byte_to_Z b2 in
      [ enc (sextet1 C1); enc (sextet2 C1 C2);
        enc (Z.land (Z.shiftl (Z.land C2 15) 2) 63);
        pad ]
  | b1 :: b2 :: b3 :: rest =>
      let C1 := byte_to_Z b1 in
      let C2 := byte_to_Z b2 in
      let C3 := byte_to_Z b3 in
      enc (sextet1 C1) :: enc (sextet2 C1 C2) :: enc (sextet3 C2 C3)
      :: enc (sextet4 C3) :: encode_groups rest
  end.

(** [mbedtls_base64_encode(dst, dlen, &olen, src, slen)].  [src] is the
    content of the source buffer and [slen] the length argument after its
    conversion to [size_t]; the result is the status, [olen] and the bytes
    written to [dst] (without the terminating NUL). *)
Definition mbedtls_base64_encode (dlen : Z) (src : list byte) (slen : Z)
  : b64_status * Z * list byte :=
  if slen =? 0 then (B64_OK, 0, [])
  else
    let n := slen / 3 + (if slen mod 3 =? 0 then 0 else 1) in
    if (SIZE_T_MAX - 1) / 4 <? n
    then (MBEDTLS_ERR_BASE64_BUFFER_TOO_SMALL, SIZE_T_MAX, [])
    else
      let n := n * 4 in
      if dlen <? n + 1
      then (MBEDTLS_ERR_BASE64_BUFFER_TOO_SMALL, n + 1, [])
      else
        let out := encode_groups (take (Z.to_nat slen) src) in
        (B64_OK, Z.of_nat (length out), out).

(** A reference decoder (RFC 4648 section 4), the receiving side of a pull:
    groups of four characters, padding accepted in the final group only. *)
Fixpoint index_of (c : byte) (tbl : list byte) (i : Z) : option Z :=
  match tbl with
  | [] => None
  | t :: tbl' => if Byte.eqb c t then Some i else index_of c tbl' (i + 1)
  end.

Definition dec (c : byte) : option Z := index_of c base64_enc_map 0.

Definition is_pad (c : byte) : bool := Byte.eqb c pad.

Fixpoint base64_decode (e : list byte) : option (list byte) :=
  match e with
  | [] => Some []
  | a :: b :: c :: d :: rest =>
      match dec a, dec b with
      | Some sa, Some sb =>
          let o1 := byte_of_Z (sa * 4 + sb / 16) in
          if is_pad c then
            if is_pad d && bool_decide (rest = []) then Some [o1] else None
          else
            match dec c with
            | Some sc =>
                let o2 := byte_of_Z (sb * 16 + sc / 4) in
                if is_pad d then
                  if bool_decide (rest = []) then Some [o1; o2] else None
                else
                  match dec d, base64_decode rest with
                  | Some sd, Some tl =>
                      Some (o1 :: o2 :: byte_of_Z (sc * 64 + sd) :: tl)
                  | _, _ => None
                  end
            | None => None
            end
      | _, _ => None
      end
  | _ => None
  end.

(** The 64 six-bit values, for facts about the table checked by enumeration. *)
Definition sextets : list Z := map Z.of_nat (seq 0 64).

End Base64.

(** ** The storage command session *)

Module Storage.

(** *** What the session is compiled against

    [getStoragePrefix] (uploader.hpp), [CONFIG_WL_SECTOR_SIZE] (sdkconfig) and
    [jac::fs::listDirectory] (filesystem.hpp) are declared outside the two
    modelled headers; they are taken as parameters.  [listDirectory] is
    represented by the sequence of callbacks it makes. *)

Inductive FileType := File | Directory | Other.

Inductive dir_event :=
  | DirEntry (type : FileType) (path entityName : string)
  | DirError (error : string).

Class Platform := {
  getStoragePrefix : string;
  CONFIG_WL_SECTOR_SIZE : Z;
  listDirectory : string -> gmap string (list byte) -> list dir_event
}.

(** *** The operating system underneath: errno, files, descriptors *)

Inductive errno_t :=
  | E0 | ENOENT | EIO | EBADF | EACCES | EEXIST | ENOSPC | EMFILE | ENOMEM.

Definition strerror (e : errno_t) : string :=
  match e with
  | E0 => "Success"
  | ENOENT => "No such file or directory"
  | EIO => "I/O error"
  | EBADF => "Bad file number"
  | EACCES => "Permission denied"
  | EEXIST => "File exists"
  | ENOSPC => "No space left on device"
  | EMFILE => "Too many open files"
  | ENOMEM => "Not enough space"
  end.

(** What the environment decides about one call: it goes through, it fails
    with an errno, or (for [write]) it transfers only [n] bytes. *)
Inductive fault :=
  | NoFault
  | Fail (e : errno_t)
  | Short (n : nat).

Record open_flags := {
  o_wronly : bool;
  o_creat : bool;
  o_trunc : bool
}.

Definition O_RDONLY : open_flags :=
  {| o_wronly := false; o_creat := false; o_trunc := false |}.
Definition O_TRUNC_WRONLY_CREAT : open_flags :=
  {| o_wronly := true; o_creat := true; o_trunc := true |}.

Record fdesc := {
  fd_path : string;
  fd_pos : nat;
  fd_wronly : bool
}.

(** FAT volume geometry as [f_getfree] reports it. *)
Record FATFS := {
  n_fatent : Z;      (* DWORD *)
  csize : Z;         (* WORD *)
  free_clst : Z      (* DWORD *)
}.

Inductive syscall :=
  | SysOpen (path : string) (fl : open_flags)
  | SysClose (fd : Z)
  | SysRead (fd : Z)
  | SysWrite (fd : Z)
  | SysRemove (path : string)
  | SysRename (old new : string)
  | SysEnsurePath (path : string)
  | SysGetFree.

(** One entry of the system-call log: the call, what it returned and the
    files as it left them. *)
Record event := {
  call : syscall;
  result : Z;
  after : gmap string (list byte)
}.

(** The three kinds of fragment the host's output sink receives. *)
Inductive fragment :=
  | YString (s : string)
  | YBuffer (b : list byte)
  | YError (s : string).

(** The whole state an operation runs in: the filesystem and descriptor
    table, [errno], the pending decisions of the environment, the output
    sink (oldest fragment first), the log of system calls, and the two
    fields of the session object. *)
Record World := {
  files : gmap string (list byte);
  fdtab : gmap Z fdesc;
  errno : errno_t;
  faults : list fault;
  volume : FATFS;
  sink : list fragment;
  trace : list event;
  _workingFd : Z;
  _finished : bool
}.

Definition set_files (f : gmap string (list byte)) (w : World) : World :=
  {| files := f; fdtab := fdtab w; errno := errno w; faults := faults w;
     volume := volume w; sink := sink w; trace := trace w;
     _workingFd := _workingFd w; _finished := _finished w |}.
Definition set_fdtab (t : gmap Z fdesc) (w : World) : World :=
  {| files := files w; fdtab := t; errno := errno w; faults := faults w;
     volume := volume w; sink := sink w; trace := trace w;
     _workingFd := _workingFd w; _finished := _finished w |}.
Definition set_errno (e : errno_t) (w : World) : World :=
  {| files := files w; fdtab := fdtab w; errno := e; faults := faults w;
     volume := volume w; sink := sink w; trace := trace w;
     _workingFd := _workingFd w; _finished := _finished w |}.
Definition set_faults (fs : list fault) (w : World) : World :=
  {| files := files w; fdtab := fdtab w; errno := errno w; faults := fs;
     volume := volume w; sink := sink w; trace := trace w;
     _workingFd := _workingFd w; _finished := _finished w |}.
Definition set_sink (s : list fragment) (w : World) : World :=
  {| files := files w; fdtab := fdtab w; errno := errno w; faults := faults w;
     volume := volume w; sink := s; trace := trace w;
     _workingFd := _workingFd w; _finished := _finished w |}.
Definition set_trace (t : list event) (w : World) : World :=
  {| files := files w; fdtab := fdtab w; errno := errno w; faults := faults w;
     volume := volume w; sink := sink w; trace := t;
     _workingFd := _workingFd w; _finished := _finished w |}.
Definition set_workingFd (fd : Z) (w : World) : World :=
  {| files := files w; fdtab := fdtab w; errno := errno w; faults := faults w;
     volume := volume w; sink := sink w; trace := trace w;
     _workingFd := fd; _finished := _finished w |}.
Definition set_finished (b : bool) (w : World) : World :=
  {| files := files w; fdtab := fdtab w; errno := errno w; faults := faults w;
     volume := volume w; sink := sink w; trace := trace w;
     _workingFd := _workingFd w; _finished := b |}.

(** *** Running an operation

    An operation either returns, or ends the program ([assert] failure or
    an uncaught C++ exception); [OutOfFuel] only says that the bound given
    to a loop was too small. *)
Inductive fatal :=
  | AssertFailed (what : string)
  | Uncaught (what : string).

Inductive outcome (A : Type) :=
  | Ret (a : A) (w : World)
  | Fatal (f : fatal) (w : World)
  | OutOfFuel.
Arguments Ret {A} a w.
Arguments Fatal {A} f w.
Arguments OutOfFuel {A}.

Definition M (A : Type) : Type := World -> outcome A.

Definition ret {A} (a : A) : M A := fun w => Ret a w.
Definition bind {A B} (m : M A) (k : A -> M B) : M B :=
  fun w => match m w with
           | Ret a w' => k a w'
           | Fatal f w' => Fatal f w'
           | OutOfFuel => OutOfFuel
           end.
Definition get : M World := fun w => Ret w w.
Definition modify (f : World -> World) : M unit := fun w => Ret tt (f w).
Definition abort {A} (f : fatal) : M A := fun w => Fatal f w.
(** [assert] is compiled in, as in the default configuration of the SDK. *)
Definition assert (what : string) (cond : bool) : M unit :=
  if cond then ret tt else abort (AssertFailed what).

#[global] Instance M_ret : MRet M := @ret.
#[global] Instance M_bind : MBind M := fun A B k m => bind m k.

(** The world an operation returned in, if it returned. *)
Definition returns {A} (o : outcome A) : option World :=
  match o with
  | Ret _ w => Some w
  | _ => None
  end.

(** The failure and the world an operation ended the program in. *)
Definition aborts {A} (o : outcome A) : option (fatal * World) :=
  match o with
  | Fatal f w => Some (f, w)
  | _ => None
  end.

(** The environment's decision for the next call ([NoFault] once the list
    of pending decisions is used up). *)
Definition next_fault : M fault :=
  fun w => match faults w with
           | [] => Ret NoFault w
           | f :: fs => Ret f (set_faults fs w)
           end.

Definition log (c : syscall) (r : Z) : M unit :=
  modify (fun w =>
    set_trace (trace w ++ [{| call := c; result := r; after := files w |}]) w).

Definition fail_with {A} (e : errno_t) (r : A) : M A :=
  modify (set_errno e) ;; ret r.

(** The lowest descriptor number not in use. *)
Definition fresh_fd (t : gmap Z fdesc) : Z :=
  default 0 (head (filter (fun i => t !! i = None) (seqZ 0 (Z.of_nat (size t) + 1)))).

(** [open(path, flags)] for the two flag sets the session uses. *)
Definition sys_open (path : string) (fl : open_flags) : M Z :=
  f ← next_fault;
  r ← (match f with
        | Fail e => fail_with e (-1)
        | _ =>
            w ← get;
            match files w !! path with
            | None =>
                if o_creat fl then
                  let fd := fresh_fd (fdtab w) in
                  modify (set_files (<[path := []]> (files w))) ;;
                  modify (set_fdtab (<[fd := {| fd_path := path; fd_pos := 0;
                                                fd_wronly := o_wronly fl |}]> (fdtab w))) ;;
                  ret fd
                else fail_with ENOENT (-1)
            | Some content =>
                let fd := fresh_fd (fdtab w) in
                (if o_trunc fl
                 then modify (set_files (<[path := []]> (files w)))
                 else ret tt) ;;
                modify (set_fdtab (<[fd := {| fd_path := path; fd_pos := 0;
                                              fd_wronly := o_wronly fl |}]> (fdtab w))) ;;
                ret fd
            end
        end);
  log (SysOpen path fl) r ;;
  ret r.

Definition sys_close (fd : Z) : M Z :=
  f ← next_fault;
  r ← (match f with
        | Fail e => fail_with e (-1)
        | _ =>
            w ← get;
            match fdtab w !! fd with
            | None => fail_with EBADF (-1)
            | Some _ => modify (set_fdtab (delete fd (fdtab w))) ;; ret 0
            end
        end);
  log (SysClose fd) r ;;
  ret r.

(** [read(fd, buf, count)]: the count returned and the bytes stored at the
    start of [buf].  Regular files are read in full: fewer than [count]
    bytes only at the end of the file. *)
Definition sys_read (fd : Z) (count : nat) : M (Z * list byte) :=
  f ← next_fault;
  r ← (match f with
        | Fail e => fail_with e (-1, [])
        | _ =>
            w ← get;
            match fdtab w !! fd with
            | None => fail_with EBADF (-1, [])
            | Some d =>
                if fd_wronly d then fail_with EBADF (-1, [])
                else
                  match files w !! fd_path d with
                  | None => fail_with EBADF (-1, [])
                  | Some content =>
                      let data := take count (drop (fd_pos d) content) in
                      modify (set_fdtab (<[fd := {| fd_path := fd_path d;
                                                    fd_pos := (fd_pos d + length data)%nat;
                                                    fd_wronly := false |}]> (fdtab w))) ;;
                      ret (Z.of_nat (length data), data)
                  end
            end
        end : M (Z * list byte));
  log (SysRead fd) (fst r) ;;
  ret r.

(** Overwrite [content] from position [pos] on with [data], extending the
    file (zero filled up to [pos] if needed). *)
Definition splice (content : list byte) (pos : nat) (data : list byte) : list byte :=
  take pos (content ++ replicate (pos - length content) Byte.x00)
  ++ data ++ drop (pos + length data) content.

Definition sys_write (fd : Z) (buf : list byte) : M Z :=
  f ← next_fault;
  r ← (match f with
        | Fail e => fail_with e (-1)
        | _ =>
            w ← get;
            match fdtab w !! fd with
            | None => fail_with EBADF (-1)
            | Some d =>
                if negb (fd_wronly d) then fail_with EBADF (-1)
                else
                  match files w !! fd_path d with
                  | None => fail_with EBADF (-1)
                  | Some content =>
                      let data := match f with
                                  | Short n => take n buf
                                  | _ => buf
                                  end in
                      modify (set_files (<[fd_path d := splice content (fd_pos d) data]> (files w))) ;;
                      modify (set_fdtab (<[fd := {| fd_path := fd_path d;
                                                    fd_pos := (fd_pos d + length data)%nat;
                                                    fd_wronly := true |}]> (fdtab w))) ;;
                      ret (Z.of_nat (length data))
                  end
            end
        end);
  log (SysWrite fd) r ;;
  ret r.

Definition sys_remove (path : string) : M Z :=
  f ← next_fault;
  r ← (match f with
        | Fail e => fail_with e (-1)
        | _ =>
            w ← get;
            match files w !! path with
            | None => fail_with ENOENT (-1)
            | Some _ => modify (set_files (delete path (files w))) ;; ret 0
            end
        end);
  log (SysRemove path) r ;;
  ret r.

(** [rename] on the FAT volume: refused when the new name exists. *)
Definition sys_rename (old new : string) : M Z :=
  f ← next_fault;
  r ← (match f with
        | Fail e => fail_with e (-1)
        | _ =>
            w ← get;
            match files w !! old, files w !! new with
            | None, _ => fail_with ENOENT (-1)
            | Some _, Some _ => fail_with EEXIST (-1)
            | Some content, None =>
                modify (set_files (<[new := content]> (delete old (files w)))) ;;
                ret 0
            end
        end);
  log (SysRename old new) r ;;
  ret r.

(** Modelled from the spec: [jac::fs::ensurePath] (filesystem.hpp) is not
    among the two headers; the spec gives [ensurePath(path) -> bool],
    "ensures all intermediate directories exist".  The namespace here is
    flat, so the call only succeeds or fails (leaving [errno]) as the
    environment decides; it never touches a regular file. *)
Definition ensurePath (path : string) : M bool :=
  f ← next_fault;
  r ← (match f with
        | Fail e => fail_with e false
        | _ => ret true
        end);
  log (SysEnsurePath path) (if r : bool then 1 else 0) ;;
  ret r.

(** [f_getfree("0:", &freeClusters, &fs)]: zero and the geometry, or a
    nonzero [FRESULT]. *)
Definition f_getfree : M (Z * FATFS) :=
  f ← next_fault;
  r ← (match f with
        | Fail e => w ← get; ret (1, volume w)
        | _ => w ← get; ret (0, volume w)
        end : M (Z * FATFS));
  log SysGetFree (fst r) ;;
  ret r.

(** What every system call leaves alone, and how it extends the log: the
    frame shared by the specifications of the calls. *)
Definition pending (w : World) : fault := hd NoFault (faults w).

Record sys_step (c : syscall) (r : Z) (w w' : World) : Prop := {
  step_sink : sink w' = sink w;
  step_workingFd : _workingFd w' = _workingFd w;
  step_finished : _finished w' = _finished w;
  step_volume : volume w' = volume w;
  step_faults : faults w' = tail (faults w);
  step_trace :
    trace w' = trace w ++ [{| call := c; result := r; after := files w' |}]
}.

(** *** The output sink of the host object *)

Definition nl : string := String (Ascii.ascii_of_nat 10) EmptyString.
Definition OK_nl : string := "OK" +:+ nl.

Definition yieldString (s : string) : M unit :=
  modify (fun w => set_sink (sink w ++ [YString s]) w).
Definition yieldBuffer (b : list byte) : M unit :=
  modify (fun w => set_sink (sink w ++ [YBuffer b]) w).
Definition yieldError (s : string) : M unit :=
  modify (fun w => set_sink (sink w ++ [YError s]) w).

Section Commands.
Context `{Platform}.

(** *** Paths *)

Definition workingFilename : string := getStoragePrefix +:+ "/__tmp.txt".

(** [filename.front()] of an empty string reads the terminator, which is
    not '/'. *)
Definition fsPath (filename : string) : string :=
  let path := getStoragePrefix in
  let path := match filename with
              | String "/"%char _ => path
              | _ => path +:+ "/"
              end in
  path +:+ filename.

(** *** list *)

(** [std::string_view(path).substr(pos)]: throws [std::out_of_range]
    when [pos] exceeds the size. *)
Fixpoint string_drop (n : nat) (s : string) : string :=
  match n, s with
  | O, _ => s
  | S n', String _ s' => string_drop n' s'
  | S _, EmptyString => EmptyString
  end.

Definition substr (s : string) (pos : nat) : M string :=
  if (String.length s <? pos)%nat
  then abort (Uncaught "std::out_of_range")
  else ret (string_drop pos s).

Definition startswith (s p : string) : bool := String.prefix p s.

Definition onEntry (prefixLen : nat) (ev : dir_event) : M unit :=
  match ev with
  | DirEntry type path entityName =>
      if startswith entityName "__" then ret tt
      else
        (match type with
         | Directory => yieldString "D"
         | File => yieldString "F"
         | Other => yieldString "?"
         end) ;;
        rel ← substr path prefixLen;
        yieldString (" " +:+ rel +:+ "/" +:+ entityName +:+ nl)
  | DirError error => yieldError error
  end.

Fixpoint for_each {A} (f : A -> M unit) (l : list A) : M unit :=
  match l with
  | [] => ret tt
  | x :: l' => f x ;; for_each f l'
  end.

Definition doList (prefix : string) : M unit :=
  let prefixLen := (String.length getStoragePrefix + 1)%nat in
  w ← get;
  for_each (onEntry prefixLen) (listDirectory (getStoragePrefix +:+ prefix) (files w)) ;;
  yieldString nl.

(** *** pull *)

Definition CHUNK_SIZE : Z := 1023.
Definition ENCODED_SIZE : Z := 4 * (CHUNK_SIZE + 2) / 3 + 1.

(** The buffer after [read] stored [data] at its start. *)
Definition store (data buf : list byte) : list byte :=
  data ++ drop (length data) buf.

(** The [while] loop of [doPull]; [fuel] bounds the number of iterations. *)
Fixpoint pull_loop (fuel : nat) (fd : Z) (fileBuffer : list byte) : M unit :=
  match fuel with
  | O => fun _ => OutOfFuel
  | S fuel' =>
      r ← sys_read fd (Z.to_nat CHUNK_SIZE);
      let bytesRead := fst r in
      let fileBuffer := store (snd r) fileBuffer in
      if bytesRead =? 0 then ret tt
      else
        let '(result, processed, encBuffer) :=
          Base64.mbedtls_base64_encode ENCODED_SIZE fileBuffer (to_uint32 bytesRead) in
        assert "result != MBEDTLS_ERR_BASE64_BUFFER_TOO_SMALL"
          (match result with
           | Base64.MBEDTLS_ERR_BASE64_BUFFER_TOO_SMALL => false
           | Base64.B64_OK => true
           end) ;;
        yieldBuffer (take (Z.to_nat processed) encBuffer) ;;
        pull_loop fuel' fd fileBuffer
  end.

Definition doPull (fuel : nat) (filename : string) : M unit :=
  let path := fsPath filename in
  let fileBuffer := replicate (Z.to_nat CHUNK_SIZE) Byte.x00 in
  fd ← sys_open path O_RDONLY;
  if fd <? 0 then
    w ← get;
    yieldError (strerror (errno w))
  else
    pull_loop fuel fd fileBuffer ;;
    yieldString nl ;;
    sys_close fd ;;
    ret tt.

(** *** remove *)

Definition doRemove (filename : string) : M unit :=
  let filePath := fsPath filename in
  r ← sys_remove filePath;
  (if r <? 0 then w ← get; yieldError (strerror (errno w)) else ret tt) ;;
  yieldString OK_nl.

(** *** push *)

Definition startFilePush : M unit :=
  w ← get;
  (if 0 <=? _workingFd w then sys_close (_workingFd w) ;; ret tt else ret tt) ;;
  fd ← sys_open workingFilename O_TRUNC_WRONLY_CREAT;
  modify (set_workingFd fd) ;;
  if fd <? 0 then
    w ← get;
    yieldError (strerror (errno w))
  else ret tt.

(** [addFileChunk(buffer, size)], the chunk given as the [size] bytes at
    [buffer]. *)
Definition addFileChunk (buffer : list byte) : M unit :=
  w ← get;
  assert "_workingFd >= 0" (0 <=? _workingFd w) ;;
  written ← sys_write (_workingFd w) buffer;
  if written <? 0 then
    w ← get;
    yieldError (strerror (errno w))
  else ret tt.

Definition commitFilePush (filename : string) : M unit :=
  w ← get;
  sys_close (_workingFd w) ;;
  modify (set_workingFd (-1)) ;;
  let path := fsPath filename in
  ok ← ensurePath path;
  (if negb ok then
     w ← get;
     yieldError ("Cannot create path " +:+ path +:+ ": " +:+ strerror (errno w))
   else ret tt) ;;
  sys_remove path ;;
  fd ← sys_open workingFilename O_RDONLY;
  assert "fd >= 0" (0 <=? fd) ;;
  sys_close fd ;;
  res ← sys_rename workingFilename path;
  (if res <? 0 then
     w ← get;
     yieldError ("Cannot finalize push: " +:+ strerror (errno w))
   else ret tt) ;;
  yieldString OK_nl.

(** *** exit and stats *)

Definition performExit : M unit :=
  yieldString OK_nl ;;
  modify (set_finished true).

(** [DWORD] arithmetic is modulo 2^32 and the results are stored in [int];
    the two [int] products wrap the way the target's multiply does. *)
Definition doStats : M unit :=
  r ← f_getfree;
  let '(res, fs) := r in
  if negb (res =? 0) then
    yieldError "Cannot determine free space"
  else
    let freeClusters := free_clst fs in
    let totalSectors := to_int32 (to_uint32 ((n_fatent fs - 2) * csize fs)) in
    let freeSectors := to_int32 (to_uint32 (freeClusters * csize fs)) in
    yieldString (pretty (to_int32 (freeSectors * CONFIG_WL_SECTOR_SIZE)) +:+ " "
                 +:+ pretty (to_int32 (totalSectors * CONFIG_WL_SECTOR_SIZE)) +:+ nl).

(** An upload as the transport drives it: start, the chunks, commit. *)
Definition push (chunks : list (list byte)) (filename : string) : M unit :=
  startFilePush ;;
  for_each addFileChunk chunks ;;
  commitFilePush filename.

End Commands.

(** *** Vocabulary of the specification *)

(** Successive chunks of [n] elements, the last one possibly shorter, none
    empty ([fuel] bounds the number of chunks). *)
Fixpoint chunks_fuel {A} (fuel n : nat) (l : list A) : list (list A) :=
  match fuel with
  | O => []
  | S fuel' =>
      match l with
      | [] => []
      | _ => take n l :: chunks_fuel fuel' n (drop n l)
      end
  end.

Definition chunks {A} (n : nat) (l : list A) : list (list A) :=
  chunks_fuel (length l) n l.

(** What a pull of a file with the given content is specified to emit. *)
Definition pulled (content : list byte) : list fragment :=
  map (fun chunk => YBuffer (Base64.encode_groups chunk))
      (chunks (Z.to_nat CHUNK_SIZE) content)
  ++ [YString nl].

(** No padding character in an encoded chunk. *)
Definition unpadded (e : list byte) : Prop := Forall (fun c => c <> Base64.pad) e.

Definition is_error (f : fragment) : bool :=
  match f with
  | YError _ => true
  | _ => false
  end.

(** An upload in progress with [content] staged so far, and nothing that
    the environment will make fail. *)
Definition staged `{Platform} (content : list byte) (w : World) : Prop :=
  faults w = [] /\ 0 <= _workingFd w /\
  fdtab w !! _workingFd w
    = Some {| fd_path := workingFilename; fd_pos := length content;
              fd_wronly := true |} /\
  files w !! workingFilename = Some content.

(** The file at [path] is as it was in [before], or is not there. *)
Definition untouched (path : string) (before fs : gmap string (list byte)) : Prop :=
  fs !! path = None \/ fs !! path = before !! path.

(** The bytes a pull puts on the wire. *)
Definition fragment_bytes (f : fragment) : list byte :=
  match f with
  | YString s => String.list_byte_of_string s
  | YBuffer b => b
  | YError s => String.list_byte_of_string s
  end.

Definition wire (out : list fragment) : list byte :=
  concat (map fragment_bytes out).

Definition newline : byte := Byte.x0a.

(** Strip one trailing newline. *)
Definition strip_newline (l : list byte) : option (list byte) :=
  match reverse l with
  | c :: r => if Byte.eqb c newline then Some (reverse r) else None
  | [] => None
  end.

(** *** More vocabulary: listings, descriptors, whole sessions *)

(** The entries of a listing that are not hidden. *)
Definition visible (ev : dir_event) : bool :=
  match ev with
  | DirEntry _ _ entityName => negb (startswith entityName "__")
  | DirError _ => true
  end.

(** The path of an entry is long enough for [substr(prefixLen)]. *)
Definition fits (prefixLen : nat) (ev : dir_event) : Prop :=
  match ev with
  | DirEntry _ path _ => (prefixLen <= String.length path)%nat
  | DirError _ => True
  end.

Definition marker (type : FileType) : string :=
  match type with
  | Directory => "D"
  | File => "F"
  | Other => "?"
  end.

(** The fragments of one line of a listing. *)
Definition line (prefixLen : nat) (ev : dir_event) : list fragment :=
  match ev with
  | DirEntry type path entityName =>
      [ YString (marker type);
        YString (" " +:+ string_drop prefixLen path +:+ "/" +:+ entityName +:+ nl) ]
  | DirError error => [ YError error ]
  end.

(** What is left to read on a descriptor. *)
Definition remaining (fd : Z) (w : World) : nat :=
  match fdtab w !! fd with
  | Some d =>
      match files w !! fd_path d with
      | Some content => length (drop (fd_pos d) content)
      | None => O
      end
  | None => O
  end.

Definition is_buffer (f : fragment) : Prop :=
  match f with
  | YBuffer _ => True
  | _ => False
  end.

(** From [w] to [w'] nothing was done but reading on [fd] and emitting
    buffer fragments [out]; [evs] are the calls made. *)
Definition only_read (fd : Z) (w w' : World) (out : list fragment) (evs : list event) : Prop :=
  files w' = files w /\ _workingFd w' = _workingFd w /\ _finished w' = _finished w /\
  (forall k, k <> fd -> fdtab w' !! k = fdtab w !! k) /\
  sink w' = sink w ++ out /\ Forall is_buffer out /\
  trace w' = trace w ++ evs /\ Forall (fun e => call e = SysRead fd) evs.

(** The pending handle of the session is -1 or a descriptor open for
    writing on the working file. *)
Definition handle_ok `{Platform} (w : World) : Prop :=
  _workingFd w = -1 \/
  exists pos,
    fdtab w !! _workingFd w
    = Some {| fd_path := workingFilename; fd_pos := pos; fd_wronly := true |}.

(** An upload in progress, the descriptor table and the files given in
    full: [table] and [others] are what is there beside the pending
    descriptor and the working file. *)
Definition staging `{Platform} (table : gmap Z fdesc) (others : gmap string (list byte))
    (content : list byte) (w : World) : Prop :=
  faults w = [] /\ 0 <= _workingFd w /\
  table !! _workingFd w = None /\
  fdtab w = <[_workingFd w := {| fd_path := workingFilename;
                                 fd_pos := length content;
                                 fd_wronly := true |}]> table /\
  files w = <[workingFilename := content]> others.

(** The operations of the public interface, to speak of any of them. *)
Inductive operation :=
  | OpList (prefix : string)
  | OpPull (filename : string)
  | OpRemove (filename : string)
  | OpStart
  | OpChunk (buffer : list byte)
  | OpCommit (filename : string)
  | OpExit
  | OpStats.

Definition perform `{Platform} (fuel : nat) (op : operation) : M unit :=
  match op with
  | OpList prefix => doList prefix
  | OpPull filename => doPull fuel filename
  | OpRemove filename => doRemove filename
  | OpStart => startFilePush
  | OpChunk buffer => addFileChunk buffer
  | OpCommit filename => commitFilePush filename
  | OpExit => performExit
  | OpStats => doStats
  end.

(** A session: the operations the transport dispatches, one after the
    other. *)
Definition session `{Platform} (fuel : nat) (ops : list operation) : M unit :=
  for_each (perform fuel) ops.

(** The files an operation may create, change or delete. *)
Definition targets `{Platform} (op : operation) : list string :=
  match op with
  | OpRemove filename => [fsPath filename]
  | OpStart | OpChunk _ => [workingFilename]
  | OpCommit filename => [workingFilename; fsPath filename]
  | OpList _ | OpPull _ | OpExit | OpStats => []
  end.

(** From [w] to [w'] the pending handle stayed what it has to be, a
    finished session stayed finished, and the files outside [touched] are
    as they were. *)
Definition kept `{Platform} (touched : list string) (w w' : World) : Prop :=
  handle_ok w' /\
  (_finished w = true -> _finished w' = true) /\
  forall p, p ∉ touched -> files w' !! p = files w !! p.

End Storage.

(** ** The RTOS timer bridge *)

Module Timers.

Definition INT_MIN : Z := - 2 ^ 31.
Definition INT_MAX : Z := 2 ^ 31 - 1.

(** Script values, as far as the three bindings look at them.  A number
    stands for its integral value: fractions, NaN and infinities are not
    represented. *)
Inductive jsval :=
  | JUndefined
  | JBoolean (b : bool)
  | JNumber (n : Z)
  | JString (s : string)
  | JFunction (f : nat).

Inductive error :=
  | TypeError (what : string)
  | RuntimeError (what : string)      (* [std::runtime_error] *)
  | ScriptError (what : string).      (* thrown by script code *)

(** The three native functions of the feature, and what
    [duk_push_c_function(ctx, func, nargs)] makes of one. *)
Inductive duk_c_function :=
  | c_dukCreateTimer
  | c_dukDeleteTimer
  | c_dukMillis.

Inductive native :=
  | Native (func : duk_c_function) (nargs : Z).

(** A FreeRTOS software timer: its period, the [uxAutoReload] flag, and
    which instance of [timerCallback] was installed. *)
Record xTIMER := {
  xTimerPeriodInTicks : Z;
  uxAutoReload : bool;
  pxCallbackAutoReload : bool;   (* the [AutoReload] of [timerCallback<AutoReload>] *)
  active : bool
}.

(** The machine the feature is mixed into, reduced to what the feature
    touches: the [timerSlot] object of the heap stash (property key to
    value, a numeric key standing for its canonical string), the timers
    the RTOS holds (by handle, a 32-bit address), the handles its allocator
    will give out next, the queue of scheduled invocations, the record of
    the script functions called so far, the tick counter,
    [m_startTicks], and the properties of the global object that hold the
    feature's native functions. *)
Record Machine := {
  timerSlot : gmap Z jsval;
  rtos : gmap Z xTIMER;
  allocator : list Z;
  scheduled : list (Z * bool);
  called : list nat;
  xTickCount : Z;
  m_startTicks : Z;
  globals : gmap string native
}.

Definition set_timerSlot (t : gmap Z jsval) (s : Machine) : Machine :=
  {| timerSlot := t; rtos := rtos s; allocator := allocator s;
     scheduled := scheduled s; called := called s;
     xTickCount := xTickCount s; m_startTicks := m_startTicks s;
     globals := globals s |}.
Definition set_rtos (r : gmap Z xTIMER) (s : Machine) : Machine :=
  {| timerSlot := timerSlot s; rtos := r; allocator := allocator s;
     scheduled := scheduled s; called := called s;
     xTickCount := xTickCount s; m_startTicks := m_startTicks s;
     globals := globals s |}.
Definition set_allocator (a : list Z) (s : Machine) : Machine :=
  {| timerSlot := timerSlot s; rtos := rtos s; allocator := a;
     scheduled := scheduled s; called := called s;
     xTickCount := xTickCount s; m_startTicks := m_startTicks s;
     globals := globals s |}.
Definition set_scheduled (q : list (Z * bool)) (s : Machine) : Machine :=
  {| timerSlot := timerSlot s; rtos := rtos s; allocator := allocator s;
     scheduled := q; called := called s;
     xTickCount := xTickCount s; m_startTicks := m_startTicks s;
     globals := globals s |}.
Definition set_called (c : list nat) (s : Machine) : Machine :=
  {| timerSlot := timerSlot s; rtos := rtos s; allocator := allocator s;
     scheduled := scheduled s; called := c;
     xTickCount := xTickCount s; m_startTicks := m_startTicks s;
     globals := globals s |}.
Definition set_xTickCount (t : Z) (s : Machine) : Machine :=
  {| timerSlot := timerSlot s; rtos := rtos s; allocator := allocator s;
     scheduled := scheduled s; called := called s;
     xTickCount := t; m_startTicks := m_startTicks s;
     globals := globals s |}.
Definition set_globals (g : gmap string native) (s : Machine) : Machine :=
  {| timerSlot := timerSlot s; rtos := rtos s; allocator := allocator s;
     scheduled := scheduled s; called := called s;
     xTickCount := xTickCount s; m_startTicks := m_startTicks s;
     globals := g |}.
Definition set_startTicks (t : Z) (s : Machine) : Machine :=
  {| timerSlot := timerSlot s; rtos := rtos s; allocator := allocator s;
     scheduled := scheduled s; called := called s;
     xTickCount := xTickCount s; m_startTicks := t;
     globals := globals s |}.

(** A call returns a value, throws (a script error or a C++ exception), or
    ends the program ([configASSERT], use of a deleted timer). *)
Inductive result (A : Type) :=
  | Return (a : A) (s : Machine)
  | Throw (e : error) (s : Machine)
  | Crash (why : string) (s : Machine).
Arguments Return {A} a s.
Arguments Throw {A} e s.
Arguments Crash {A} why s.

Definition T (A : Type) : Type := Machine -> result A.

Definition ret {A} (a : A) : T A := fun s => Return a s.
Definition bind {A B} (m : T A) (k : A -> T B) : T B :=
  fun s => match m s with
           | Return a s' => k a s'
           | Throw e s' => Throw e s'
           | Crash why s' => Crash why s'
           end.
Definition throw {A} (e : error) : T A := fun s => Throw e s.
Definition crash {A} (why : string) : T A := fun s => Crash why s.
Definition get : T Machine := fun s => Return s s.
Definition modify (f : Machine -> Machine) : T unit := fun s => Return tt (f s).

#[global] Instance T_ret : MRet T := @ret.
#[global] Instance T_bind : MBind T := fun A B k m => bind m k.

(** What the feature is built against: the tick rate of the RTOS
    (FreeRTOSConfig.h); the script functions, each given by what a call
    of it with no arguments does to the machine: it returns or throws;
    the embedded script "/builtin/rtosTimerWrappers.js" (linked in between
    [rtosTimerWrappersStart] and [rtosTimerWrappersEnd], not among the two
    headers), given by what compiling and running it does to the machine;
    and what the target makes of the conversion to [int] of a number
    outside the range of [int], which the language does not define. *)
Class Runtime := {
  configTICK_RATE_HZ : Z;
  script : nat -> Machine -> Machine * option error;
  rtosTimerWrappers : Machine -> Machine * option error;
  out_of_range_int : Z -> Z
}.

(** *** Duktape argument checks *)

Definition duk_require_number (v : jsval) : T Z :=
  match v with
  | JNumber n => ret n
  | _ => throw (TypeError "number required")
  end.

Definition duk_require_boolean (v : jsval) : T bool :=
  match v with
  | JBoolean b => ret b
  | _ => throw (TypeError "boolean required")
  end.

Definition duk_require_function (v : jsval) : T unit :=
  match v with
  | JFunction _ => ret tt
  | _ => throw (TypeError "function required")
  end.

Definition duk_require_callable (v : jsval) : T nat :=
  match v with
  | JFunction f => ret f
  | _ => throw (TypeError "callable required")
  end.

(** [duk_require_int]: the number clamped to the range of [int]. *)
Definition duk_require_int (v : jsval) : T Z :=
  match v with
  | JNumber n => ret (Z.max INT_MIN (Z.min INT_MAX n))
  | _ => throw (TypeError "number required")
  end.

(** [duk_get_prop] on [timerSlot]: [undefined] for a missing key. *)
Definition slot_get (key : Z) : T jsval :=
  s ← get; ret (default JUndefined (timerSlot s !! key)).
Definition slot_has (key : Z) : T bool :=
  s ← get; ret (bool_decide (is_Some (timerSlot s !! key))).
Definition slot_put (key : Z) (v : jsval) : T unit :=
  modify (fun s => set_timerSlot (<[key := v]> (timerSlot s)) s).
Definition slot_del (key : Z) : T unit :=
  modify (fun s => set_timerSlot (delete key (timerSlot s)) s).

Section Feature.
Context `{Runtime}.

(** [duk_call(ctx, 0)] on a function: recorded, then run. *)
Definition duk_call (f : nat) : T unit :=
  fun s =>
    let s := set_called (called s ++ [f]) s in
    match script f s with
    | (s', None) => Return tt s'
    | (s', Some e) => Throw e s'
    end.

(** *** FreeRTOS *)

Definition pdMS_TO_TICKS (xTimeInMs : Z) : Z :=
  to_uint32 (to_uint32 xTimeInMs * to_uint32 configTICK_RATE_HZ) / 1000.

Definition portTICK_RATE_MS : Z := 1000 / configTICK_RATE_HZ.

(** [xTimerCreate]: a zero period is a [configASSERT] failure; otherwise
    the next handle of the allocator, or NULL when it has none. *)
Definition xTimerCreate (period : Z) (autoReload cbAutoReload : bool) : T Z :=
  if period =? 0 then crash "configASSERT( xTimerPeriodInTicks > 0 )"
  else
    s ← get;
    match allocator s with
    | [] => ret 0
    | h :: rest =>
        modify (set_allocator rest) ;;
        if h =? 0 then ret 0
        else
          modify (fun s => set_rtos (<[h := {| xTimerPeriodInTicks := period;
                                             uxAutoReload := autoReload;
                                             pxCallbackAutoReload := cbAutoReload;
                                             active := false |}]> (rtos s)) s) ;;
          ret h
    end.

Definition xTimerStart (h : Z) : T unit :=
  s ← get;
  match rtos s !! h with
  | None => crash "xTimerStart: not a timer"
  | Some t =>
      modify (set_rtos (<[h := {| xTimerPeriodInTicks := xTimerPeriodInTicks t;
                                  uxAutoReload := uxAutoReload t;
                                  pxCallbackAutoReload := pxCallbackAutoReload t;
                                  active := true |}]> (rtos s)))
  end.

Definition xTimerDelete (h : Z) : T unit :=
  s ← get;
  match rtos s !! h with
  | None => crash "xTimerDelete: not a timer"
  | Some _ => modify (set_rtos (delete h (rtos s)))
  end.

(** Modelled from the spec: [schedule] (jsmachine.hpp) is not among the
    two headers; the spec has the firing context enqueue a deferred
    invocation request that the scripting loop later dequeues, delivered
    first in, first out.  The closure scheduled by [timerCallback] is kept
    as the two values it pushes. *)
Definition schedule (timerId : Z) (cleanup : bool) : T unit :=
  modify (fun s => set_scheduled (scheduled s ++ [(timerId, cleanup)]) s).

(** *** The feature *)

(** A fresh object takes the place of the slot in the heap stash. *)
Definition setupSlot : T unit :=
  modify (set_timerSlot ∅).

Definition registerFunctions : T unit :=
  modify (fun s => set_globals
                     (<["createTimer" := Native c_dukCreateTimer 3]> (globals s)) s) ;;
  modify (fun s => set_globals
                     (<["deleteTimer" := Native c_dukDeleteTimer 1]> (globals s)) s) ;;
  modify (fun s => set_globals
                     (<["millis" := Native c_dukMillis 0]> (globals s)) s).

(** [duk_compile] and [duk_call] on the embedded script: an error of
    either leaves [registerRuntime] as a throw. *)
Definition registerRuntime : T unit :=
  fun s =>
    match rtosTimerWrappers s with
    | (s', None) => Return tt s'
    | (s', Some e) => Throw e s'
    end.

Definition initialize : T unit :=
  setupSlot ;;
  registerFunctions ;;
  registerRuntime ;;
  s ← get;
  modify (set_startTicks (xTickCount s)).

Definition createTimer (period : Z) (oneShot : bool) : T Z :=
  if period =? 0
  then throw (RuntimeError "Timers with no period are not implemented yet")
  else if oneShot
       then xTimerCreate (pdMS_TO_TICKS period) (negb oneShot) false
       else xTimerCreate (pdMS_TO_TICKS period) (negb oneShot) true.

(** [timerCallback<AutoReload>(timer)], run in the timer service. *)
Definition timerCallback (AutoReload : bool) (timer : Z) : T unit :=
  let timerId := to_int32 timer in
  schedule timerId (negb AutoReload) ;;
  if negb AutoReload then xTimerDelete timer else ret tt.

(** The [int] a script number converts to: the number itself within the
    range of [int]; outside it the conversion is undefined, and the value
    is what the target gives, some [int]. *)
Definition number_to_int (n : Z) : Z :=
  if (INT_MIN <=? n) && (n <=? INT_MAX) then n
  else to_int32 (out_of_range_int n).

Definition dukCreateTimer (a0 a1 a2 : jsval) : T jsval :=
  n ← duk_require_number a0;
  let period := number_to_int n in
  oneShot ← duk_require_boolean a1;
  duk_require_function a2 ;;
  t ← createTimer period oneShot;
  xTimerStart t ;;
  let timerId := to_int32 t in
  slot_put (to_uint32 timerId) a2 ;;
  ret (JNumber timerId).

(** [dukInvokeTimer] on the two values [timerCallback] scheduled. *)
Definition dukInvokeTimer (timer : Z) (cleanup : bool) : T unit :=
  v ← slot_get timer;
  f ← duk_require_callable v;
  duk_call f ;;
  if cleanup then slot_del timer else ret tt.

Definition dukDeleteTimer (a0 : jsval) : T unit :=
  timerId ← duk_require_int a0;
  match a0 with
  | JNumber key =>
      present ← slot_has key;
      if present : bool then
        slot_del key ;;
        xTimerDelete (to_uint32 timerId)
      else ret tt
  | _ => ret tt
  end.

Definition dukMillis : T jsval :=
  s ← get;
  let ticks := to_uint32 (xTickCount s - m_startTicks s) in
  ret (JNumber (to_int32 (to_uint32 (ticks * portTICK_RATE_MS)))).

(** *** The two contexts around the feature *)

(** The timer service finds timer [h] expired: a one-shot timer becomes
    dormant, and the callback installed at creation runs. *)
Definition expire (h : Z) : T unit :=
  s ← get;
  match rtos s !! h with
  | None => crash "expire: not a timer"
  | Some t =>
      (if uxAutoReload t then ret tt
       else modify (set_rtos (<[h := {| xTimerPeriodInTicks := xTimerPeriodInTicks t;
                                        uxAutoReload := false;
                                        pxCallbackAutoReload := pxCallbackAutoReload t;
                                        active := false |}]> (rtos s)))) ;;
      timerCallback (pxCallbackAutoReload t) h
  end.

(** The tick interrupt, [d] times: [xTickCount] is a 32-bit counter. *)
Definition advance (d : Z) : T unit :=
  modify (fun s => set_xTickCount (to_uint32 (xTickCount s + d)) s).

(** The scripting loop takes the oldest scheduled invocation and runs it. *)
Definition drain : T unit :=
  s ← get;
  match scheduled s with
  | [] => ret tt
  | (timerId, cleanup) :: rest =>
      modify (set_scheduled rest) ;;
      dukInvokeTimer timerId cleanup
  end.

(** [n] times: the timer fires, the loop drains. *)
Fixpoint firings (n : nat) (h : Z) : T unit :=
  match n with
  | O => ret tt
  | S n' => expire h ;; drain ;; firings n' h
  end.

End Feature.

End Timers.

(** ** A concrete board, for running the model *)

Module Board.
Import Storage.

#[export] Instance platform : Platform := {|
  getStoragePrefix := "/spiffs";
  CONFIG_WL_SECTOR_SIZE := 4096;
  listDirectory := fun _ _ => []
|}.

(** A freshly constructed session on a volume holding [fs]. *)
Definition boot (fs : gmap string (list byte)) (fl : list fault) : World :=
  {| files := fs; fdtab := ∅; errno := E0; faults := fl;
     volume := {| n_fatent := 258; csize := 1; free_clst := 200 |};
     sink := []; trace := [];
     _workingFd := -1; _finished := false |}.

(** The same with an upload in progress: [content] staged in the working
    file, descriptor 0 pending at its end. *)
Definition uploading (content : list byte) (fl : list fault) : World :=
  {| files := {[ workingFilename := content ]};
     fdtab := {[ 0 := {| fd_path := workingFilename;
                         fd_pos := length content;
                         fd_wronly := true |} ]};
     errno := E0; faults := fl;
     volume := {| n_fatent := 258; csize := 1; free_clst := 200 |};
     sink := []; trace := [];
     _workingFd := 0; _finished := false |}.

Definition abc : list byte := [Byte.x61; Byte.x62; Byte.x63].

(** An empty volume; a volume holding "a.txt"; an upload whose next call
    will fail for lack of space. *)
Definition blank : World := boot ∅ [].
Definition holding : World := boot {[ fsPath "a.txt" := abc ]} [].
Definition failing_upload : World := uploading [] [Fail ENOSPC].

(** A file of [n] bytes, 0 1 2 ... (modulo 256). *)
Definition sample (n : nat) : list byte := map (fun i => byte_of_Z (Z.of_nat i)) (seq 0 n).

(** Upload [sample n] in two chunks, pull it, strip the newline, decode
    and compare. *)
Definition roundtrip (n : nat) : bool :=
  let data := sample n in
  match push [take 700 data; drop 700 data] "dir/data.bin" (boot ∅ []) with
  | Ret _ w1 =>
      match doPull (S n) "dir/data.bin" (set_sink [] w1) with
      | Ret _ w2 =>
          match strip_newline (wire (sink w2)) with
          | Some encoded =>
              match Base64.base64_decode encoded with
              | Some back => bool_decide (map byte_to_Z back = map byte_to_Z data)
              | None => false
              end
          | None => false
          end
      | _ => false
      end
  | _ => false
  end.

(** Two script functions: 0 does nothing, 1 throws.  The embedded script
    returns and leaves the machine alone; a number out of range converts
    to the least [int]. *)
#[export] Instance runtime : Timers.Runtime := {|
  Timers.configTICK_RATE_HZ := 100;
  Timers.script := fun f s =>
    match f with
    | O => (s, None)
    | _ => (s, Some (Timers.ScriptError "thrown by the callback"))
    end;
  Timers.rtosTimerWrappers := fun s => (s, None);
  Timers.out_of_range_int := fun _ => Timers.INT_MIN
|}.

(** The three bindings of [registerFunctions]. *)
Definition registered : gmap string Timers.native :=
  <["millis" := Timers.Native Timers.c_dukMillis 0]>
    (<["deleteTimer" := Timers.Native Timers.c_dukDeleteTimer 1]>
       (<["createTimer" := Timers.Native Timers.c_dukCreateTimer 3]> ∅)).

(** The machine after [initialize], the allocator about to hand out [hs]. *)
Definition machine (hs : list Z) : Timers.Machine :=
  {| Timers.timerSlot := ∅; Timers.rtos := ∅; Timers.allocator := hs;
     Timers.scheduled := []; Timers.called := [];
     Timers.xTickCount := 0; Timers.m_startTicks := 0;
     Timers.globals := registered |}.

(** An auto-reload timer of 50 ms with script function 0 as its
    callback, as [dukCreateTimer] leaves the machine. *)
Definition handle : Z := 1073422000.

Definition ticking : Timers.Machine :=
  {| Timers.timerSlot := {[ handle := Timers.JFunction 0 ]};
     Timers.rtos := {[ handle := {| Timers.xTimerPeriodInTicks := 5;
                                    Timers.uxAutoReload := true;
                                    Timers.pxCallbackAutoReload := true;
                                    Timers.active := true |} ]};
     Timers.allocator := [];
     Timers.scheduled := []; Timers.called := [];
     Timers.xTickCount := 0; Timers.m_startTicks := 0;
     Timers.globals := registered |}.

(** A one-shot timer of 50 ms with script function [f] as its callback,
    as [dukCreateTimer] leaves the machine. *)
Definition armed (f : nat) : Timers.Machine :=
  {| Timers.timerSlot := {[ handle := Timers.JFunction f ]};
     Timers.rtos := {[ handle := {| Timers.xTimerPeriodInTicks := 5;
                                    Timers.uxAutoReload := false;
                                    Timers.pxCallbackAutoReload := false;
                                    Timers.active := true |} ]};
     Timers.allocator := [];
     Timers.scheduled := []; Timers.called := [];
     Timers.xTickCount := 0; Timers.m_startTicks := 0;
     Timers.globals := registered |}.

(** A handle in the upper half of the address space. *)
Definition high_handle : Z := 3221225472.

(** The machine some ticks before the tick counter wraps. *)
Definition late : Timers.Machine :=
  Timers.set_xTickCount 4294967290 (machine []).

(** A scheduled invocation for a timer that is not registered. *)
Definition orphan_request : Timers.Machine :=
  Timers.set_scheduled [(handle, false)] (machine []).

(** A board whose root directory lists a file, a hidden file, a
    directory and an enumeration error. *)
Definition shelf : Platform := {|
  getStoragePrefix := "/spiffs";
  CONFIG_WL_SECTOR_SIZE := 4096;
  listDirectory := fun _ _ =>
    [ DirEntry File "/spiffs/" "a.txt";
      DirEntry File "/spiffs/" "__tmp.txt";
      DirEntry Directory "/spiffs/" "lib";
      DirError "I/O error" ]
|}.

(** A board whose collaborator hands the directory path without the
    trailing separator. *)
Definition bare : Platform := {|
  getStoragePrefix := "/spiffs";
  CONFIG_WL_SECTOR_SIZE := 4096;
  listDirectory := fun _ _ => [ DirEntry File "/spiffs" "a.txt" ]
|}.

End Board.
(** * Properties *)

Lemma byte_to_Z_range (b : byte) : 0 <= byte_to_Z b < 256.
Proof.
  unfold byte_to_Z. pose proof (Byte.to_N_bounded b). lia.
Qed.

Lemma byte_of_to_Z (b : byte) : byte_of_Z (byte_to_Z b) = b.
Proof.
  unfold byte_of_Z. pose proof (byte_to_Z_range b) as Hr.
  rewrite Z.mod_small by lia. unfold byte_to_Z.
  rewrite N2Z.id, Byte.of_to_N. reflexivity.
Qed.

Module Base64Facts.
Import Base64.

(** *** Table facts, checked by enumeration of the 64 sextets *)

Lemma sextet_in (s : Z) : 0 <= s < 64 -> In s sextets.
Proof.
  intros Hs. unfold sextets. apply in_map_iff.
  exists (Z.to_nat s). split; [lia|]. apply in_seq. lia.
Qed.

Lemma dec_enc (s : Z) : 0 <= s < 64 -> dec (enc s) = Some s.
Proof.
  intros Hs.
  assert (Hall : forallb (fun s => bool_decide (dec (enc s) = Some s)) sextets = true)
    by (vm_compute; reflexivity).
  rewrite forallb_forall in Hall.
  specialize (Hall s (sextet_in s Hs)). by apply bool_decide_eq_true in Hall.
Qed.

Lemma enc_not_pad (s : Z) : 0 <= s < 64 -> is_pad (enc s) = false.
Proof.
  intros Hs.
  assert (Hall : forallb (fun s => negb (is_pad (enc s))) sextets = true)
    by (vm_compute; reflexivity).
  rewrite forallb_forall in Hall.
  specialize (Hall s (sextet_in s Hs)). by apply negb_true_iff in Hall.
Qed.

(** *** Bit operations as arithmetic *)

Lemma land63 (x : Z) : Z.land x 63 = x mod 64.
Proof. change 63 with (Z.ones 6). by rewrite Z.land_ones. Qed.

Lemma land3 (x : Z) : Z.land x 3 = x mod 4.
Proof. change 3 with (Z.ones 2). by rewrite Z.land_ones. Qed.

Lemma land15 (x : Z) : Z.land x 15 = x mod 16.
Proof. change 15 with (Z.ones 4). by rewrite Z.land_ones. Qed.

Ltac bits_to_arith :=
  rewrite ?land63, ?land3, ?land15, ?Z.shiftr_div_pow2, ?Z.shiftl_mul_pow2 by lia;
  change (2 ^ 2) with 4; change (2 ^ 4) with 16; change (2 ^ 6) with 64.

Lemma byte_of_Z_eq (z : Z) (b : byte) : z mod 256 = byte_to_Z b -> byte_of_Z z = b.
Proof.
  intros Hz. rewrite <- (byte_of_to_Z b), <- Hz.
  unfold byte_of_Z. by rewrite Z.mod_mod.
Qed.

Lemma sextet1_range c : 0 <= sextet1 c < 64.
Proof. unfold sextet1. rewrite land63. apply Z.mod_pos_bound. lia. Qed.
Lemma sextet2_range c c' : 0 <= sextet2 c c' < 64.
Proof. unfold sextet2. rewrite land63. apply Z.mod_pos_bound. lia. Qed.
Lemma sextet3_range c c' : 0 <= sextet3 c c' < 64.
Proof. unfold sextet3. rewrite land63. apply Z.mod_pos_bound. lia. Qed.
Lemma sextet4_range c : 0 <= sextet4 c < 64.
Proof. unfold sextet4. rewrite land63. apply Z.mod_pos_bound. lia. Qed.

Lemma sextet3_tail c : Z.land (Z.shiftl (Z.land c 15) 2) 63 = sextet3 c 0.
Proof. unfold sextet3. by rewrite Z.shiftr_0_l, Z.add_0_r. Qed.

(** The decoder's three output bytes, from the four sextets of a group. *)
Lemma first_byte (b1 : byte) (c2 : Z) :
  0 <= c2 < 256 ->
  byte_of_Z (sextet1 (byte_to_Z b1) * 4 + sextet2 (byte_to_Z b1) c2 / 16) = b1.
Proof.
  intros Hc. apply byte_of_Z_eq. pose proof (byte_to_Z_range b1) as H1.
  unfold sextet1, sextet2. bits_to_arith.
  Z.div_mod_to_equations. lia.
Qed.

Lemma second_byte (b2 : byte) (c1 c3 : Z) :
  0 <= c1 < 256 -> 0 <= c3 < 256 ->
  byte_of_Z (sextet2 c1 (byte_to_Z b2) * 16 + sextet3 (byte_to_Z b2) c3 / 4) = b2.
Proof.
  intros H1 H3. apply byte_of_Z_eq. pose proof (byte_to_Z_range b2) as H2.
  unfold sextet2, sextet3. bits_to_arith.
  Z.div_mod_to_equations. lia.
Qed.

Lemma third_byte (b3 : byte) (c2 : Z) :
  0 <= c2 < 256 ->
  byte_of_Z (sextet3 c2 (byte_to_Z b3) * 64 + sextet4 (byte_to_Z b3)) = b3.
Proof.
  intros H2. apply byte_of_Z_eq. pose proof (byte_to_Z_range b3) as H3.
  unfold sextet3, sextet4. bits_to_arith.
  Z.div_mod_to_equations. lia.
Qed.

Lemma list_ind3 {A} (P : list A -> Prop) :
  P [] -> (forall a, P [a]) -> (forall a b, P [a; b]) ->
  (forall a b c l, P l -> P (a :: b :: c :: l)) ->
  forall l, P l.
Proof.
  intros H0 H1 H2 H3.
  assert (Hall : forall l, P l /\ (forall a, P (a :: l)) /\ (forall a b, P (a :: b :: l))).
  { induction l as [|x l (IH0 & IH1 & IH2)]; [by auto|]. repeat split; auto. }
  intros l. apply Hall.
Qed.

Lemma base64_decode_quad a b c d rest :
  base64_decode (a :: b :: c :: d :: rest) =
  match dec a, dec b with
  | Some sa, Some sb =>
      let o1 := byte_of_Z (sa * 4 + sb / 16) in
      if is_pad c then
        if is_pad d && bool_decide (rest = []) then Some [o1] else None
      else
        match dec c with
        | Some sc =>
            let o2 := byte_of_Z (sb * 16 + sc / 4) in
            if is_pad d then
              if bool_decide (rest = []) then Some [o1; o2] else None
            else
              match dec d, base64_decode rest with
              | Some sd, Some tl =>
                  Some (o1 :: o2 :: byte_of_Z (sc * 64 + sd) :: tl)
              | _, _ => None
              end
        | None => None
        end
  | _, _ => None
  end.
Proof. reflexivity. Qed.

Lemma is_pad_pad : is_pad pad = true.
Proof. reflexivity. Qed.

(** Decoding undoes [encode_groups]. *)
Lemma decode_encode_groups (src : list byte) :
  base64_decode (encode_groups src) = Some src.
Proof.
  induction src as [|b1|b1 b2|b1 b2 b3 rest IH] using list_ind3.
  - reflexivity.
  - cbn [encode_groups]. rewrite base64_decode_quad.
    rewrite !dec_enc by auto using sextet1_range, sextet2_range.
    cbn zeta. rewrite !is_pad_pad. cbn [andb]. rewrite bool_decide_eq_true_2 by done.
    by rewrite first_byte by lia.
  - cbn [encode_groups]. rewrite sextet3_tail, base64_decode_quad.
    rewrite !dec_enc by auto using sextet1_range, sextet2_range, sextet3_range.
    cbn zeta. rewrite enc_not_pad by apply sextet3_range.
    rewrite is_pad_pad, bool_decide_eq_true_2 by done.
    pose proof (byte_to_Z_range b1). pose proof (byte_to_Z_range b2).
    by rewrite first_byte, second_byte by lia.
  - cbn [encode_groups]. rewrite base64_decode_quad.
    rewrite !dec_enc
      by auto using sextet1_range, sextet2_range, sextet3_range, sextet4_range.
    cbn zeta. rewrite !enc_not_pad by auto using sextet3_range, sextet4_range.
    rewrite IH.
    pose proof (byte_to_Z_range b1). pose proof (byte_to_Z_range b2).
    pose proof (byte_to_Z_range b3).
    by rewrite first_byte, second_byte, third_byte by lia.
Qed.

(** Whole groups encode independently of what follows: a chunk whose size
    is a multiple of three can be encoded on its own. *)
Lemma encode_groups_app (n : nat) (chunk rest : list byte) :
  length chunk = (3 * n)%nat ->
  encode_groups (chunk ++ rest) = encode_groups chunk ++ encode_groups rest.
Proof.
  revert chunk. induction n as [|n IH]; intros chunk Hlen.
  - destruct chunk; [done|]. cbn in Hlen. lia.
  - destruct chunk as [|b1 [|b2 [|b3 chunk]]]; cbn in Hlen; try lia.
    cbn [app encode_groups]. rewrite IH by lia. reflexivity.
Qed.

Lemma encode_groups_length (src : list byte) :
  Z.of_nat (length (encode_groups src)) = 4 * ((Z.of_nat (length src) + 2) / 3).
Proof.
  induction src as [|b1|b1 b2|b1 b2 b3 rest IH] using list_ind3;
    try reflexivity.
  cbn [encode_groups length]. 
  rewrite !Nat2Z.inj_succ. rewrite IH.
  Z.div_mod_to_equations. lia.
Qed.

End Base64Facts.

(** * The storage session *)

Module StorageFacts.
Import Storage.

Lemma bind_Ret {A B} (m : M A) (k : A -> M B) w a w' :
  m w = Ret a w' -> (m ≫= k) w = k a w'.
Proof. intros Hm. unfold mbind, M_bind, bind. by rewrite Hm. Qed.

Lemma bind_Fatal {A B} (m : M A) (k : A -> M B) w f w' :
  m w = Fatal f w' -> (m ≫= k) w = Fatal f w'.
Proof. intros Hm. unfold mbind, M_bind, bind. by rewrite Hm. Qed.

Ltac unfold_monad :=
  unfold mbind, M_bind, bind, ret, get, modify, abort, fail_with, next_fault, log in *.

Ltac wsimpl :=
  cbn [files fdtab errno faults volume sink trace _workingFd _finished
       set_files set_fdtab set_errno set_faults set_sink set_trace
       set_workingFd set_finished call result after fst snd] in *.

Ltac sys_cases w :=
  unfold pending;
  destruct (faults w) as [|[| |] ?] eqn:Hfaults; cbn.

Ltac frame :=
  constructor; wsimpl;
  try match goal with H : faults _ = _ |- _ => rewrite H end;
  reflexivity.

Ltac close :=
  wsimpl;
  lazymatch goal with
  | |- _ /\ _ => split; close
  | |- _ \/ _ => first [ left; solve [close] | right; solve [close] ]
  | |- exists _, _ => eexists; close
  | |- is_Some _ => eexists; reflexivity
  | |- forall _, _ <> _ => intros ? ?; discriminate
  | |- _ => first [ reflexivity | eassumption | discriminate ]
  end.

Ltac sys_spec := eexists _, _; (split; [reflexivity|]); (split; [frame|]); close.

Lemma sys_close_spec fd w :
  exists r w', sys_close fd w = Ret r w' /\ sys_step (SysClose fd) r w w' /\
    files w' = files w /\
    ((r = 0 /\ is_Some (fdtab w !! fd) /\ fdtab w' = delete fd (fdtab w)) \/
     (r = -1 /\ fdtab w' = fdtab w)).
Proof.
  unfold sys_close. unfold_monad.
  sys_cases w; destruct (fdtab w !! fd) eqn:Hfd; cbn;
    sys_spec.
Qed.

Lemma sys_open_spec path fl w :
  exists r w', sys_open path fl w = Ret r w' /\ sys_step (SysOpen path fl) r w w' /\
    ((r = -1 /\ files w' = files w /\ fdtab w' = fdtab w /\
      ((exists e, pending w = Fail e /\ errno w' = e) \/
       (files w !! path = None /\ o_creat fl = false /\ errno w' = ENOENT))) \/
     (r = fresh_fd (fdtab w) /\ (forall e, pending w <> Fail e) /\
      errno w' = errno w /\
      fdtab w' = <[r := {| fd_path := path; fd_pos := 0; fd_wronly := o_wronly fl |}]> (fdtab w) /\
      ((exists c, files w !! path = Some c /\
          files w' = if o_trunc fl then <[path := []]> (files w) else files w) \/
       (files w !! path = None /\ o_creat fl = true /\
          files w' = <[path := []]> (files w))))).
Proof.
  unfold sys_open. unfold_monad.
  sys_cases w; destruct (files w !! path) eqn:Hp; cbn;
    try (destruct (o_creat fl) eqn:Hc; cbn);
    try (destruct (o_trunc fl) eqn:Ht; cbn);
    sys_spec.
Qed.

Lemma sys_read_spec fd n w :
  exists r w', sys_read fd n w = Ret r w' /\ sys_step (SysRead fd) (fst r) w w' /\
    files w' = files w /\
    ((fst r = -1 /\ fdtab w' = fdtab w /\
      ((exists e, pending w = Fail e) \/ fdtab w !! fd = None \/
       (exists d, fdtab w !! fd = Some d /\
          (fd_wronly d = true \/ files w !! fd_path d = None)))) \/
     (exists d c, (forall e, pending w <> Fail e) /\
        fdtab w !! fd = Some d /\ fd_wronly d = false /\
        files w !! fd_path d = Some c /\
        snd r = take n (drop (fd_pos d) c) /\
        fst r = Z.of_nat (length (snd r)) /\
        errno w' = errno w /\
        fdtab w' = <[fd := {| fd_path := fd_path d;
                              fd_pos := (fd_pos d + length (snd r))%nat;
                              fd_wronly := false |}]> (fdtab w))).
Proof.
  unfold sys_read. unfold_monad.
  sys_cases w; destruct (fdtab w !! fd) as [d|] eqn:Hfd; cbn;
    try (destruct (fd_wronly d) eqn:Hwr; cbn);
    try (destruct (files w !! fd_path d) eqn:Hp; cbn);
    sys_spec.
Qed.

Lemma sys_write_spec fd buf w :
  exists r w', sys_write fd buf w = Ret r w' /\ sys_step (SysWrite fd) r w w' /\
    ((r = -1 /\ files w' = files w /\ fdtab w' = fdtab w /\
      ((exists e, pending w = Fail e /\ errno w' = e) \/
       (errno w' = EBADF /\
        (fdtab w !! fd = None \/
         (exists d, fdtab w !! fd = Some d /\
            (fd_wronly d = false \/ files w !! fd_path d = None)))))) \/
     (exists d c data, (forall e, pending w <> Fail e) /\
        fdtab w !! fd = Some d /\ fd_wronly d = true /\
        files w !! fd_path d = Some c /\
        data = match pending w with Short k => take k buf | _ => buf end /\
        r = Z.of_nat (length data) /\
        errno w' = errno w /\
        files w' = <[fd_path d := splice c (fd_pos d) data]> (files w) /\
        fdtab w' = <[fd := {| fd_path := fd_path d;
                              fd_pos := (fd_pos d + length data)%nat;
                              fd_wronly := true |}]> (fdtab w))).
Proof.
  unfold sys_write. unfold_monad.
  sys_cases w; destruct (fdtab w !! fd) as [d|] eqn:Hfd; cbn;
    try (destruct (fd_wronly d) eqn:Hwr; cbn);
    try (destruct (files w !! fd_path d) eqn:Hp; cbn);
    sys_spec.
Qed.

Lemma sys_remove_spec path w :
  exists r w', sys_remove path w = Ret r w' /\ sys_step (SysRemove path) r w w' /\
    fdtab w' = fdtab w /\
    ((r = -1 /\ files w' = files w /\
      ((exists e, pending w = Fail e /\ errno w' = e) \/
       (files w !! path = None /\ errno w' = ENOENT))) \/
     (r = 0 /\ (forall e, pending w <> Fail e) /\ is_Some (files w !! path) /\
      errno w' = errno w /\ files w' = delete path (files w))).
Proof.
  unfold sys_remove. unfold_monad.
  sys_cases w; destruct (files w !! path) eqn:Hp; cbn;
    sys_spec.
Qed.

Lemma sys_rename_spec old new w :
  exists r w', sys_rename old new w = Ret r w' /\
    sys_step (SysRename old new) r w w' /\
    fdtab w' = fdtab w /\
    ((r = -1 /\ files w' = files w /\
      ((exists e, pending w = Fail e /\ errno w' = e) \/
       (files w !! old = None /\ errno w' = ENOENT) \/
       (is_Some (files w !! new) /\ errno w' = EEXIST))) \/
     (r = 0 /\ (forall e, pending w <> Fail e) /\ errno w' = errno w /\
      exists c, files w !! old = Some c /\ files w !! new = None /\
        files w' = <[new := c]> (delete old (files w)))).
Proof.
  unfold sys_rename. unfold_monad.
  sys_cases w; destruct (files w !! old) eqn:Ho; cbn;
    try (destruct (files w !! new) eqn:Hn; cbn);
    sys_spec.
Qed.

Lemma ensurePath_spec path w :
  exists (r : bool) w', ensurePath path w = Ret r w' /\
    sys_step (SysEnsurePath path) (if r then 1 else 0) w w' /\
    fdtab w' = fdtab w /\ files w' = files w /\
    ((r = false /\ exists e, pending w = Fail e /\ errno w' = e) \/
     (r = true /\ (forall e, pending w <> Fail e) /\ errno w' = errno w)).
Proof.
  unfold ensurePath. unfold_monad.
  sys_cases w;
    sys_spec.
Qed.

Lemma f_getfree_spec w :
  exists res w', f_getfree w = Ret (res, volume w) w' /\
    sys_step SysGetFree res w w' /\
    fdtab w' = fdtab w /\ files w' = files w /\ errno w' = errno w /\
    ((res = 1 /\ exists e, pending w = Fail e) \/
     (res = 0 /\ forall e, pending w <> Fail e)).
Proof.
  unfold f_getfree. unfold_monad.
  sys_cases w;
    sys_spec.
Qed.

Lemma fresh_fd_nonneg (t : gmap Z fdesc) : 0 <= fresh_fd t.
Proof.
  unfold fresh_fd.
  destruct (head _) as [i|] eqn:Hi; cbn; [|lia].
  apply head_Some_elem_of, list_elem_of_filter in Hi as [_ Hi].
  apply elem_of_seqZ in Hi. lia.
Qed.

(** *** Chunks *)

Lemma chunks_fuel_enough {A} (n : nat) (f1 f2 : nat) (l : list A) :
  (1 <= n)%nat -> (length l <= f1)%nat -> (length l <= f2)%nat ->
  chunks_fuel f1 n l = chunks_fuel f2 n l.
Proof.
  intros Hn. revert f2 l. induction f1 as [|f1 IH]; intros f2 l H1 H2.
  - destruct l; [|cbn in H1; lia]. by destruct f2.
  - destruct l as [|x l]; [by destruct f2|].
    destruct f2 as [|f2]; [cbn in H2; lia|].
    cbn [chunks_fuel]. f_equal.
    apply IH; rewrite length_drop; cbn [length] in *; lia.
Qed.

Lemma chunks_nil {A} (n : nat) : chunks n (@nil A) = [].
Proof. reflexivity. Qed.

Lemma chunks_cons {A} (n : nat) (l : list A) :
  (1 <= n)%nat -> l <> [] -> chunks n l = take n l :: chunks n (drop n l).
Proof.
  intros Hn Hl. unfold chunks. destruct l as [|x l]; [done|].
  cbn [length chunks_fuel]. f_equal.
  apply chunks_fuel_enough; [done| |done].
  rewrite length_drop. cbn [length]. lia.
Qed.

(** Every chunk but the last is full. *)
Lemma chunks_front_full {A} (n : nat) (l : list A) front final :
  (1 <= n)%nat -> chunks n l = front ++ [final] ->
  Forall (fun ch => length ch = n) front.
Proof.
  intros Hn. remember (length l) as k eqn:Hk. revert l Hk front.
  induction k as [k IH] using lt_wf_ind. intros l Hk front Hch.
  destruct (decide (l = [])) as [->|Hl].
  { rewrite chunks_nil in Hch. by destruct front. }
  rewrite chunks_cons in Hch by done.
  destruct front as [|ch front].
  - constructor.
  - cbn [app] in Hch. injection Hch as Hhd Htl. constructor.
    + subst ch. rewrite length_take.
      destruct (decide (length l <= n)%nat) as [Hle|Hgt]; [|lia].
      rewrite drop_ge in Htl by done. rewrite chunks_nil in Htl.
      by destruct front.
    + eapply (IH (length (drop n l))); [|reflexivity|exact Htl].
      rewrite length_drop. destruct l; [done|]. cbn [length] in *. lia.
Qed.

(** The chunks of a pull are groups of whole triples, so their encodings
    concatenate to the encoding of the file. *)
Lemma encode_chunks (k : nat) (l : list byte) :
  (1 <= k)%nat ->
  concat (map Base64.encode_groups (chunks (3 * k) l)) = Base64.encode_groups l.
Proof.
  intros Hk. remember (length l) as m eqn:Hm. revert l Hm.
  induction m as [m IH] using lt_wf_ind. intros l Hm.
  destruct (decide (l = [])) as [->|Hl]; [done|].
  rewrite chunks_cons by (done || lia). cbn [map concat].
  destruct (decide (length l <= 3 * k)%nat) as [Hle|Hgt].
  - rewrite take_ge, drop_ge by done. rewrite chunks_nil. cbn. apply app_nil_r.
  - rewrite (IH (length (drop (3 * k) l))); [| |reflexivity].
    + rewrite <- (Base64Facts.encode_groups_app k); [by rewrite take_drop|].
      rewrite length_take. lia.
    + rewrite length_drop. lia.
Qed.

Lemma encode_full_unpadded (k : nat) (chunk : list byte) :
  length chunk = (3 * k)%nat -> unpadded (Base64.encode_groups chunk).
Proof.
  revert chunk. induction k as [|k IH]; intros chunk Hlen.
  - destruct chunk; [constructor | cbn in Hlen; lia].
  - destruct chunk as [|b1 [|b2 [|b3 chunk]]]; cbn in Hlen; try lia.
    cbn [Base64.encode_groups].
    assert (Hne : forall s, 0 <= s < 64 -> Base64.enc s <> Base64.pad).
    { intros s Hs Heq. pose proof (Base64Facts.enc_not_pad s Hs) as Hp.
      rewrite Heq in Hp. discriminate Hp. }
    repeat constructor;
      auto using Base64Facts.sextet1_range, Base64Facts.sextet2_range,
                 Base64Facts.sextet3_range, Base64Facts.sextet4_range.
    apply IH. lia.
Qed.

(** *** Stepping through an operation *)

Lemma bind_bind {A B C} (m : M A) (f : A -> M B) (g : B -> M C) w :
  ((m ≫= f) ≫= g) w = (m ≫= (fun x => f x ≫= g)) w.
Proof. unfold mbind, M_bind, bind. by destruct (m w). Qed.

Lemma bind_ret {A B} (a : A) (k : A -> M B) w : (ret a ≫= k) w = k a w.
Proof. reflexivity. Qed.

Lemma bind_get {B} (k : World -> M B) w : (get ≫= k) w = k w w.
Proof. reflexivity. Qed.

Lemma bind_modify {B} (f : World -> World) (k : unit -> M B) w :
  (modify f ≫= k) w = k tt (f w).
Proof. reflexivity. Qed.

Lemma bind_yieldString {B} s (k : unit -> M B) w :
  (yieldString s ≫= k) w = k tt (set_sink (sink w ++ [YString s]) w).
Proof. reflexivity. Qed.

Lemma bind_yieldError {B} s (k : unit -> M B) w :
  (yieldError s ≫= k) w = k tt (set_sink (sink w ++ [YError s]) w).
Proof. reflexivity. Qed.

Lemma bind_yieldBuffer {B} b (k : unit -> M B) w :
  (yieldBuffer b ≫= k) w = k tt (set_sink (sink w ++ [YBuffer b]) w).
Proof. reflexivity. Qed.

Ltac norm :=
  repeat first
    [ rewrite bind_bind | rewrite bind_ret | rewrite bind_get
    | rewrite bind_modify | rewrite bind_yieldString
    | rewrite bind_yieldError | rewrite bind_yieldBuffer ].

(** *** The encoder on one chunk of a pull *)

Lemma encode_chunk (data buf : list byte) :
  data <> [] -> (length data <= Z.to_nat CHUNK_SIZE)%nat ->
  Base64.mbedtls_base64_encode ENCODED_SIZE (store data buf)
    (to_uint32 (Z.of_nat (length data)))
  = (Base64.B64_OK, Z.of_nat (length (Base64.encode_groups data)),
     Base64.encode_groups data).
Proof.
  intros Hne Hlen. change (Z.to_nat CHUNK_SIZE) with 1023%nat in Hlen.
  assert (Hpos : (0 < length data)%nat) by (destruct data; [done | cbn; lia]).
  unfold Base64.mbedtls_base64_encode, to_uint32.
  rewrite Z.mod_small by (change (2 ^ 32) with 4294967296; lia).
  rewrite Nat2Z.id.
  replace (take (length data) (store data buf)) with data
    by (unfold store; by rewrite take_app_length).
  destruct (Z.eqb_spec (Z.of_nat (length data)) 0) as [Hz|_]; [lia|].
  set (n := Z.of_nat (length data) / 3
            + (if Z.of_nat (length data) mod 3 =? 0 then 0 else 1)).
  assert (Hn : 0 <= n <= 341).
  { subst n. destruct (Z.eqb_spec (Z.of_nat (length data) mod 3) 0);
      Z.div_mod_to_equations; lia. }
  change ((Base64.SIZE_T_MAX - 1) / 4) with 1073741823.
  destruct (Z.ltb_spec 1073741823 n) as [Hbig|_]; [lia|].
  change ENCODED_SIZE with 1367.
  destruct (Z.ltb_spec 1367 (n * 4 + 1)) as [Hbig|_]; [lia|].
  reflexivity.
Qed.

Section Operations.
Context `{Platform}.

(** **** list *)

(** Entries whose name starts with "__" are passed over in silence. *)
Lemma onEntry_hidden (prefixLen : nat) (type : FileType) (path name : string) (w : World) :
  startswith name "__" = true ->
  onEntry prefixLen (DirEntry type path name) w = Ret tt w.
Proof. intros Hhidden. unfold onEntry. by rewrite Hhidden. Qed.

(** An enumeration error is passed on as one error fragment. *)
Lemma onEntry_error (prefixLen : nat) (error : string) (w : World) :
  onEntry prefixLen (DirError error) w
  = Ret tt (set_sink (sink w ++ [YError error]) w).
Proof. reflexivity. Qed.

(** **** pull *)

(** The loop of [doPull] on an undisturbed descriptor: one buffer
    fragment per chunk of what is left of the file. *)
Lemma pull_loop_run (fuel : nat) (fd : Z) : forall (buf : list byte) (w : World) d c,
  faults w = [] ->
  fdtab w !! fd = Some d -> fd_wronly d = false ->
  files w !! fd_path d = Some c ->
  (length (drop (fd_pos d) c) < fuel)%nat ->
  exists w',
    pull_loop fuel fd buf w = Ret tt w' /\
    sink w' = sink w
      ++ map (fun chunk => YBuffer (Base64.encode_groups chunk))
             (chunks (Z.to_nat CHUNK_SIZE) (drop (fd_pos d) c)) /\
    faults w' = [] /\ files w' = files w /\
    _workingFd w' = _workingFd w /\ _finished w' = _finished w /\
    dom (fdtab w') = dom (fdtab w) /\
    exists evs, trace w' = trace w ++ evs /\
      Forall (fun e => call e = SysRead fd /\ 0 <= result e /\ after e = files w) evs.
Proof.
  induction fuel as [|fuel IH]; intros buf w d c Hfl Hfd Hrd Hc Hfuel; [lia|].
  cbn [pull_loop].
  destruct (sys_read_spec fd (Z.to_nat CHUNK_SIZE) w)
    as ([n data] & w1 & Hrun & [Hs Hwf Hfin _ Hfl1 Ht] & Hf & Hcase).
  rewrite (bind_Ret _ _ _ _ _ Hrun). cbn [fst snd] in *.
  rewrite Hfl in Hfl1. cbn [tail] in Hfl1.
  destruct Hcase as [(_ & _ & [(e & He) | [Hnone | (d' & Hd' & [Hw | Hp])]])
                    | (d' & c' & _ & Hd' & _ & Hc' & -> & -> & _ & Htab)].
  - unfold pending in He. rewrite Hfl in He. discriminate He.
  - congruence.
  - congruence.
  - congruence.
  - assert (d' = d) as -> by congruence. assert (c' = c) as -> by congruence.
    set (rest := drop (fd_pos d) c) in *.
    destruct (decide (rest = [])) as [Hnil|Hne].
    + rewrite Hnil, take_nil. cbn [length Z.of_nat Z.eqb].
      unfold ret. eexists. split; [reflexivity|].
      rewrite chunks_nil, app_nil_r, Htab, dom_insert_L.
      repeat split; auto.
      * apply elem_of_dom_2 in Hfd.
        apply subseteq_union_1_L. by apply singleton_subseteq_l.
      * eexists. split; [exact Ht|]. apply Forall_singleton. cbn.
        rewrite Hf, Hnil. cbn. repeat split; auto; lia.
    + set (data := take (Z.to_nat CHUNK_SIZE) rest) in *.
      assert (Hdne : data <> []).
      { subst data. destruct rest; [done|]. discriminate. }
      assert (Hdlen : (length data <= Z.to_nat CHUNK_SIZE)%nat).
      { subst data. rewrite length_take. lia. }
      destruct (Z.eqb_spec (Z.of_nat (length data)) 0) as [Hz|_].
      { destruct data; [done | cbn in Hz; lia]. }
      rewrite encode_chunk by done.
      unfold assert. rewrite bind_ret, bind_yieldBuffer.
      rewrite Nat2Z.id, firstn_all.
      set (w2 := set_sink _ w1).
      destruct (IH (store data buf) w2
                  {| fd_path := fd_path d; fd_pos := (fd_pos d + length data)%nat;
                     fd_wronly := false |} c)
        as (w' & Hrun' & Hs' & Hfl' & Hf' & Hwf' & Hfin' & Hdom' & evs & Ht' & Hevs).
      * done.
      * subst w2. wsimpl. rewrite Htab. apply lookup_insert_eq.
      * done.
      * subst w2. wsimpl. cbn. by rewrite Hf.
      * cbn [fd_pos]. rewrite <- drop_drop. fold rest.
        rewrite length_drop. subst data. rewrite length_take.
        destruct rest; [done|]. cbn [length] in *.
        change (Z.to_nat CHUNK_SIZE) with 1023%nat. lia.
      * exists w'. split; [exact Hrun'|].
        cbn [fd_pos] in Hs'. rewrite <- drop_drop in Hs'. fold rest in Hs'.
        rewrite (chunks_cons _ rest) by (done || (change (Z.to_nat CHUNK_SIZE) with 1023%nat; lia)).
        subst w2. wsimpl. cbn [map].
        assert (Hdrop : drop (length data) rest = drop (Z.to_nat CHUNK_SIZE) rest).
        { subst data. rewrite length_take.
          destruct (decide (Z.to_nat CHUNK_SIZE <= length rest)%nat).
          - by rewrite Nat.min_l.
          - rewrite Nat.min_r by lia. by rewrite !drop_ge by lia. }
        rewrite Hdrop in Hs'.
        rewrite Hs', Hs, Hfl', Hf', Hf, Hwf', Hwf, Hfin', Hfin, Hdom', Htab.
        rewrite <- app_assoc. cbn [app].
        repeat split; auto.
        -- rewrite dom_insert_L. apply elem_of_dom_2 in Hfd.
           apply subseteq_union_1_L. by apply singleton_subseteq_l.
        -- exists ({| call := SysRead fd; result := Z.of_nat (length data);
                      after := files w1 |} :: evs).
           split; [rewrite Ht', Ht; by rewrite <- app_assoc|].
           constructor; [cbn; rewrite Hf; repeat split; auto; lia|].
           eapply Forall_impl; [exact Hevs|].
           intros e (? & ? & ->). by rewrite Hf.
Qed.


Lemma doPull_run (fuel : nat) (filename : string) (w : World) (c : list byte) :
  faults w = [] ->
  files w !! fsPath filename = Some c ->
  (length c < fuel)%nat ->
  exists w',
    doPull fuel filename w = Ret tt w' /\
    sink w' = sink w ++ pulled c /\
    faults w' = [] /\ files w' = files w /\
    _workingFd w' = _workingFd w /\ _finished w' = _finished w.
Proof.
  intros Hfl Hc Hfuel. unfold doPull.
  destruct (sys_open_spec (fsPath filename) O_RDONLY w)
    as (fd & w1 & Hrun & [Hs Hwf Hfin _ Hfl1 _] & Hcase).
  rewrite (bind_Ret _ _ _ _ _ Hrun).
  rewrite Hfl in Hfl1. cbn [tail] in Hfl1.
  destruct Hcase as [(_ & _ & _ & [(e & He & _) | (Hnone & _)])
                    | (-> & _ & _ & Htab & [(c' & _ & Hf) | (Hnone & _)])];
    [unfold pending in He; rewrite Hfl in He; discriminate He
    | congruence | | congruence].
  cbn [o_trunc O_RDONLY o_wronly] in *.
  pose proof (fresh_fd_nonneg (fdtab w)) as Hfd.
  replace (fresh_fd (fdtab w) <? 0) with false by (symmetry; apply Z.ltb_ge; lia).
  destruct (pull_loop_run fuel (fresh_fd (fdtab w))
              (replicate (Z.to_nat CHUNK_SIZE) Byte.x00) w1
              {| fd_path := fsPath filename; fd_pos := 0; fd_wronly := false |} c)
    as (w2 & Hloop & Hs2 & Hfl2 & Hf2 & Hwf2 & Hfin2 & _); cbn [fd_path fd_pos];
    try done.
  { rewrite Htab. apply lookup_insert_eq. }
  { by rewrite Hf. }
  rewrite (bind_Ret _ _ _ _ _ Hloop). norm.
  destruct (sys_close_spec (fresh_fd (fdtab w)) (set_sink (sink w2 ++ [YString nl]) w2))
    as (r3 & w3 & Hclose & [Hs3 Hwf3 Hfin3 _ Hfl3 _] & Hf3 & _).
  rewrite (bind_Ret _ _ _ _ _ Hclose).
  eexists. split; [reflexivity|]. wsimpl.
  rewrite Hs3, Hs2, Hs, Hfl3, Hfl2, Hf3, Hf2, Hf, Hwf3, Hwf2, Hwf, Hfin3, Hfin2, Hfin.
  cbn [fd_pos drop] in *. unfold pulled. by rewrite <- app_assoc.
Qed.

Lemma doPull_open_fails (fuel : nat) (filename : string) (w : World) :
  files w !! fsPath filename = None \/ (exists e, pending w = Fail e) ->
  exists w',
    doPull fuel filename w = Ret tt w' /\
    sink w' = sink w ++ [YError (strerror (errno w'))] /\
    trace w' = trace w ++
      [{| call := SysOpen (fsPath filename) O_RDONLY; result := -1;
          after := files w |}] /\
    files w' = files w /\ fdtab w' = fdtab w /\
    _workingFd w' = _workingFd w /\ _finished w' = _finished w.
Proof.
  intros Hfail. unfold doPull.
  destruct (sys_open_spec (fsPath filename) O_RDONLY w)
    as (fd & w1 & Hrun & [Hs Hwf Hfin _ _ Ht] & Hcase).
  rewrite (bind_Ret _ _ _ _ _ Hrun).
  destruct Hcase as [(-> & Hf & Htab & _)
                    | (_ & Hnf & _ & _ & [(c' & Hc' & _) | (_ & Hcr & _)])].
  - cbn [Z.ltb Z.compare]. norm. eexists. split; [reflexivity|]. wsimpl.
    rewrite Hs, Ht, Hf, Htab. auto 10.
  - destruct Hfail as [Hnone | (e & He)]; [congruence | by destruct (Hnf e)].
  - discriminate Hcr.
Qed.

(** C3: on a readable file [doPull] returns having emitted, in order, the
    base64 encoding of each successive chunk of 1023 bytes and then a
    newline; every chunk but the last encodes without padding; an empty
    file gives the newline alone.  When the open fails it returns having
    emitted one error fragment, the text of [errno], and nothing else. *)
Theorem doPull_streams_chunks (fuel : nat) (filename : string) (w : World) :
  (forall c,
     faults w = [] -> files w !! fsPath filename = Some c ->
     (length c < fuel)%nat ->
     exists w',
       doPull fuel filename w = Ret tt w' /\
       sink w' = sink w
         ++ map (fun chunk => YBuffer (Base64.encode_groups chunk))
                (chunks 1023 c)
         ++ [YString nl] /\
       (forall front final, chunks 1023 c = front ++ [final] ->
          Forall (fun chunk => length chunk = 1023%nat /\
                               unpadded (Base64.encode_groups chunk)) front) /\
       (c = [] -> sink w' = sink w ++ [YString nl])) /\
  (files w !! fsPath filename = None \/ (exists e, pending w = Fail e) ->
   exists w',
     doPull fuel filename w = Ret tt w' /\
     sink w' = sink w ++ [YError (strerror (errno w'))]).
Proof.
  split.
  - intros c Hfl Hc Hfuel.
    destruct (doPull_run fuel filename w c Hfl Hc Hfuel) as (w' & Hrun & Hs & _).
    exists w'. split; [done|]. split; [exact Hs|]. split.
    + intros front final Hch.
      pose proof (chunks_front_full 1023 c front final ltac:(lia) Hch) as Hfull.
      eapply Forall_impl; [exact Hfull|].
      intros chunk Hlen. split; [done|].
      apply (encode_full_unpadded 341). by rewrite Hlen.
    + intros ->. exact Hs.
  - intros Hfail.
    destruct (doPull_open_fails fuel filename w Hfail) as (w' & Hrun & Hs & _).
    eauto.
Qed.

(** **** remove *)

Lemma doRemove_any (filename : string) (w : World) :
  exists r w',
    doRemove filename w = Ret tt w' /\
    trace w' = trace w ++
      [{| call := SysRemove (fsPath filename); result := r; after := files w' |}] /\
    sink w' = sink w
              ++ (if r <? 0 then [YError (strerror (errno w'))] else [])
              ++ [YString OK_nl] /\
    (r = -1 /\ files w' = files w \/
     r = 0 /\ is_Some (files w !! fsPath filename) /\
       files w' = delete (fsPath filename) (files w)).
Proof.
  unfold doRemove.
  destruct (sys_remove_spec (fsPath filename) w)
    as (r & w1 & Hrun & [Hsink _ _ _ _ Htrace] & _ & Hcase).
  rewrite (bind_Ret _ _ _ _ _ Hrun).
  exists r.
  destruct Hcase as [(-> & Hfiles & _) | (-> & _ & Hsome & _ & Hfiles)];
    cbn [Z.ltb Z.compare]; norm; eexists; (split; [reflexivity|]); wsimpl;
    rewrite Hsink, Htrace; rewrite <- ?app_assoc; auto 6.
Qed.

(** C7: [doRemove] always returns, and what it emits ends with "OK\n",
    preceded by one error fragment exactly when the deletion failed.  The
    deletion is attempted once, on the resolved path; it fails when the
    environment makes it fail and when the path does not exist, and then
    no file changes and the error fragment carries the text of the error
    (that of a missing file on a path that does not exist); otherwise the
    file is deleted and "OK\n" is all that is emitted. *)
Theorem doRemove_error_then_OK (filename : string) (w : World) :
  exists w',
    doRemove filename w = Ret tt w' /\
    match pending w, files w !! fsPath filename with
    | Fail e, _ =>
        trace w' = trace w ++
          [{| call := SysRemove (fsPath filename); result := -1; after := files w |}] /\
        files w' = files w /\
        sink w' = sink w ++ [YError (strerror e); YString OK_nl]
    | _, None =>
        trace w' = trace w ++
          [{| call := SysRemove (fsPath filename); result := -1; after := files w |}] /\
        files w' = files w /\
        sink w' = sink w ++ [YError (strerror ENOENT); YString OK_nl]
    | _, Some _ =>
        trace w' = trace w ++
          [{| call := SysRemove (fsPath filename); result := 0;
              after := delete (fsPath filename) (files w) |}] /\
        files w' = delete (fsPath filename) (files w) /\
        sink w' = sink w ++ [YString OK_nl]
    end.
Proof.
  unfold doRemove, sys_remove, yieldError, yieldString. unfold_monad.
  unfold pending.
  destruct (faults w) as [|[|e|k] fl] eqn:Hfaults; cbn;
    destruct (files w !! fsPath filename) eqn:Hp; cbn;
    (eexists; split; [reflexivity|]); wsimpl;
    rewrite <- ?app_assoc; by repeat split.
Qed.

(** **** push *)

Lemma splice_end (c data : list byte) : splice c (length c) data = c ++ data.
Proof.
  unfold splice. rewrite Nat.sub_diag. cbn [replicate]. rewrite app_nil_r.
  rewrite firstn_all. rewrite drop_ge by lia. by rewrite app_nil_r.
Qed.

Lemma startFilePush_run (w : World) :
  faults w = [] ->
  exists w',
    startFilePush w = Ret tt w' /\ staged [] w' /\ sink w' = sink w /\
    (forall p, p <> workingFilename -> files w' !! p = files w !! p).
Proof.
  intros Hfl. unfold startFilePush. rewrite bind_get.
  assert (Hclosed : exists w0,
            ((if 0 <=? _workingFd w then sys_close (_workingFd w) ;; ret ()
              else ret ()) : M unit) w = Ret tt w0 /\
            faults w0 = [] /\ files w0 = files w /\ sink w0 = sink w).
  { destruct (0 <=? _workingFd w); [|by exists w].
    destruct (sys_close_spec (_workingFd w) w)
      as (r & w0 & Hrun & [Hs _ _ _ Hfl0 _] & Hf & _).
    rewrite (bind_Ret _ _ _ _ _ Hrun). exists w0.
    rewrite Hfl in Hfl0. by repeat split. }
  destruct Hclosed as (w0 & Hrun0 & Hfl0 & Hf0 & Hs0).
  rewrite (bind_Ret _ _ _ _ _ Hrun0).
  destruct (sys_open_spec workingFilename O_TRUNC_WRONLY_CREAT w0)
    as (fd & w1 & Hrun & [Hs _ _ _ Hfl1 _] & Hcase).
  rewrite (bind_Ret _ _ _ _ _ Hrun), bind_modify.
  rewrite Hfl0 in Hfl1. cbn [tail] in Hfl1.
  destruct Hcase as [(_ & _ & _ & [(e & He & _) | (_ & Hcr & _)])
                    | (-> & _ & _ & Htab & Hfiles)];
    [unfold pending in He; rewrite Hfl0 in He; discriminate He
    | discriminate Hcr |].
  pose proof (fresh_fd_nonneg (fdtab w0)) as Hfd.
  replace (fresh_fd (fdtab w0) <? 0) with false by (symmetry; apply Z.ltb_ge; lia).
  eexists. split; [reflexivity|].
  assert (Hf1 : files w1 = <[workingFilename := []]> (files w0)).
  { destruct Hfiles as [(c & _ & Hf1) | (_ & _ & Hf1)]; exact Hf1. }
  unfold staged. wsimpl. rewrite Htab, Hf1, !lookup_insert_eq, Hs, Hs0, Hf0.
  repeat split; auto.
  intros p Hp. by rewrite lookup_insert_ne.
Qed.

Lemma addFileChunk_run (buffer c : list byte) (w : World) :
  staged c w ->
  exists w',
    addFileChunk buffer w = Ret tt w' /\ staged (c ++ buffer) w' /\
    sink w' = sink w /\
    (forall p, p <> workingFilename -> files w' !! p = files w !! p).
Proof.
  intros (Hfl & Hfd & Htab & Hc). unfold addFileChunk. rewrite bind_get.
  unfold assert. rewrite (proj2 (Z.leb_le _ _) Hfd), bind_ret.
  destruct (sys_write_spec (_workingFd w) buffer w)
    as (r & w1 & Hrun & [Hs Hwf _ _ Hfl1 _] & Hcase).
  rewrite (bind_Ret _ _ _ _ _ Hrun).
  rewrite Hfl in Hfl1. cbn [tail] in Hfl1.
  assert (Hp : pending w = NoFault) by (unfold pending; by rewrite Hfl).
  destruct Hcase as [(_ & _ & _ & [(e & He & _)
                                   | (_ & [Hnone | (d & Hd & [Hw | Hn])])])
                    | (d & c' & data & _ & Hd & _ & Hc' & Hdata & -> & _ & Hf & Htab')].
  - congruence.
  - congruence.
  - rewrite Htab in Hd. injection Hd as <-. discriminate Hw.
  - rewrite Htab in Hd. injection Hd as <-. cbn in Hn. congruence.
  - rewrite Htab in Hd. injection Hd as <-. cbn [fd_path fd_pos] in *.
    assert (c' = c) as -> by congruence.
    rewrite Hp in Hdata. subst data.
    replace (Z.of_nat (length buffer) <? 0) with false
      by (symmetry; apply Z.ltb_ge; lia).
    eexists. split; [reflexivity|].
    unfold staged. rewrite Hwf, Htab', Hf, !lookup_insert_eq, splice_end, length_app.
    repeat split; auto.
    intros p Hne. by rewrite lookup_insert_ne.
Qed.

Lemma addFileChunks_run (bufs : list (list byte)) : forall (c : list byte) (w : World),
  staged c w ->
  exists w',
    for_each addFileChunk bufs w = Ret tt w' /\ staged (c ++ concat bufs) w' /\
    sink w' = sink w /\
    (forall p, p <> workingFilename -> files w' !! p = files w !! p).
Proof.
  induction bufs as [|buf bufs IH]; intros c w Hst.
  - exists w. cbn [concat]. by rewrite app_nil_r.
  - cbn [for_each concat].
    destruct (addFileChunk_run buf c w Hst) as (w1 & Hrun & Hst1 & Hs1 & Hf1).
    rewrite (bind_Ret _ _ _ _ _ Hrun).
    destruct (IH _ w1 Hst1) as (w2 & Hrun2 & Hst2 & Hs2 & Hf2).
    exists w2. rewrite app_assoc, Hs2, Hs1.
    split; [exact Hrun2|]. split; [exact Hst2|]. split; [done|].
    intros p Hp. by rewrite Hf2, Hf1.
Qed.

Lemma no_fault_pending (w : World) : faults w = [] -> forall e, pending w <> Fail e.
Proof. intros Hfl e. unfold pending. by rewrite Hfl. Qed.

Lemma commitFilePush_run (filename : string) (c : list byte) (w : World) :
  staged c w -> fsPath filename <> workingFilename ->
  exists w',
    commitFilePush filename w = Ret tt w' /\
    files w' !! fsPath filename = Some c /\
    files w' !! workingFilename = None /\
    faults w' = [] /\
    sink w' = sink w ++ [YString OK_nl].
Proof.
  intros (Hfl & Hfd & Htab & Hc) Hne.
  unfold commitFilePush. rewrite bind_get.
  (* close the pending handle *)
  destruct (sys_close_spec (_workingFd w) w)
    as (r1 & w1 & Hrun1 & [Hs1 _ _ _ Hfl1 _] & Hf1 & _).
  rewrite (bind_Ret _ _ _ _ _ Hrun1), bind_modify.
  rewrite Hfl in Hfl1. cbn [tail] in Hfl1.
  (* directories *)
  destruct (ensurePath_spec (fsPath filename) (set_workingFd (-1) w1))
    as (ok & w2 & Hrun2 & [Hs2 _ _ _ Hfl2 _] & _ & Hf2 & Hok).
  rewrite (bind_Ret _ _ _ _ _ Hrun2).
  wsimpl. rewrite Hfl1 in Hfl2. cbn [tail] in Hfl2.
  destruct Hok as [(_ & e & He & _) | (-> & _)].
  { by apply (no_fault_pending (set_workingFd (-1) w1)) in He. }
  cbn [negb]. rewrite bind_ret.
  (* remove what is at the destination *)
  destruct (sys_remove_spec (fsPath filename) w2)
    as (r3 & w3 & Hrun3 & [Hs3 _ _ _ Hfl3 _] & _ & Hrm).
  rewrite (bind_Ret _ _ _ _ _ Hrun3).
  rewrite Hfl2 in Hfl3. cbn [tail] in Hfl3.
  assert (Hdest3 : files w3 !! fsPath filename = None).
  { destruct Hrm as [(_ & Hf3 & [(e & He & _) | (Hnone & _)]) | (_ & _ & _ & _ & Hf3)].
    - by apply (no_fault_pending w2) in He.
    - by rewrite Hf3.
    - rewrite Hf3. apply lookup_delete_eq. }
  assert (Hwork3 : files w3 !! workingFilename = Some c).
  { destruct Hrm as [(_ & Hf3 & _) | (_ & _ & _ & _ & Hf3)]; rewrite Hf3.
    - by rewrite Hf2, Hf1.
    - rewrite lookup_delete_ne by done. by rewrite Hf2, Hf1. }
  (* the sanity re-open *)
  destruct (sys_open_spec workingFilename O_RDONLY w3)
    as (fd & w4 & Hrun4 & [Hs4 _ _ _ Hfl4 _] & Hop).
  rewrite (bind_Ret _ _ _ _ _ Hrun4).
  rewrite Hfl3 in Hfl4. cbn [tail] in Hfl4.
  destruct Hop as [(_ & _ & _ & [(e & He & _) | (Hnone & _)])
                  | (-> & _ & _ & _ & [(c' & _ & Hf4) | (_ & Hcr & _)])];
    [by apply (no_fault_pending w3) in He | congruence | | discriminate Hcr].
  cbn [o_trunc O_RDONLY] in Hf4.
  pose proof (fresh_fd_nonneg (fdtab w3)) as Hfd4.
  unfold assert. rewrite (proj2 (Z.leb_le _ _) Hfd4), bind_ret.
  destruct (sys_close_spec (fresh_fd (fdtab w3)) w4)
    as (r5 & w5 & Hrun5 & [Hs5 _ _ _ Hfl5 _] & Hf5 & _).
  rewrite (bind_Ret _ _ _ _ _ Hrun5).
  rewrite Hfl4 in Hfl5. cbn [tail] in Hfl5.
  (* the rename *)
  destruct (sys_rename_spec workingFilename (fsPath filename) w5)
    as (res & w6 & Hrun6 & [Hs6 _ _ _ Hfl6 _] & _ & Hrn).
  rewrite (bind_Ret _ _ _ _ _ Hrun6).
  rewrite Hfl5 in Hfl6. cbn [tail] in Hfl6.
  rewrite <- Hf4, <- Hf5 in Hdest3, Hwork3.
  destruct Hrn as [(_ & _ & [(e & He & _) | [(Hnone & _) | ([x Hx] & _)]])
                  | (-> & _ & _ & c6 & Hold & _ & Hf6)];
    [by apply (no_fault_pending w5) in He | congruence | congruence |].
  cbn [Z.ltb Z.compare]. rewrite bind_ret.
  eexists. split; [reflexivity|]. wsimpl.
  rewrite Hf6, lookup_insert_eq, lookup_insert_ne, lookup_delete_eq by done.
  rewrite Hs6, Hs5, Hs4, Hs3, Hs2. wsimpl. rewrite Hs1.
  repeat split; auto. congruence.
Qed.

Lemma wire_pulled (c : list byte) :
  wire (pulled c) = Base64.encode_groups c ++ [newline].
Proof.
  unfold wire, pulled. rewrite map_app, concat_app, map_map.
  cbn [fragment_bytes]. rewrite (encode_chunks 341) by lia. reflexivity.
Qed.

Lemma strip_newline_app (l : list byte) : strip_newline (l ++ [newline]) = Some l.
Proof.
  unfold strip_newline. rewrite reverse_app, reverse_singleton. cbn [app].
  change (Byte.eqb newline newline) with true. cbv iota.
  by rewrite reverse_involutive.
Qed.


Lemma addFileChunk_any (buffer : list byte) (w : World) :
  0 <= _workingFd w ->
  exists written w',
    addFileChunk buffer w = Ret tt w' /\
    trace w' = trace w ++
      [{| call := SysWrite (_workingFd w); result := written; after := files w' |}] /\
    sink w' = sink w
              ++ (if written <? 0 then [YError (strerror (errno w'))] else []) /\
    _workingFd w' = _workingFd w /\
    dom (fdtab w') = dom (fdtab w) /\
    -1 <= written <= Z.of_nat (length buffer).
Proof.
  intros Hfd. unfold addFileChunk. rewrite bind_get.
  unfold assert. rewrite (proj2 (Z.leb_le _ _) Hfd), bind_ret.
  destruct (sys_write_spec (_workingFd w) buffer w)
    as (r & w1 & Hrun & [Hsink Hwfd _ _ _ Htrace] & Hcase).
  rewrite (bind_Ret _ _ _ _ _ Hrun).
  exists r.
  destruct Hcase as [(-> & _ & Htab & _)
                    | (d & c & data & _ & Hd & _ & _ & Hdata & -> & _ & _ & Htab)].
  - cbn [Z.ltb Z.compare]. norm. eexists. split; [reflexivity|]. wsimpl.
    rewrite Hsink, Htrace, Hwfd, Htab. repeat split; auto; lia.
  - replace (Z.of_nat (length data) <? 0) with false by (symmetry; apply Z.ltb_ge; lia).
    eexists. split; [reflexivity|].
    rewrite Hsink, Htrace, Hwfd, Htab, app_nil_r. repeat split; auto; try lia.
    + rewrite dom_insert_L. apply elem_of_dom_2 in Hd.
      apply subseteq_union_1_L. by apply singleton_subseteq_l.
    + subst data. destruct (pending w); rewrite ?length_take; lia.
Qed.

(** C6 (as the code has it): with a pending handle [addFileChunk] always
    returns, keeps the handle and the descriptor table's domain, and emits
    one error fragment exactly when [write] returned a negative count; a
    short count is not reported. *)
Theorem addFileChunk_reports_failed_write (buffer : list byte) (w : World) :
  0 <= _workingFd w ->
  exists written w',
    addFileChunk buffer w = Ret tt w' /\
    trace w' = trace w ++
      [{| call := SysWrite (_workingFd w); result := written; after := files w' |}] /\
    sink w' = sink w
              ++ (if written <? 0 then [YError (strerror (errno w'))] else []) /\
    _workingFd w' = _workingFd w /\
    dom (fdtab w') = dom (fdtab w) /\
    -1 <= written <= Z.of_nat (length buffer).
Proof. exact (addFileChunk_any buffer w). Qed.

(** The six calls of [commitFilePush], each taken with its specification. *)
Ltac commit_prefix filename w :=
  unfold commitFilePush; rewrite bind_get;
  destruct (sys_close_spec (_workingFd w) w)
    as (r1 & w1 & Hrun1 & [Hs1 _ _ _ _ Ht1] & Hf1 & _);
  rewrite (bind_Ret _ _ _ _ _ Hrun1), bind_modify;
  destruct (ensurePath_spec (fsPath filename) (set_workingFd (-1) w1))
    as (ok & w2 & Hrun2 & [Hs2 _ _ _ _ Ht2] & _ & Hf2 & Hok);
  rewrite (bind_Ret _ _ _ _ _ Hrun2);
  destruct (sys_remove_spec (fsPath filename)
              (if ok then w2
               else set_sink (sink w2 ++ [YError ("Cannot create path "
                      +:+ fsPath filename +:+ ": " +:+ strerror (errno w2))]) w2))
    as (r3 & w3 & Hrun3 & [Hs3 _ _ _ _ Ht3] & _ & Hrm);
  destruct (sys_open_spec workingFilename O_RDONLY w3)
    as (fd & w4 & Hrun4 & [Hs4 _ _ _ _ Ht4] & Hop);
  destruct (sys_close_spec fd w4)
    as (r5 & w5 & Hrun5 & [Hs5 _ _ _ _ Ht5] & Hf5 & _);
  destruct (sys_rename_spec workingFilename (fsPath filename) w5)
    as (res & w6 & Hrun6 & [Hs6 _ _ _ _ Ht6] & _ & Hrn).

(** Every run of [commitFilePush]: the calls it makes and what it emits. *)
Lemma commitFilePush_any (filename : string) (w : World) :
  let path := fsPath filename in
  match commitFilePush filename w with
  | Ret _ w' =>
      exists r1 ok r3 fd r5 res f1 f2 f3 f4 f5 e1 e2,
        trace w' = trace w ++
          [ {| call := SysClose (_workingFd w); result := r1; after := f1 |};
            {| call := SysEnsurePath path; result := ok; after := f2 |};
            {| call := SysRemove path; result := r3; after := f3 |};
            {| call := SysOpen workingFilename O_RDONLY; result := fd; after := f4 |};
            {| call := SysClose fd; result := r5; after := f5 |};
            {| call := SysRename workingFilename path; result := res;
               after := files w' |} ] /\
        0 <= fd /\
        sink w' = sink w
          ++ (if ok =? 0
              then [YError ("Cannot create path " +:+ path +:+ ": " +:+ strerror e1)]
              else [])
          ++ (if res <? 0
              then [YError ("Cannot finalize push: " +:+ strerror e2)]
              else [])
          ++ [YString OK_nl]
  | Fatal f w' =>
      f = AssertFailed "fd >= 0" /\
      exists r1 ok r3 f1 f2 f3 e1,
        trace w' = trace w ++
          [ {| call := SysClose (_workingFd w); result := r1; after := f1 |};
            {| call := SysEnsurePath path; result := ok; after := f2 |};
            {| call := SysRemove path; result := r3; after := f3 |};
            {| call := SysOpen workingFilename O_RDONLY; result := -1;
               after := files w' |} ] /\
        sink w' = sink w
          ++ (if ok =? 0
              then [YError ("Cannot create path " +:+ path +:+ ": " +:+ strerror e1)]
              else [])
  | OutOfFuel => False
  end.
Proof.
  intros path. subst path. commit_prefix filename w.
  destruct Hop as [(-> & _) | (-> & _)].
  - (* the sanity re-open fails *)
    destruct ok; cbn [negb]; norm;
      rewrite (bind_Ret _ _ _ _ _ Hrun3), (bind_Ret _ _ _ _ _ Hrun4);
      cbn; (split; [reflexivity|]).
    all: eexists r1, _, r3, _, _, _, (errno w2).
    all: rewrite Ht4, Ht3, Hs4, Hs3; wsimpl; rewrite Ht2, Hs2; wsimpl;
      rewrite Ht1, Hs1.
    all: rewrite <- ?app_assoc; cbn [app].
    all: split; [reflexivity|]; cbn [Z.eqb]; by rewrite ?app_nil_r.
  - (* it succeeds: close, rename, report *)
    pose proof (fresh_fd_nonneg (fdtab w3)) as Hfd.
    destruct ok; cbn [negb]; norm;
      rewrite (bind_Ret _ _ _ _ _ Hrun3), (bind_Ret _ _ _ _ _ Hrun4);
      unfold assert; rewrite (proj2 (Z.leb_le _ _) Hfd); norm;
      rewrite (bind_Ret _ _ _ _ _ Hrun5), (bind_Ret _ _ _ _ _ Hrun6).
    all: destruct Hrn as [(-> & _) | (-> & _)]; cbn [Z.ltb Z.compare]; norm.
    all: unfold yieldString, modify; wsimpl.
    all: eexists r1, _, r3, _, r5, _, _, _, _, _, _, (errno w2), (errno w6).
    all: rewrite Ht6, Ht5, Ht4, Ht3, ?Hs6, ?Hs5, ?Hs4, ?Hs3; wsimpl;
      rewrite Ht2, ?Hs2; wsimpl; rewrite Ht1, ?Hs1.
    all: rewrite <- ?app_assoc; cbn [app Z.eqb]; rewrite ?app_nil_r.
    all: repeat split; try reflexivity; try lia.
Qed.

(** C5 (as the code has it): when [commitFilePush] returns it has emitted
    one error fragment if [ensurePath] failed, one more if [rename] failed,
    and then "OK\n" in every case, so an error does not exclude the OK; it
    ends the program instead when the working file cannot be re-opened,
    after at most the first of the two error fragments. *)
Theorem commitFilePush_errors_then_OK (filename : string) (w : World) :
  let path := fsPath filename in
  match commitFilePush filename w with
  | Ret _ w' =>
      exists r1 ok r3 fd r5 res f1 f2 f3 f4 f5 e1 e2,
        trace w' = trace w ++
          [ {| call := SysClose (_workingFd w); result := r1; after := f1 |};
            {| call := SysEnsurePath path; result := ok; after := f2 |};
            {| call := SysRemove path; result := r3; after := f3 |};
            {| call := SysOpen workingFilename O_RDONLY; result := fd; after := f4 |};
            {| call := SysClose fd; result := r5; after := f5 |};
            {| call := SysRename workingFilename path; result := res;
               after := files w' |} ] /\
        sink w' = sink w
          ++ (if ok =? 0
              then [YError ("Cannot create path " +:+ path +:+ ": " +:+ strerror e1)]
              else [])
          ++ (if res <? 0
              then [YError ("Cannot finalize push: " +:+ strerror e2)]
              else [])
          ++ [YString OK_nl]
  | Fatal f w' =>
      exists ok e1,
        sink w' = sink w
          ++ (if ok =? 0
              then [YError ("Cannot create path " +:+ path +:+ ": " +:+ strerror e1)]
              else [])
  | OutOfFuel => False
  end.
Proof.
  intros path. pose proof (commitFilePush_any filename w) as Hany.
  cbv zeta in Hany. subst path.
  destruct (commitFilePush filename w) as [[] w'|f w'|]; [| |done].
  - destruct Hany as (r1 & ok & r3 & fd & r5 & res & f1 & f2 & f3 & f4 & f5
                      & e1 & e2 & Ht & _ & Hs).
    by exists r1, ok, r3, fd, r5, res, f1, f2, f3, f4, f5, e1, e2.
  - destruct Hany as (_ & _ & ok & _ & _ & _ & _ & e1 & _ & Hs).
    by exists ok, e1.
Qed.

(** C2: while [commitFilePush] runs, the destination is absent or still
    the prior file after every system call up to the [rename]; the
    [rename], the last call, either fails and leaves it so or puts the
    whole staged working file there.  This holds whatever fails, and also
    when the commit ends the program at the sanity re-open. *)
Theorem commitFilePush_destination_atomic (filename : string) (w : World) :
  let path := fsPath filename in
  match commitFilePush filename w with
  | Ret _ w' =>
      exists front res,
        trace w' = trace w ++ front ++
          [{| call := SysRename workingFilename path; result := res;
              after := files w' |}] /\
        Forall (fun e => untouched path (files w) (after e)) front /\
        (res = -1 /\ untouched path (files w) (files w') \/
         res = 0 /\ is_Some (files w !! workingFilename) /\
           files w' !! path = files w !! workingFilename)
  | Fatal _ w' =>
      exists front,
        trace w' = trace w ++ front /\
        Forall (fun e => untouched path (files w) (after e)) front /\
        untouched path (files w) (files w')
  | OutOfFuel => False
  end.
Proof.
  intros path. subst path. commit_prefix filename w.
  assert (Hf3 : files w3 = files w \/ files w3 = delete (fsPath filename) (files w)).
  { destruct Hrm as [(_ & Hf3 & _) | (_ & _ & _ & _ & Hf3)]; rewrite Hf3;
      destruct ok; wsimpl; rewrite Hf2; wsimpl; rewrite Hf1; auto. }
  assert (Hu : forall fs, fs = files w \/ fs = delete (fsPath filename) (files w) ->
                 untouched (fsPath filename) (files w) fs).
  { intros fs [-> | ->]; [by right | left; apply lookup_delete_eq]. }
  assert (Hf4 : files w4 = files w3).
  { destruct Hop as [(_ & Hf4 & _) | (_ & _ & _ & _ & [(c & _ & Hf4) | (_ & Hcr & _)])];
      [done | done | discriminate Hcr]. }
  assert (Htrace4 : trace w4 = trace w ++
            [ {| call := SysClose (_workingFd w); result := r1; after := files w1 |};
              {| call := SysEnsurePath (fsPath filename);
                 result := if ok then 1 else 0; after := files w2 |};
              {| call := SysRemove (fsPath filename); result := r3;
                 after := files w3 |};
              {| call := SysOpen workingFilename O_RDONLY; result := fd;
                 after := files w4 |} ]).
  { rewrite Ht4, Ht3. destruct ok; wsimpl; rewrite Ht2; wsimpl; rewrite Ht1;
      by rewrite <- !app_assoc. }
  assert (Hfront4 : Forall (fun e => untouched (fsPath filename) (files w) (after e))
            [ {| call := SysClose (_workingFd w); result := r1; after := files w1 |};
              {| call := SysEnsurePath (fsPath filename);
                 result := if ok then 1 else 0; after := files w2 |};
              {| call := SysRemove (fsPath filename); result := r3;
                 after := files w3 |};
              {| call := SysOpen workingFilename O_RDONLY; result := fd;
                 after := files w4 |} ]).
  { wsimpl. rewrite Hf1 in Hf2. rewrite Hf4.
    repeat apply Forall_cons_2; try apply Forall_nil_2; cbn [after]; auto.
    all: apply Hu; left; congruence. }
  destruct Hop as [(-> & _) | (-> & _)].
  - destruct ok; cbn [negb]; norm;
      rewrite (bind_Ret _ _ _ _ _ Hrun3), (bind_Ret _ _ _ _ _ Hrun4);
      cbn; eexists; (split; [exact Htrace4|]); (split; [exact Hfront4|]);
      apply Hu; by rewrite Hf4.
  - pose proof (fresh_fd_nonneg (fdtab w3)) as Hfd.
    assert (Hgoal : exists front res,
        trace w6 = trace w ++ front ++
          [{| call := SysRename workingFilename (fsPath filename); result := res;
              after := files w6 |}] /\
        Forall (fun e => untouched (fsPath filename) (files w) (after e)) front /\
        (res = -1 /\ untouched (fsPath filename) (files w) (files w6) \/
         res = 0 /\ is_Some (files w !! workingFilename) /\
           files w6 !! fsPath filename = files w !! workingFilename)).
    { eexists (_ ++ [{| call := SysClose (fresh_fd (fdtab w3)); result := r5;
                        after := files w5 |}]), res.
      split; [|split].
      - rewrite Ht6, Ht5, Htrace4. by rewrite <- (app_assoc (trace w)), <- app_assoc.
      - apply Forall_app_2; [exact Hfront4|].
        apply Forall_singleton. cbn [after]. apply Hu. by rewrite Hf5, Hf4.
      - destruct Hrn as [(-> & Hf6 & _) | (-> & _ & _ & c & Hold & Hnew & Hf6)].
        + left. split; [done|]. apply Hu. by rewrite Hf6, Hf5, Hf4.
        + right. split; [done|]. rewrite Hf6, lookup_insert_eq.
          rewrite Hf5, Hf4 in Hold, Hnew.
          destruct Hf3 as [Hf3 | Hf3]; rewrite Hf3 in Hold, Hnew.
          * by rewrite Hold.
          * apply lookup_delete_Some in Hold as [_ Hold]. by rewrite Hold. }
    destruct ok; cbn [negb]; norm;
      rewrite (bind_Ret _ _ _ _ _ Hrun3), (bind_Ret _ _ _ _ _ Hrun4);
      unfold assert; rewrite (proj2 (Z.leb_le _ _) Hfd); norm;
      rewrite (bind_Ret _ _ _ _ _ Hrun5), (bind_Ret _ _ _ _ _ Hrun6).
    all: destruct (res <? 0); norm; unfold yieldString, modify; wsimpl;
      exact Hgoal.
Qed.

(** **** start, stats, exit: every run *)

Lemma startFilePush_any (w : World) :
  exists fd w',
    startFilePush w = Ret tt w' /\ _workingFd w' = fd /\
    (0 <= fd /\ sink w' = sink w /\
       fdtab w' !! fd = Some {| fd_path := workingFilename; fd_pos := 0;
                                fd_wronly := true |} \/
     fd = -1 /\ sink w' = sink w ++ [YError (strerror (errno w'))]).
Proof.
  unfold startFilePush. rewrite bind_get.
  assert (Hclosed : exists w0,
            ((if 0 <=? _workingFd w then sys_close (_workingFd w) ;; ret ()
              else ret ()) : M unit) w = Ret tt w0 /\ sink w0 = sink w).
  { destruct (0 <=? _workingFd w); [|by exists w].
    destruct (sys_close_spec (_workingFd w) w)
      as (r & w0 & Hrun & [Hs _ _ _ _ _] & _).
    rewrite (bind_Ret _ _ _ _ _ Hrun). by exists w0. }
  destruct Hclosed as (w0 & Hrun0 & Hs0).
  rewrite (bind_Ret _ _ _ _ _ Hrun0).
  destruct (sys_open_spec workingFilename O_TRUNC_WRONLY_CREAT w0)
    as (fd & w1 & Hrun & [Hs _ _ _ _ _] & Hcase).
  rewrite (bind_Ret _ _ _ _ _ Hrun), bind_modify.
  exists fd.
  destruct Hcase as [(-> & _) | (-> & _ & _ & Htab & _)].
  - cbn [Z.ltb Z.compare]. norm. eexists. split; [reflexivity|]. wsimpl.
    split; [done|]. right. by rewrite Hs, Hs0.
  - pose proof (fresh_fd_nonneg (fdtab w0)) as Hfd.
    replace (fresh_fd (fdtab w0) <? 0) with false by (symmetry; apply Z.ltb_ge; lia).
    eexists. split; [reflexivity|]. wsimpl. split; [done|]. left.
    rewrite Hs, Hs0, Htab, lookup_insert_eq. auto.
Qed.

Lemma addFileChunk_unstarted (buffer : list byte) (w : World) :
  _workingFd w < 0 ->
  addFileChunk buffer w = Fatal (AssertFailed "_workingFd >= 0") w.
Proof.
  intros Hfd. unfold addFileChunk. rewrite bind_get. unfold assert.
  by replace (0 <=? _workingFd w) with false by (symmetry; apply Z.leb_gt; lia).
Qed.

Lemma doStats_any (w : World) :
  exists res w',
    doStats w = Ret tt w' /\
    trace w' = trace w ++ [{| call := SysGetFree; result := res; after := files w' |}] /\
    (res = 1 /\ sink w' = sink w ++ [YError "Cannot determine free space"] \/
     res = 0 /\ exists s, sink w' = sink w ++ [YString s]).
Proof.
  unfold doStats.
  destruct (f_getfree_spec w) as (res & w1 & Hrun & [Hs _ _ _ _ Ht] & _ & _ & _ & Hcase).
  rewrite (bind_Ret _ _ _ _ _ Hrun). cbv beta iota.
  exists res.
  destruct Hcase as [(-> & _) | (-> & _)]; cbn [Z.eqb negb];
    eexists; (split; [reflexivity|]); wsimpl; rewrite Hs, Ht; eauto.
Qed.

Lemma performExit_any (w : World) :
  exists w',
    performExit w = Ret tt w' /\ sink w' = sink w ++ [YString OK_nl] /\
    _finished w' = true /\ trace w' = trace w.
Proof. eexists. split; [reflexivity|]. by wsimpl. Qed.

(** C4 (as the code has it): an operation whose system call fails reports
    it with one error fragment and returns, the session going on: the open
    of a pull, the deletion of [doRemove] (followed by its "OK\n"), the
    open of [startFilePush] (no handle is left pending), the write of
    [addFileChunk] on a pending handle, the directory creation and the
    rename of [commitFilePush] (one fragment each, followed by "OK\n"),
    the capacity query of [doStats].  Two failures end the program
    instead: [addFileChunk] without a pending handle, and the sanity
    re-open of the working file in [commitFilePush], which returns only
    when the re-open succeeded. *)
Theorem failures_reported_session_continues
    (fuel : nat) (filename : string) (buffer : list byte) (w : World) :
  (* pull *)
  (files w !! fsPath filename = None \/ (exists e, pending w = Fail e) ->
   exists w',
     doPull fuel filename w = Ret tt w' /\
     sink w' = sink w ++ [YError (strerror (errno w'))]) /\
  (* remove *)
  (exists r w',
     doRemove filename w = Ret tt w' /\
     trace w' = trace w ++
       [{| call := SysRemove (fsPath filename); result := r; after := files w' |}] /\
     sink w' = sink w
               ++ (if r <? 0 then [YError (strerror (errno w'))] else [])
               ++ [YString OK_nl]) /\
  (* start *)
  (exists fd w',
     startFilePush w = Ret tt w' /\ _workingFd w' = fd /\
     (0 <= fd /\ sink w' = sink w \/
      fd = -1 /\ sink w' = sink w ++ [YError (strerror (errno w'))])) /\
  (* chunk *)
  (0 <= _workingFd w ->
   exists written w',
     addFileChunk buffer w = Ret tt w' /\
     trace w' = trace w ++
       [{| call := SysWrite (_workingFd w); result := written; after := files w' |}] /\
     sink w' = sink w
               ++ (if written <? 0 then [YError (strerror (errno w'))] else [])) /\
  (_workingFd w < 0 ->
   addFileChunk buffer w = Fatal (AssertFailed "_workingFd >= 0") w) /\
  (* commit *)
  match commitFilePush filename w with
  | Ret _ w' =>
      exists front ok f2 r3 f3 fd f4 r5 f5 res e1 e2,
        trace w' = trace w ++ front
          ++ [{| call := SysEnsurePath (fsPath filename); result := ok; after := f2 |}]
          ++ [{| call := SysRemove (fsPath filename); result := r3; after := f3 |};
              {| call := SysOpen workingFilename O_RDONLY; result := fd; after := f4 |};
              {| call := SysClose fd; result := r5; after := f5 |}]
          ++ [{| call := SysRename workingFilename (fsPath filename); result := res;
                 after := files w' |}] /\
        0 <= fd /\
        sink w' = sink w
          ++ (if ok =? 0
              then [YError ("Cannot create path " +:+ fsPath filename +:+ ": "
                            +:+ strerror e1)]
              else [])
          ++ (if res <? 0
              then [YError ("Cannot finalize push: " +:+ strerror e2)]
              else [])
          ++ [YString OK_nl]
  | Fatal f w' =>
      f = AssertFailed "fd >= 0" /\
      exists front,
        trace w' = trace w ++ front
          ++ [{| call := SysOpen workingFilename O_RDONLY; result := -1;
                 after := files w' |}]
  | OutOfFuel => False
  end /\
  (* stats *)
  (exists res w',
     doStats w = Ret tt w' /\
     trace w' = trace w ++ [{| call := SysGetFree; result := res; after := files w' |}] /\
     (res = 1 /\ sink w' = sink w ++ [YError "Cannot determine free space"] \/
      res = 0 /\ exists s, sink w' = sink w ++ [YString s])).
Proof.
  repeat apply conj.
  - intros Hfail.
    destruct (doPull_open_fails fuel filename w Hfail) as (w' & Hrun & Hs & _).
    eauto.
  - destruct (doRemove_any filename w) as (r & w' & Hrun & Ht & Hs & _). eauto.
  - destruct (startFilePush_any w) as (fd & w' & Hrun & Hfd & Hcase).
    exists fd, w'. repeat split; auto.
    destruct Hcase as [(? & ? & _) | ?]; auto.
  - intros Hfd.
    destruct (addFileChunk_any buffer w Hfd) as (n & w' & Hrun & Ht & Hs & _).
    eauto.
  - apply addFileChunk_unstarted.
  - pose proof (commitFilePush_any filename w) as Hany. cbv zeta in Hany.
    destruct (commitFilePush filename w) as [[] w'|f w'|]; [| |done].
    + destruct Hany as (r1 & ok & r3 & fd & r5 & res & f1 & f2 & f3 & f4 & f5
                        & e1 & e2 & Ht & Hfd & Hs).
      eexists [_], ok, f2, r3, f3, fd, f4, r5, f5, res, e1, e2.
      split; [exact Ht | split; [exact Hfd | exact Hs]].
    + destruct Hany as (-> & r1 & ok & r3 & f1 & f2 & f3 & e1 & Ht & _).
      split; [done|]. eexists [_; _; _]. exact Ht.
  - apply doStats_any.
Qed.

End Operations.

(** *** Runs on the concrete board *)

Import Board.

Lemma addFileChunk_reports_failed_write_witness :
  0 <= _workingFd failing_upload /\
  exists written w',
    addFileChunk abc failing_upload = Ret tt w' /\
    trace w' = trace failing_upload ++
      [{| call := SysWrite (_workingFd failing_upload);
          result := written; after := files w' |}] /\
    sink w' = sink failing_upload
              ++ (if written <? 0 then [YError (strerror (errno w'))] else []) /\
    _workingFd w' = _workingFd failing_upload /\
    dom (fdtab w') = dom (fdtab failing_upload) /\
    -1 <= written <= Z.of_nat (length abc).
Proof.
  split; [cbn; lia|].
  apply (addFileChunk_reports_failed_write abc failing_upload).
  cbn; lia.
Defined.


(** The sizes named by the specification, run. *)
Example roundtrip_sizes :
  forallb roundtrip [0; 1; 3; 1023; 1024; 2047]%nat = true.
Proof. by vm_compute. Qed.

(** Outside the theorem: a push whose destination is the working file
    removes what it staged and ends at the sanity re-open. *)
Example push_onto_working_file_aborts :
  fst <$> aborts (push [abc] "__tmp.txt" (boot ∅ [])) = Some (AssertFailed "fd >= 0").
Proof. by vm_compute. Qed.


(** A deletion that succeeds is silent but for "OK\n"; one that fails on
    a missing file says so, and says "OK\n". *)
Example doRemove_existing_file :
  (sink <$> returns (doRemove "a.txt" holding)) = Some [YString OK_nl] /\
  (files <$> returns (doRemove "a.txt" holding)) = Some ∅.
Proof. by vm_compute. Qed.

Example doRemove_missing_file :
  (sink <$> returns (doRemove "a.txt" blank))
  = Some [YError "No such file or directory"; YString OK_nl].
Proof. by vm_compute. Qed.

Lemma doPull_streams_chunks_witness :
  (faults holding = [] /\ files holding !! fsPath "a.txt" = Some abc /\
   (length abc < 4)%nat /\
   exists w',
     doPull 4 "a.txt" holding = Ret tt w' /\
     sink w' = sink holding
       ++ map (fun chunk => YBuffer (Base64.encode_groups chunk)) (chunks 1023 abc)
       ++ [YString nl] /\
     (forall front final, chunks 1023 abc = front ++ [final] ->
        Forall (fun chunk => length chunk = 1023%nat /\
                             unpadded (Base64.encode_groups chunk)) front) /\
     (abc = [] -> sink w' = sink holding ++ [YString nl])) /\
  ((files blank !! fsPath "a.txt" = None \/ (exists e, pending blank = Fail e)) /\
   exists w',
     doPull 4 "a.txt" blank = Ret tt w' /\
     sink w' = sink blank ++ [YError (strerror (errno w'))]).
Proof.
  split.
  - destruct (doPull_streams_chunks 4 "a.txt" holding) as (Hread & _).
    split; [reflexivity|]. split; [reflexivity|]. split; [cbn; lia|].
    apply Hread; [reflexivity | reflexivity | cbn; lia].
  - destruct (doPull_streams_chunks 4 "a.txt" blank) as (_ & Hfail).
    split; [left; reflexivity|].
    apply Hfail. left; reflexivity.
Defined.

(** C6, against the specification's wording: [write] stores one byte of
    three and returns 1; nothing is emitted. *)
Lemma addFileChunk_short_write_unreported :
  (fun w' => (map result (trace w'), files w' !! workingFilename, sink w'))
    <$> returns (addFileChunk abc (uploading [] [Short 1]))
  = Some ([1], Some [Byte.x61], []).
Proof. by vm_compute. Qed.

Lemma failures_reported_session_continues_witness :
  ((files blank !! fsPath "a.txt" = None \/ (exists e, pending blank = Fail e)) /\
   exists w',
     doPull 1 "a.txt" blank = Ret tt w' /\
     sink w' = sink blank ++ [YError (strerror (errno w'))]) /\
  (0 <= _workingFd failing_upload /\
   exists written w',
     addFileChunk abc failing_upload = Ret tt w' /\
     trace w' = trace failing_upload ++
       [{| call := SysWrite (_workingFd failing_upload); result := written;
           after := files w' |}] /\
     sink w' = sink failing_upload
               ++ (if written <? 0 then [YError (strerror (errno w'))] else [])) /\
  (_workingFd blank < 0 /\
   addFileChunk abc blank = Fatal (AssertFailed "_workingFd >= 0") blank).
Proof.
  destruct (failures_reported_session_continues 1 "a.txt" abc blank)
    as (Hpull & _ & _ & _ & Hunstarted & _).
  destruct (failures_reported_session_continues 1 "a.txt" abc failing_upload)
    as (_ & _ & _ & Hchunk & _).
  split; [|split].
  - split; [left; reflexivity|]. apply Hpull. left; reflexivity.
  - split; [cbn; lia|]. apply Hchunk. cbn; lia.
  - split; [cbn; lia|]. apply Hunstarted. cbn; lia.
Defined.

(** C4, against the specification's wording: when the working file
    cannot be re-opened [commitFilePush] ends the program, having reported
    nothing; so it does in the session whose [startFilePush] failed and
    was reported. *)
Lemma commitFilePush_reopen_aborts :
  (fun r => (r.1, sink r.2)) <$> aborts (commitFilePush "x" (boot ∅ []))
  = Some (AssertFailed "fd >= 0", []) /\
  (fun r => (r.1, sink r.2))
    <$> aborts ((startFilePush ;; commitFilePush "x") (boot ∅ [Fail ENOSPC]))
  = Some (AssertFailed "fd >= 0", [YError "No space left on device"]).
Proof. split; by vm_compute. Qed.

(** A [read] that fails inside the loop of [doPull] is taken for data:
    its -1 reaches the encoder as a length, the encoder refuses it and the
    assertion ends the program. *)
Lemma doPull_read_failure_aborts :
  (fun r => (r.1, sink r.2))
    <$> aborts (doPull 4 "a.txt" (boot {[ fsPath "a.txt" := abc ]} [NoFault; Fail EIO]))
  = Some (AssertFailed "result != MBEDTLS_ERR_BASE64_BUFFER_TOO_SMALL", []).
Proof. by vm_compute. Qed.

(** C5, against the specification's wording: directory creation fails,
    the commit goes on and emits the error and then "OK\n"; likewise when
    only the rename fails. *)
Lemma commitFilePush_error_and_OK :
  sink <$> returns (commitFilePush "x" (uploading abc [NoFault; Fail ENOSPC]))
  = Some [YError "Cannot create path /spiffs/x: No space left on device";
          YString OK_nl] /\
  sink <$> returns (commitFilePush "x"
             (uploading abc [NoFault; NoFault; NoFault; NoFault; NoFault; Fail EIO]))
  = Some [YError "Cannot finalize push: I/O error"; YString OK_nl].
Proof. split; by vm_compute. Qed.

End StorageFacts.

(** * The timer bridge *)

Module TimersFacts.
Import Timers.

Lemma bind_Return {A B} (m : T A) (k : A -> T B) s a s' :
  m s = Return a s' -> (m ≫= k) s = k a s'.
Proof. intros Hm. unfold mbind, T_bind, bind. by rewrite Hm. Qed.

Lemma bind_Throw {A B} (m : T A) (k : A -> T B) s e s' :
  m s = Throw e s' -> (m ≫= k) s = Throw e s'.
Proof. intros Hm. unfold mbind, T_bind, bind. by rewrite Hm. Qed.

Ltac msimpl :=
  cbn [timerSlot rtos allocator scheduled called xTickCount m_startTicks
       set_timerSlot set_rtos set_allocator set_scheduled set_called
       set_startTicks] in *.

Lemma to_int32_small (h : Z) : 0 <= h < 2 ^ 31 -> to_int32 h = h.
Proof.
  intros Hh. unfold to_int32.
  change (2 ^ 31) with 2147483648 in *. change (2 ^ 32) with 4294967296.
  rewrite Z.mod_small by lia. lia.
Qed.

Lemma to_uint32_small (h : Z) : 0 <= h < 2 ^ 32 -> to_uint32 h = h.
Proof. intros Hh. unfold to_uint32. by rewrite Z.mod_small. Qed.

Section Bridge.
Context `{Runtime}.

(** C8: [createTimer] with a period of 0 throws before anything is done:
    called from script as [createTimer(0, oneShot, cb)] the error reaches
    the caller and the machine is as before, so no timer was created or
    started and nothing was registered. *)
Theorem createTimer_zero_period_rejected (oneShot : bool) (cb : nat) (s : Machine) :
  createTimer 0 oneShot s
    = Throw (RuntimeError "Timers with no period are not implemented yet") s /\
  dukCreateTimer (JNumber 0) (JBoolean oneShot) (JFunction cb) s
    = Throw (RuntimeError "Timers with no period are not implemented yet") s.
Proof. split; reflexivity. Qed.

(** *** Firing *)

Lemma timerCallback_run (AutoReload : bool) (h : Z) (s : Machine) :
  is_Some (rtos s !! h) ->
  timerCallback AutoReload h s
  = Return tt
      (if AutoReload
       then set_scheduled (scheduled s ++ [(to_int32 h, false)]) s
       else set_rtos (delete h (rtos s))
              (set_scheduled (scheduled s ++ [(to_int32 h, true)]) s)).
Proof.
  intros [t Ht]. unfold timerCallback, schedule, xTimerDelete.
  destruct AutoReload; cbn; [reflexivity|].
  unfold mbind, T_bind, bind, modify, get. cbn. by rewrite Ht.
Qed.

Lemma createTimer_run (period : Z) (oneShot : bool) (s : Machine) h s' :
  createTimer period oneShot s = Return h s' -> h <> 0 ->
  exists ticks,
    rtos s' = <[h := {| xTimerPeriodInTicks := ticks;
                        uxAutoReload := negb oneShot;
                        pxCallbackAutoReload := negb oneShot;
                        active := false |}]> (rtos s) /\
    timerSlot s' = timerSlot s /\ scheduled s' = scheduled s.
Proof.
  unfold createTimer, xTimerCreate.
  destruct (period =? 0); [discriminate|].
  destruct oneShot; cbn [negb];
    (destruct (pdMS_TO_TICKS period =? 0); [discriminate|]);
    unfold mbind, T_bind, bind, get, modify, ret; cbn;
    (destruct (allocator s) as [|a rest]; [intros [= <- _]; done|]);
    (destruct (a =? 0) eqn:Ha; intros [= <- <-]; [done|]);
    intros _; eexists; msimpl; done.
Qed.

Lemma expire_run (h : Z) (t : xTIMER) (s : Machine) :
  rtos s !! h = Some t ->
  pxCallbackAutoReload t = uxAutoReload t ->
  exists s',
    expire h s = Return tt s' /\
    scheduled s' = scheduled s ++ [(to_int32 h, negb (uxAutoReload t))] /\
    rtos s' = (if uxAutoReload t then rtos s else delete h (rtos s)) /\
    timerSlot s' = timerSlot s /\ called s' = called s /\
    allocator s' = allocator s.
Proof.
  intros Ht Hcb. unfold expire. unfold mbind at 1, T_bind, bind at 1, get.
  rewrite Ht, Hcb. destruct (uxAutoReload t) eqn:Hauto.
  - unfold mbind, T_bind, bind, ret.
    rewrite timerCallback_run by (by rewrite Ht).
    eexists. split; [reflexivity|]. msimpl. auto.
  - unfold mbind, T_bind, bind, modify.
    rewrite timerCallback_run by (msimpl; rewrite lookup_insert_eq; eauto).
    eexists. split; [reflexivity|]. msimpl. rewrite delete_insert_eq. auto 6.
Qed.

(** *** Draining *)

Lemma dukInvokeTimer_run (timer : Z) (cleanup : bool) (f : nat) (s s1 : Machine) :
  timerSlot s !! timer = Some (JFunction f) ->
  script f (set_called (called s ++ [f]) s) = (s1, None) ->
  dukInvokeTimer timer cleanup s
  = Return tt (if cleanup then set_timerSlot (delete timer (timerSlot s1)) s1 else s1).
Proof.
  intros Hslot Hscript. unfold dukInvokeTimer, slot_get, slot_del, duk_call.
  unfold mbind, T_bind, bind, get, ret, modify. rewrite Hslot. cbn.
  rewrite Hscript. by destruct cleanup.
Qed.

Lemma dukInvokeTimer_throws (timer : Z) (cleanup : bool) (f : nat) (e : error)
    (s s1 : Machine) :
  timerSlot s !! timer = Some (JFunction f) ->
  script f (set_called (called s ++ [f]) s) = (s1, Some e) ->
  dukInvokeTimer timer cleanup s = Throw e s1.
Proof.
  intros Hslot Hscript. unfold dukInvokeTimer, slot_get, slot_del, duk_call.
  unfold mbind, T_bind, bind, get, ret, modify. rewrite Hslot. cbn.
  by rewrite Hscript.
Qed.

Lemma dukInvokeTimer_miss (timer : Z) (cleanup : bool) (s : Machine) :
  timerSlot s !! timer = None ->
  dukInvokeTimer timer cleanup s = Throw (TypeError "callable required") s.
Proof.
  intros Hslot. unfold dukInvokeTimer, slot_get.
  unfold mbind, T_bind, bind, get, ret. by rewrite Hslot.
Qed.

Lemma drain_run (timerId : Z) (cleanup : bool) (rest : list (Z * bool)) (s : Machine) :
  scheduled s = (timerId, cleanup) :: rest ->
  drain s = dukInvokeTimer timerId cleanup (set_scheduled rest s).
Proof.
  intros Hq. unfold drain. unfold mbind at 1, T_bind, bind at 1, get.
  by rewrite Hq.
Qed.

Lemma firings_run (h : Z) (t : xTIMER) (f : nat) (N : nat) :
  0 <= h < 2 ^ 31 ->
  forall s : Machine,
  rtos s !! h = Some t ->
  uxAutoReload t = true -> pxCallbackAutoReload t = true ->
  timerSlot s !! h = Some (JFunction f) ->
  scheduled s = [] ->
  (forall s0, exists s1,
     script f s0 = (s1, None) /\
     timerSlot s1 !! h = timerSlot s0 !! h /\ rtos s1 !! h = rtos s0 !! h /\
     scheduled s1 = scheduled s0 /\ called s1 = called s0) ->
  exists s',
    firings N h s = Return tt s' /\
    timerSlot s' !! h = Some (JFunction f) /\
    rtos s' !! h = Some t /\
    scheduled s' = [] /\
    called s' = called s ++ replicate N f.
Proof.
  intros Hh. induction N as [|N IH]; intros s Ht Hauto Hcb Hslot Hq Hscript.
  - exists s. cbn [firings replicate]. by rewrite app_nil_r.
  - cbn [firings].
    destruct (expire_run h t s Ht) as (s1 & Hexp & Hq1 & Hr1 & Hs1 & Hc1 & _);
      [congruence|].
    rewrite (bind_Return _ _ _ _ _ Hexp).
    rewrite Hauto in Hq1, Hr1. cbn [negb] in Hq1.
    rewrite Hq, to_int32_small in Hq1 by done. cbn [app] in Hq1.
    destruct (Hscript (set_called (called (set_scheduled [] s1) ++ [f])
                         (set_scheduled [] s1)))
      as (s2 & Hrun & Hs2 & Hr2 & Hq2 & Hc2).
    msimpl.
    assert (Hdrain : drain s1 = Return tt s2).
    { rewrite (drain_run h false [] s1 Hq1).
      rewrite (dukInvokeTimer_run h false f _ s2); [done | | done].
      msimpl. by rewrite Hs1. }
    rewrite (bind_Return _ _ _ _ _ Hdrain).
    destruct (IH s2) as (s' & Hfire & Hs' & Hr' & Hq' & Hc'); try done.
    + by rewrite Hr2, Hr1.
    + by rewrite Hs2, Hs1.
    + exists s'. rewrite Hc', Hc2, Hc1. cbn [replicate].
      rewrite <- app_assoc. auto.
Qed.

Lemma dukDeleteTimer_miss (n : Z) (s : Machine) :
  timerSlot s !! n = None -> dukDeleteTimer (JNumber n) s = Return tt s.
Proof.
  intros Hslot. unfold dukDeleteTimer, duk_require_int, slot_has.
  unfold mbind, T_bind, bind, get, ret. rewrite Hslot.
  rewrite bool_decide_eq_false_2; [done|]. by intros [? ?].
Qed.

(** C9: the firing and drain protocol.  A firing enqueues the timer's id
    with the cleanup flag set exactly for a one-shot timer, whose native
    timer it deletes on the spot; the registry is not touched.  Timers get
    their mode from [createTimer].  Draining a request whose id is
    registered calls the registered function and afterwards removes the
    entry only if the flag is set.  Hence an auto-reload timer, fired and
    drained [N] times, is still registered with its callback, which has
    been called [N] times (the callback returning and leaving the bridge
    alone, the handle below 2^31). *)
Theorem firing_and_drain_protocol :
  (forall (h : Z) (t : xTIMER) (s : Machine),
     rtos s !! h = Some t ->
     pxCallbackAutoReload t = uxAutoReload t ->
     exists s',
       expire h s = Return tt s' /\
       scheduled s' = scheduled s ++ [(to_int32 h, negb (uxAutoReload t))] /\
       rtos s' = (if uxAutoReload t then rtos s else delete h (rtos s)) /\
       timerSlot s' = timerSlot s /\ called s' = called s) /\
  (forall (period : Z) (oneShot : bool) (s : Machine) (h : Z) (s' : Machine),
     createTimer period oneShot s = Return h s' -> h <> 0 ->
     exists t,
       rtos s' !! h = Some t /\
       uxAutoReload t = negb oneShot /\ pxCallbackAutoReload t = negb oneShot) /\
  (forall (timerId : Z) (cleanup : bool) (rest : list (Z * bool)) (f : nat)
          (s s1 : Machine),
     scheduled s = (timerId, cleanup) :: rest ->
     timerSlot s !! timerId = Some (JFunction f) ->
     script f (set_called (called s ++ [f]) (set_scheduled rest s)) = (s1, None) ->
     drain s
     = Return tt (if cleanup
                  then set_timerSlot (delete timerId (timerSlot s1)) s1
                  else s1)) /\
  (forall (N : nat) (h : Z) (t : xTIMER) (f : nat) (s : Machine),
     0 <= h < 2 ^ 31 ->
     rtos s !! h = Some t ->
     uxAutoReload t = true -> pxCallbackAutoReload t = true ->
     timerSlot s !! h = Some (JFunction f) ->
     scheduled s = [] ->
     (forall s0, exists s1,
        script f s0 = (s1, None) /\
        timerSlot s1 !! h = timerSlot s0 !! h /\ rtos s1 !! h = rtos s0 !! h /\
        scheduled s1 = scheduled s0 /\ called s1 = called s0) ->
     exists s',
       firings N h s = Return tt s' /\
       timerSlot s' !! h = Some (JFunction f) /\
       rtos s' !! h = Some t /\
       scheduled s' = [] /\
       called s' = called s ++ replicate N f).
Proof.
  repeat apply conj.
  - intros h t s Ht Hcb.
    destruct (expire_run h t s Ht Hcb) as (s' & ? & ? & ? & ? & ? & _).
    exists s'. auto.
  - intros period oneShot s h s' Hrun Hh.
    destruct (createTimer_run period oneShot s h s' Hrun Hh) as (ticks & Hr & _).
    eexists. rewrite Hr, lookup_insert_eq. auto.
  - intros timerId cleanup rest f s s1 Hq Hslot Hscript.
    rewrite (drain_run timerId cleanup rest s Hq).
    by apply (dukInvokeTimer_run timerId cleanup f).
  - intros N h t f s Hh. by apply firings_run.
Qed.

(** C10: draining a request whose id is not registered throws (the value
    looked up is not callable): no function is called, nothing is cleaned
    up, the registry and the native timers are as before.  [deleteTimer]
    on an id that is not registered changes nothing. *)
Theorem unregistered_id_throws_on_drain_noop_on_delete
    (timerId : Z) (cleanup : bool) (rest : list (Z * bool)) (s : Machine) :
  timerSlot s !! timerId = None ->
  (scheduled s = (timerId, cleanup) :: rest ->
   exists s',
     drain s = Throw (TypeError "callable required") s' /\
     timerSlot s' = timerSlot s /\ rtos s' = rtos s /\
     called s' = called s /\ scheduled s' = rest) /\
  dukInvokeTimer timerId cleanup s = Throw (TypeError "callable required") s /\
  dukDeleteTimer (JNumber timerId) s = Return tt s.
Proof.
  intros Hslot. repeat apply conj.
  - intros Hq. rewrite (drain_run timerId cleanup rest s Hq).
    rewrite dukInvokeTimer_miss by done. eexists. split; [reflexivity|]. by msimpl.
  - by apply dukInvokeTimer_miss.
  - by apply dukDeleteTimer_miss.
Qed.

End Bridge.

(** *** Runs on the concrete board *)

Import Board.

Example dukCreateTimer_ticking :
  dukCreateTimer (JNumber 50) (JBoolean false) (JFunction 0) (machine [handle])
  = Return (JNumber handle) ticking.
Proof. by vm_compute. Qed.

Lemma firing_and_drain_protocol_witness :
  (0 <= handle < 2 ^ 31 /\
   timerSlot ticking !! handle = Some (JFunction 0) /\
   scheduled ticking = []) /\
  exists s',
    firings 3 handle ticking = Return tt s' /\
    timerSlot s' !! handle = Some (JFunction 0) /\
    rtos s' !! handle
    = Some {| xTimerPeriodInTicks := 5; uxAutoReload := true;
              pxCallbackAutoReload := true; active := true |} /\
    scheduled s' = [] /\
    called s' = called ticking ++ replicate 3 0%nat.
Proof.
  split; [split; [by vm_compute | split; reflexivity]|].
  destruct firing_and_drain_protocol as (_ & _ & _ & Hfirings).
  apply Hfirings; try reflexivity.
  - by vm_compute.
  - intros s0. exists s0. repeat split; reflexivity.
Defined.

Lemma unregistered_id_throws_on_drain_noop_on_delete_witness :
  timerSlot orphan_request !! handle = None /\
  scheduled orphan_request = (handle, false) :: [] /\
  (exists s',
     drain orphan_request = Throw (TypeError "callable required") s' /\
     timerSlot s' = timerSlot orphan_request /\ rtos s' = rtos orphan_request /\
     called s' = called orphan_request /\ scheduled s' = []) /\
  dukInvokeTimer handle false orphan_request
    = Throw (TypeError "callable required") orphan_request /\
  dukDeleteTimer (JNumber handle) orphan_request = Return tt orphan_request.
Proof.
  destruct (unregistered_id_throws_on_drain_noop_on_delete
              handle false [] orphan_request)
    as (Hdrain & Hinvoke & Hdelete); [reflexivity|].
  split; [reflexivity|]. split; [reflexivity|].
  split; [apply Hdrain; reflexivity|]. split; assumption.
Defined.

End TimersFacts.

(** * More of the storage session *)

Module SessionFacts.
Import Storage StorageFacts.

Lemma append_assoc (a b c : string) : (a +:+ b) +:+ c = a +:+ (b +:+ c).
Proof.
  induction a as [|x a IH]; [done|].
  change (String x ((a +:+ b) +:+ c) = String x (a +:+ (b +:+ c))).
  by f_equal.
Qed.

Section Listing.
Context `{Platform}.

Lemma onEntry_line (prefixLen : nat) (ev : dir_event) (w : World) :
  visible ev = true -> fits prefixLen ev ->
  onEntry prefixLen ev w = Ret tt (set_sink (sink w ++ line prefixLen ev) w).
Proof.
  destruct ev as [type path name | error]; cbn [visible fits]; intros Hvis Hfit.
  - unfold onEntry. apply negb_true_iff in Hvis. rewrite Hvis.
    assert (Hyield : ((match type with
                       | File => yieldString "F"
                       | Directory => yieldString "D"
                       | Other => yieldString "?"
                       end) : M unit) = yieldString (marker type))
      by (by destruct type).
    rewrite Hyield, bind_yieldString. unfold substr.
    replace (String.length path <? prefixLen)%nat with false
      by (symmetry; apply Nat.ltb_ge; lia).
    rewrite bind_ret. unfold yieldString, modify. wsimpl. cbn [line].
    by rewrite <- app_assoc.
  - reflexivity.
Qed.

Lemma onEntry_short (prefixLen : nat) (type : FileType) (path name : string) (w : World) :
  startswith name "__" = false ->
  (String.length path < prefixLen)%nat ->
  onEntry prefixLen (DirEntry type path name) w
  = Fatal (Uncaught "std::out_of_range")
      (set_sink (sink w ++ [YString (marker type)]) w).
Proof.
  intros Hvis Hshort. unfold onEntry. rewrite Hvis.
  assert (Hyield : ((match type with
                     | File => yieldString "F"
                     | Directory => yieldString "D"
                     | Other => yieldString "?"
                     end) : M unit) = yieldString (marker type))
    by (by destruct type).
  rewrite Hyield, bind_yieldString. unfold substr.
  by replace (String.length path <? prefixLen)%nat with true
    by (symmetry; apply Nat.ltb_lt; lia).
Qed.

Lemma for_each_lines (prefixLen : nat) (evs : list dir_event) : forall w : World,
  Forall (fits prefixLen) (filter (fun ev => visible ev = true) evs) ->
  for_each (onEntry prefixLen) evs w
  = Ret tt (set_sink (sink w ++ concat (map (line prefixLen)
                                           (filter (fun ev => visible ev = true) evs))) w).
Proof.
  induction evs as [|ev evs IH]; intros w Hfit.
  - cbn. rewrite app_nil_r. by destruct w.
  - cbn [for_each]. rewrite filter_cons in *.
    destruct (decide (visible ev = true)) as [Hvis|Hhid].
    + apply Forall_cons in Hfit as [Hfit1 Hfit].
      rewrite (bind_Ret _ _ _ _ _ (onEntry_line prefixLen ev w Hvis Hfit1)).
      rewrite IH by done. wsimpl. cbn [map concat]. by rewrite <- app_assoc.
    + destruct ev as [type path name | error]; [|by destruct Hhid].
      cbn [visible] in Hhid. apply not_true_is_false, negb_false_iff in Hhid.
      rewrite (bind_Ret _ _ _ _ _ (onEntry_hidden prefixLen type path name w Hhid)).
      by apply IH.
Qed.

(** X1: what [doList] emits: for every entry that is not hidden, in the
    order of the enumeration, the kind marker and then the line with the
    path after the storage prefix, "/", the name and a newline; an error
    fragment for every enumeration error, in place; an empty line at the
    end.  Entries whose name starts with "__" leave no trace.  Nothing but
    the sink changes.  (The path of every entry listed is at least as long
    as the prefix and its separator.) *)
Theorem doList_lines (prefix : string) (w : World) :
  let prefixLen := (String.length getStoragePrefix + 1)%nat in
  let shown := filter (fun ev => visible ev = true)
                 (listDirectory (getStoragePrefix +:+ prefix) (files w)) in
  Forall (fits prefixLen) shown ->
  doList prefix w
  = Ret tt (set_sink (sink w ++ concat (map (line prefixLen) shown) ++ [YString nl]) w).
Proof.
  intros prefixLen shown Hfit. unfold doList. rewrite bind_get.
  rewrite (bind_Ret _ _ _ _ _ (for_each_lines _ _ w Hfit)).
  unfold yieldString, modify. wsimpl. by rewrite <- app_assoc.
Qed.

(** X2: hidden entries do not count: a listing is the same whatever
    entries with a name starting with "__" the directory holds, and
    wherever they stand. *)
Theorem doList_ignores_hidden (prefixLen : nat) (evs : list dir_event) (w : World) :
  for_each (onEntry prefixLen) evs w
  = for_each (onEntry prefixLen) (filter (fun ev => visible ev = true) evs) w.
Proof.
  revert w. induction evs as [|ev evs IH]; intros w; [done|].
  rewrite filter_cons.
  destruct (decide (visible ev = true)) as [Hvis|Hhid].
  - cbn [for_each]. unfold mbind, M_bind, bind.
    destruct (onEntry prefixLen ev w); [apply IH | done | done].
  - destruct ev as [type path name | error]; [|by destruct Hhid].
    cbn [visible] in Hhid. apply not_true_is_false, negb_false_iff in Hhid.
    cbn [for_each].
    rewrite (bind_Ret _ _ _ _ _ (onEntry_hidden prefixLen type path name w Hhid)).
    apply IH.
Qed.

(** X3: an entry that is not hidden and whose path is shorter than the
    storage prefix and its separator stops the listing: the marker of the
    entry is out, then [substr] throws [std::out_of_range] and [doList]
    does not return. *)
Theorem doList_short_path_throws
    (prefix : string) (w : World) (front rest : list dir_event)
    (type : FileType) (path name : string) :
  let prefixLen := (String.length getStoragePrefix + 1)%nat in
  listDirectory (getStoragePrefix +:+ prefix) (files w)
    = front ++ DirEntry type path name :: rest ->
  Forall (fits prefixLen) (filter (fun ev => visible ev = true) front) ->
  startswith name "__" = false ->
  (String.length path < prefixLen)%nat ->
  doList prefix w
  = Fatal (Uncaught "std::out_of_range")
      (set_sink (sink w
                 ++ concat (map (line prefixLen)
                              (filter (fun ev => visible ev = true) front))
                 ++ [YString (marker type)]) w).
Proof.
  intros prefixLen Hevs Hfit Hvis Hshort. unfold doList. rewrite bind_get, Hevs.
  assert (Hsplit : forall (l1 l2 : list dir_event) w0,
            for_each (onEntry prefixLen) (l1 ++ l2) w0
            = (for_each (onEntry prefixLen) l1 ;; for_each (onEntry prefixLen) l2) w0).
  { induction l1 as [|x l1 IH]; intros l2 w0; [done|].
    cbn [app for_each]. rewrite bind_bind. unfold mbind, M_bind, bind.
    destruct (onEntry prefixLen x w0); [apply IH | done | done]. }
  unfold mbind at 1, M_bind, bind at 1.
  rewrite Hsplit, (bind_Ret _ _ _ _ _ (for_each_lines _ _ w Hfit)).
  cbn [for_each].
  rewrite (bind_Fatal _ _ _ _ _ (onEntry_short prefixLen type path name _ Hvis Hshort)).
  wsimpl. by rewrite <- app_assoc.
Qed.

End Listing.

Section Paths.
Context `{Platform}.

Lemma fsPath_absolute (rest : string) :
  fsPath (String "/" rest) = getStoragePrefix +:+ String "/" rest.
Proof. reflexivity. Qed.

Lemma fsPath_relative (filename : string) :
  (forall rest, filename <> String "/" rest) ->
  fsPath filename = getStoragePrefix +:+ String "/" filename.
Proof.
  intros Hrel. unfold fsPath.
  destruct filename as [|c rest]; [by rewrite append_assoc|].
  destruct (decide (c = "/"%char)) as [->|Hc]; [by destruct (Hrel rest)|].
  assert (Hpath : match String c rest with
                  | String "/" _ => getStoragePrefix
                  | _ => getStoragePrefix +:+ "/"
                  end = getStoragePrefix +:+ "/").
  { destruct c as [[] [] [] [] [] [] [] []]; try reflexivity. by destruct Hc. }
  rewrite Hpath. by rewrite append_assoc.
Qed.

(** X4: what [fsPath] makes of a name that is not empty ([front()] of an
    empty string is not defined).  A name that starts with "/" is appended
    to the storage prefix as it is; any other name is appended to the
    prefix and a "/".  So a name and the same name with a "/" in front
    resolve to the same path exactly when the name does not itself start
    with "/" (one leading "/" is optional, a second one is kept); and the
    names that resolve to the working file of an upload are exactly
    "__tmp.txt" and "/__tmp.txt". *)
Theorem fsPath_slash_optional (filename : string) :
  filename <> "" ->
  (forall rest, filename = String "/" rest ->
     fsPath filename = getStoragePrefix +:+ filename) /\
  ((forall rest, filename <> String "/" rest) ->
     fsPath filename = getStoragePrefix +:+ "/" +:+ filename) /\
  (fsPath (String "/" filename) = fsPath filename <->
   forall rest, filename <> String "/" rest) /\
  (fsPath filename = workingFilename <->
   filename = "__tmp.txt" \/ filename = "/__tmp.txt").
Proof.
  intros Hne. repeat apply conj.
  - intros rest ->. apply fsPath_absolute.
  - intros Hrel. by rewrite fsPath_relative.
  - rewrite fsPath_absolute. intros Heq rest ->.
    rewrite fsPath_absolute in Heq.
    apply (inj (String.append getStoragePrefix)) in Heq.
    apply (f_equal String.length) in Heq. cbn in Heq. lia.
  - intros Hrel. by rewrite fsPath_absolute, fsPath_relative.
  - unfold workingFilename.
    destruct filename as [|c rest]; [done|].
    destruct (decide (c = "/"%char)) as [->|Hc].
    + rewrite fsPath_absolute. intros Heq.
      apply (inj (String.append getStoragePrefix)) in Heq. by right.
    + rewrite fsPath_relative by (intros rest' [= ? _]; done). intros Heq.
      apply (inj (String.append getStoragePrefix)) in Heq.
      left. congruence.
  - unfold workingFilename.
    intros [-> | ->]; [by rewrite fsPath_relative | by rewrite fsPath_absolute].
Qed.

End Paths.

(** *** Descriptors *)

Lemma fresh_fd_fresh (t : gmap Z fdesc) : t !! fresh_fd t = None.
Proof.
  unfold fresh_fd.
  destruct (head _) as [i|] eqn:Hi; cbn.
  - by apply head_Some_elem_of, list_elem_of_filter in Hi as [Hi _].
  - apply head_None in Hi.
    assert (Hall : forall i, i ∈ seqZ 0 (Z.of_nat (size t) + 1) -> i ∈ dom t).
    { intros i Hin. apply elem_of_dom.
      destruct (t !! i) eqn:Hti; [done|].
      assert (Hf : i ∈ filter (fun i => t !! i = None) (seqZ 0 (Z.of_nat (size t) + 1)))
        by (by apply list_elem_of_filter).
      rewrite Hi in Hf. by apply elem_of_nil in Hf. }
    assert (Hsub : list_to_set (C := gset Z) (seqZ 0 (Z.of_nat (size t) + 1)) ⊆ dom t).
    { intros i Hin. apply elem_of_list_to_set in Hin. by apply Hall. }
    apply subseteq_size in Hsub.
    rewrite size_list_to_set in Hsub by apply NoDup_seqZ.
    rewrite length_seqZ, size_dom in Hsub. lia.
Qed.

Lemma sys_close_ok (fd : Z) (d : fdesc) (w : World) :
  faults w = [] -> fdtab w !! fd = Some d ->
  exists w',
    sys_close fd w = Ret 0 w' /\ fdtab w' = delete fd (fdtab w) /\
    files w' = files w /\ sink w' = sink w /\ faults w' = [] /\
    _workingFd w' = _workingFd w /\ _finished w' = _finished w /\
    errno w' = errno w.
Proof.
  intros Hfl Hd. unfold sys_close. unfold_monad. rewrite Hfl. cbn. rewrite Hd. cbn.
  eexists. split; [reflexivity|]. wsimpl. by rewrite Hfl.
Qed.

(** *** Pulling, whatever fails *)

Lemma encode_failed_read (buf : list byte) :
  Base64.mbedtls_base64_encode ENCODED_SIZE buf (to_uint32 (-1))
  = (Base64.MBEDTLS_ERR_BASE64_BUFFER_TOO_SMALL, Base64.SIZE_T_MAX, []).
Proof. reflexivity. Qed.

Section Pulling.
Context `{Platform}.

Lemma pull_loop_any (fuel : nat) (fd : Z) : forall (buf : list byte) (w : World),
  match pull_loop fuel fd buf w with
  | Ret _ w' =>
      exists out evs, only_read fd w w' out evs /\ Forall (fun e => 0 <= result e) evs
  | Fatal f w' =>
      f = AssertFailed "result != MBEDTLS_ERR_BASE64_BUFFER_TOO_SMALL" /\
      exists out evs, only_read fd w w' out evs /\ Exists (fun e => result e = -1) evs
  | OutOfFuel => (fuel <= remaining fd w)%nat
  end.
Proof.
  induction fuel as [|fuel IH]; intros buf w; [cbn; lia|].
  cbn [pull_loop].
  destruct (sys_read_spec fd (Z.to_nat CHUNK_SIZE) w)
    as ([n data] & w1 & Hrun & [Hs Hwf Hfin _ _ Ht] & Hf & Hcase).
  rewrite (bind_Ret _ _ _ _ _ Hrun). cbn [fst snd] in *.
  destruct Hcase as [(-> & Htab & _)
                    | (d & c & _ & Hd & _ & Hc & -> & -> & _ & Htab)].
  - (* the read fails *)
    cbn [Z.eqb]. rewrite encode_failed_read. cbn.
    split; [done|].
    exists [], [{| call := SysRead fd; result := -1; after := files w1 |}].
    split; [|apply Exists_cons_hd; reflexivity].
    unfold only_read. rewrite app_nil_r, Htab.
    repeat split; auto; first [exact Ht | by apply Forall_singleton].
  - set (data := take (Z.to_nat CHUNK_SIZE) (drop (fd_pos d) c)) in *.
    assert (Hothers : forall k, k <> fd -> fdtab w1 !! k = fdtab w !! k).
    { intros k Hk. rewrite Htab. by apply lookup_insert_ne. }
    destruct (decide (data = [])) as [Hnil|Hne].
    + (* end of file *)
      rewrite Hnil. cbn [length Z.of_nat Z.eqb]. unfold ret.
      rewrite Hnil in Ht. cbn [length Z.of_nat] in Ht.
      exists [], [{| call := SysRead fd; result := 0; after := files w1 |}]. split.
      * unfold only_read. rewrite app_nil_r.
        repeat split; auto; first [exact Ht | by apply Forall_singleton].
      * apply Forall_singleton. cbn. lia.
    + assert (Hdlen : (length data <= Z.to_nat CHUNK_SIZE)%nat).
      { subst data. rewrite length_take. lia. }
      destruct (Z.eqb_spec (Z.of_nat (length data)) 0) as [Hz|_].
      { destruct data; [done | cbn in Hz; lia]. }
      rewrite encode_chunk by done.
      unfold assert. rewrite bind_ret, bind_yieldBuffer.
      rewrite Nat2Z.id, firstn_all.
      set (w2 := set_sink _ w1).
      specialize (IH (store data buf) w2).
      assert (Hrem : (remaining fd w2 < remaining fd w)%nat).
      { unfold remaining. subst w2. wsimpl. rewrite Htab, lookup_insert_eq, Hd.
        cbn [fd_path fd_pos]. rewrite Hf, Hc.
        rewrite <- drop_drop, !length_drop.
        assert (0 < length data)%nat by (destruct data; [done | cbn; lia]).
        subst data. rewrite length_take in *. rewrite length_drop in *. lia. }
      assert (Hstep : forall w' out evs,
                only_read fd w2 w' out evs ->
                only_read fd w w' (YBuffer (Base64.encode_groups data) :: out)
                  ({| call := SysRead fd; result := Z.of_nat (length data);
                      after := files w |} :: evs)).
      { intros w' out evs (Hf' & Hwf' & Hfin' & Htab' & Hs' & Hout & Ht' & Hevs).
        subst w2. wsimpl. unfold only_read.
        rewrite Hf', Hf, Hwf', Hwf, Hfin', Hfin, Hs', Hs, Ht', Ht, <- !app_assoc.
        repeat split; auto;
          first [ intros k Hk; by rewrite Htab', Hothers by done
                | by constructor | by rewrite Hf ]. }
      destruct (pull_loop fuel fd (store data buf) w2) as [[] w'|f w'|].
      * destruct IH as (out & evs & Hframe & Hres).
        eexists _, _. split; [by apply Hstep|]. constructor; [cbn; lia | done].
      * destruct IH as (-> & out & evs & Hframe & Hres).
        split; [done|]. eexists _, _. split; [by apply Hstep|].
        by apply Exists_cons_tl.
      * lia.
Qed.

Lemma doPull_any (fuel : nat) (filename : string) (w : World) :
  match doPull fuel filename w with
  | Ret _ w' =>
      files w' = files w /\ _workingFd w' = _workingFd w /\
      _finished w' = _finished w /\
      (forall k, is_Some (fdtab w !! k) -> fdtab w' !! k = fdtab w !! k) /\
      ((exists e,
          sink w' = sink w ++ [YError (strerror e)] /\
          trace w' = trace w ++
            [{| call := SysOpen (fsPath filename) O_RDONLY; result := -1;
                after := files w |}]) \/
       (exists fd out evs r,
          sink w' = sink w ++ out ++ [YString nl] /\ Forall is_buffer out /\
          trace w' = trace w
            ++ [{| call := SysOpen (fsPath filename) O_RDONLY; result := fd;
                   after := files w |}]
            ++ evs
            ++ [{| call := SysClose fd; result := r; after := files w |}] /\
          Forall (fun e => call e = SysRead fd /\ 0 <= result e) evs))
  | Fatal f w' =>
      f = AssertFailed "result != MBEDTLS_ERR_BASE64_BUFFER_TOO_SMALL" /\
      files w' = files w /\ _workingFd w' = _workingFd w /\
      _finished w' = _finished w /\
      (forall k, is_Some (fdtab w !! k) -> fdtab w' !! k = fdtab w !! k) /\
      exists fd evs,
        trace w' = trace w
          ++ [{| call := SysOpen (fsPath filename) O_RDONLY; result := fd;
                 after := files w |}]
          ++ evs /\
        Forall (fun e => call e = SysRead fd) evs /\
        Exists (fun e => result e = -1) evs
  | OutOfFuel =>
      exists c, files w !! fsPath filename = Some c /\ (fuel <= length c)%nat
  end.
Proof.
  unfold doPull.
  destruct (sys_open_spec (fsPath filename) O_RDONLY w)
    as (fd & w1 & Hrun & [Hs Hwf Hfin _ _ Ht] & Hcase).
  rewrite (bind_Ret _ _ _ _ _ Hrun).
  destruct Hcase as [(-> & Hf & Htab & _)
                    | (-> & _ & _ & Htab & [(c & Hc & Hf) | (_ & Hcr & _)])];
    [| | discriminate Hcr].
  - (* the open fails *)
    cbn [Z.ltb Z.compare]. norm. unfold yieldError, modify. wsimpl.
    rewrite Hf, Hwf, Hfin, Htab, Hs, Ht, Hf. repeat split; auto.
    left. eauto.
  - cbn [o_trunc O_RDONLY o_wronly] in *.
    pose proof (fresh_fd_nonneg (fdtab w)) as Hfd.
    pose proof (fresh_fd_fresh (fdtab w)) as Hfresh.
    set (fd := fresh_fd (fdtab w)) in *.
    replace (fd <? 0) with false by (symmetry; apply Z.ltb_ge; lia).
    assert (Hkeep : forall k, is_Some (fdtab w !! k) -> k <> fd).
    { intros k [x Hk] ->. congruence. }
    pose proof (pull_loop_any fuel fd (replicate (Z.to_nat CHUNK_SIZE) Byte.x00) w1)
      as Hloop.
    unfold mbind at 1, M_bind, bind at 1.
    destruct (pull_loop fuel fd _ w1) as [[] w2|f w2|].
    + destruct Hloop as (out & evs & (Hf2 & Hwf2 & Hfin2 & Htab2 & Hs2 & Hout & Ht2 & Hevs)
                         & Hres).
      norm.
      destruct (sys_close_spec fd (set_sink (sink w2 ++ [YString nl]) w2))
        as (r3 & w3 & Hclose & [Hs3 Hwf3 Hfin3 _ _ Ht3] & Hf3 & Hc3).
      rewrite (bind_Ret _ _ _ _ _ Hclose). unfold ret. wsimpl.
      rewrite Hf3, Hf2, Hf, Hwf3, Hwf2, Hwf, Hfin3, Hfin2, Hfin.
      repeat split; auto.
      * intros k Hk. pose proof (Hkeep k Hk) as Hne.
        destruct Hc3 as [(_ & _ & ->) | (_ & ->)];
          rewrite ?lookup_delete_ne by done;
          rewrite Htab2, Htab by done; by rewrite lookup_insert_ne.
      * right. exists fd, out, evs, r3.
        rewrite Hs3, Hs2, Hs, Ht3, Ht2, Ht, Hf3, Hf2, Hf, <- !app_assoc.
        repeat split; auto.
        apply Forall_forall. intros e He.
        rewrite Forall_forall in Hevs, Hres. auto.
    + destruct Hloop as (-> & out & evs
                         & (Hf2 & Hwf2 & Hfin2 & Htab2 & Hs2 & Hout & Ht2 & Hevs) & Hres).
      rewrite Hf2, Hf, Hwf2, Hwf, Hfin2, Hfin. repeat split; auto.
      * intros k Hk. pose proof (Hkeep k Hk) as Hne.
        rewrite Htab2, Htab by done. by rewrite lookup_insert_ne.
      * exists fd, evs. rewrite Ht2, Ht, Hf, <- app_assoc. auto.
    + exists c. split; [done|].
      unfold remaining in Hloop. rewrite Htab, lookup_insert_eq in Hloop.
      cbn [fd_path fd_pos] in Hloop. by rewrite Hf, Hc in Hloop.
Qed.

(** X5: [doPull] never writes: whatever the environment makes fail, and
    whether the pull returns or ends at its assertion, every file is as
    before, the descriptors that were open are as before, and the pending
    upload handle and the closed flag are untouched. *)
Theorem doPull_never_writes (fuel : nat) (filename : string) (w : World) :
  match doPull fuel filename w with
  | Ret _ w' | Fatal _ w' =>
      files w' = files w /\
      (forall k, is_Some (fdtab w !! k) -> fdtab w' !! k = fdtab w !! k) /\
      _workingFd w' = _workingFd w /\ _finished w' = _finished w
  | OutOfFuel => True
  end.
Proof.
  pose proof (doPull_any fuel filename w) as Hany.
  destruct (doPull fuel filename w) as [[] w'|f w'|]; [| |done].
  - destruct Hany as (? & ? & ? & ? & _). auto.
  - destruct Hany as (_ & ? & ? & ? & ? & _). auto.
Qed.

(** X6: the loop of [doPull] ends, and the assertion after the encoder can
    fail for one reason only.  With more iterations allowed than the file
    has bytes the pull returns or ends at that assertion; it ends there
    only when a [read] returned -1; when it returns, it made a failed open
    and one error fragment, or reads that all succeeded, buffer fragments
    and the final newline. *)
Theorem doPull_ends_and_aborts_only_on_failed_read
    (fuel : nat) (filename : string) (w : World) :
  (forall c, files w !! fsPath filename = Some c -> (length c < fuel)%nat) ->
  match doPull fuel filename w with
  | Ret _ w' =>
      (exists e,
         sink w' = sink w ++ [YError (strerror e)] /\
         trace w' = trace w ++
           [{| call := SysOpen (fsPath filename) O_RDONLY; result := -1;
               after := files w |}]) \/
      (exists fd out evs r,
         sink w' = sink w ++ out ++ [YString nl] /\ Forall is_buffer out /\
         trace w' = trace w
           ++ [{| call := SysOpen (fsPath filename) O_RDONLY; result := fd;
                  after := files w |}]
           ++ evs
           ++ [{| call := SysClose fd; result := r; after := files w |}] /\
         Forall (fun e => call e = SysRead fd /\ 0 <= result e) evs)
  | Fatal f w' =>
      f = AssertFailed "result != MBEDTLS_ERR_BASE64_BUFFER_TOO_SMALL" /\
      exists fd evs,
        trace w' = trace w
          ++ [{| call := SysOpen (fsPath filename) O_RDONLY; result := fd;
                 after := files w |}]
          ++ evs /\
        Forall (fun e => call e = SysRead fd) evs /\
        Exists (fun e => result e = -1) evs
  | OutOfFuel => False
  end.
Proof.
  intros Hfuel. pose proof (doPull_any fuel filename w) as Hany.
  destruct (doPull fuel filename w) as [[] w'|f w'|].
  - destruct Hany as (_ & _ & _ & _ & [(e & Hs & Ht) | Hok]); [left; eauto | by right].
  - destruct Hany as (-> & _ & _ & _ & _ & Hev). auto.
  - destruct Hany as (c & Hc & Hle). specialize (Hfuel c Hc). lia.
Qed.

Lemma doPull_clean (fuel : nat) (filename : string) (w : World) (c : list byte) :
  faults w = [] ->
  files w !! fsPath filename = Some c ->
  (length c < fuel)%nat ->
  exists w',
    doPull fuel filename w = Ret tt w' /\
    sink w' = sink w ++ pulled c /\
    fdtab w' = fdtab w /\ files w' = files w /\ faults w' = [] /\
    _workingFd w' = _workingFd w /\ _finished w' = _finished w.
Proof.
  intros Hfl Hc Hfuel. unfold doPull.
  destruct (sys_open_spec (fsPath filename) O_RDONLY w)
    as (fd & w1 & Hrun & [Hs Hwf Hfin _ Hfl1 _] & Hcase).
  rewrite (bind_Ret _ _ _ _ _ Hrun).
  rewrite Hfl in Hfl1. cbn [tail] in Hfl1.
  destruct Hcase as [(_ & _ & _ & [(e & He & _) | (Hnone & _)])
                    | (-> & _ & _ & Htab & [(c' & _ & Hf) | (Hnone & _)])];
    [unfold pending in He; rewrite Hfl in He; discriminate He
    | congruence | | congruence].
  cbn [o_trunc O_RDONLY o_wronly] in *.
  pose proof (fresh_fd_nonneg (fdtab w)) as Hfd.
  pose proof (fresh_fd_fresh (fdtab w)) as Hfresh.
  set (fd := fresh_fd (fdtab w)) in *.
  replace (fd <? 0) with false by (symmetry; apply Z.ltb_ge; lia).
  set (buf := replicate (Z.to_nat CHUNK_SIZE) Byte.x00).
  destruct (pull_loop_run fuel fd buf w1
              {| fd_path := fsPath filename; fd_pos := 0; fd_wronly := false |} c)
    as (w2 & Hloop & Hs2 & Hfl2 & Hf2 & Hwf2 & Hfin2 & Hdom2 & _); cbn [fd_path fd_pos];
    try done.
  { rewrite Htab. apply lookup_insert_eq. }
  { by rewrite Hf. }
  pose proof (pull_loop_any fuel fd buf w1) as Hany. rewrite Hloop in Hany.
  destruct Hany as (out & evs & (_ & _ & _ & Hothers & _) & _).
  rewrite (bind_Ret _ _ _ _ _ Hloop). norm.
  assert (Hopen : is_Some (fdtab w2 !! fd)).
  { apply elem_of_dom. rewrite Hdom2, Htab, dom_insert_L.
    by apply elem_of_union_l, elem_of_singleton_2. }
  destruct Hopen as [d2 Hd2].
  destruct (sys_close_ok fd d2 (set_sink (sink w2 ++ [YString nl]) w2))
    as (w3 & Hclose & Htab3 & Hf3 & Hs3 & Hfl3 & Hwf3 & Hfin3 & _); [done | done |].
  rewrite (bind_Ret _ _ _ _ _ Hclose).
  eexists. split; [reflexivity|]. wsimpl.
  rewrite Hs3, Hs2, Hs, Hfl3, Hf3, Hf2, Hf, Hwf3, Hwf2, Hwf, Hfin3, Hfin2, Hfin.
  cbn [fd_pos drop] in *. unfold pulled. rewrite <- app_assoc.
  repeat split; auto.
  rewrite Htab3. apply map_eq. intros k.
  destruct (decide (k = fd)) as [->|Hk].
  - by rewrite lookup_delete_eq.
  - rewrite lookup_delete_ne by done. rewrite Hothers, Htab by done.
    by apply lookup_insert_ne.
Qed.

(** X7: a pull of a readable file leaves no descriptor behind and can be
    repeated: the table of open descriptors and the files are as before,
    and a second pull emits the same fragments again. *)
Theorem doPull_repeatable (fuel : nat) (filename : string) (w : World) (c : list byte) :
  faults w = [] ->
  files w !! fsPath filename = Some c ->
  (length c < fuel)%nat ->
  exists w1 w2,
    doPull fuel filename w = Ret tt w1 /\
    fdtab w1 = fdtab w /\ files w1 = files w /\
    sink w1 = sink w ++ pulled c /\
    doPull fuel filename w1 = Ret tt w2 /\
    fdtab w2 = fdtab w /\ files w2 = files w /\
    sink w2 = sink w ++ pulled c ++ pulled c.
Proof.
  intros Hfl Hc Hfuel.
  destruct (doPull_clean fuel filename w c Hfl Hc Hfuel)
    as (w1 & Hrun1 & Hs1 & Htab1 & Hf1 & Hfl1 & _).
  destruct (doPull_clean fuel filename w1 c Hfl1) as (w2 & Hrun2 & Hs2 & Htab2 & Hf2 & _);
    [by rewrite Hf1 | done |].
  exists w1, w2. rewrite Hs2, Hs1, Htab2, Htab1, Hf2, Hf1, <- app_assoc. auto 10.
Qed.

End Pulling.

(** *** Uploads, in full *)

Lemma sys_close_nofault (fd : Z) (w : World) :
  faults w = [] ->
  exists r w',
    sys_close fd w = Ret r w' /\ fdtab w' = delete fd (fdtab w) /\
    files w' = files w /\ sink w' = sink w /\ faults w' = [] /\
    _workingFd w' = _workingFd w /\ _finished w' = _finished w.
Proof.
  intros Hfl. unfold sys_close. unfold_monad. rewrite Hfl. cbn.
  destruct (fdtab w !! fd) eqn:Hd; cbn;
    eexists _, _; (split; [reflexivity|]); wsimpl; rewrite Hfl;
    rewrite ?(delete_id _ _ Hd); auto 10.
Qed.

Section Uploads.
Context `{Platform}.

Lemma startFilePush_staging (w : World) :
  faults w = [] ->
  exists w',
    startFilePush w = Ret tt w' /\
    staging (if 0 <=? _workingFd w then delete (_workingFd w) (fdtab w) else fdtab w)
            (files w) [] w' /\
    sink w' = sink w /\ _finished w' = _finished w.
Proof.
  intros Hfl. unfold startFilePush. rewrite bind_get.
  set (T0 := if 0 <=? _workingFd w then delete (_workingFd w) (fdtab w) else fdtab w).
  assert (Hclosed : exists w0,
            ((if 0 <=? _workingFd w then sys_close (_workingFd w) ;; ret ()
              else ret ()) : M unit) w = Ret tt w0 /\
            faults w0 = [] /\ files w0 = files w /\ sink w0 = sink w /\
            fdtab w0 = T0 /\ _finished w0 = _finished w).
  { subst T0. destruct (0 <=? _workingFd w); [|by exists w].
    destruct (sys_close_nofault (_workingFd w) w Hfl)
      as (r & w0 & Hrun & Htab & Hf & Hs & Hfl0 & _ & Hfin).
    rewrite (bind_Ret _ _ _ _ _ Hrun). by exists w0. }
  destruct Hclosed as (w0 & Hrun0 & Hfl0 & Hf0 & Hs0 & Htab0 & Hfin0).
  rewrite (bind_Ret _ _ _ _ _ Hrun0).
  destruct (sys_open_spec workingFilename O_TRUNC_WRONLY_CREAT w0)
    as (fd & w1 & Hrun & [Hs _ Hfin _ Hfl1 _] & Hcase).
  rewrite (bind_Ret _ _ _ _ _ Hrun), bind_modify.
  rewrite Hfl0 in Hfl1. cbn [tail] in Hfl1.
  destruct Hcase as [(_ & _ & _ & [(e & He & _) | (_ & Hcr & _)])
                    | (-> & _ & _ & Htab & Hfiles)];
    [unfold pending in He; rewrite Hfl0 in He; discriminate He
    | discriminate Hcr |].
  pose proof (fresh_fd_nonneg (fdtab w0)) as Hfd.
  pose proof (fresh_fd_fresh (fdtab w0)) as Hfresh.
  replace (fresh_fd (fdtab w0) <? 0) with false by (symmetry; apply Z.ltb_ge; lia).
  eexists. split; [reflexivity|].
  assert (Hf1 : files w1 = <[workingFilename := []]> (files w0)).
  { destruct Hfiles as [(c & _ & Hf1) | (_ & _ & Hf1)]; exact Hf1. }
  unfold staging. wsimpl. rewrite Htab, Hf1, Hs, Hs0, Hf0, Hfin, Hfin0, Htab0 in *.
  repeat split; auto.
Qed.

Lemma addFileChunk_staging (buffer c : list byte) table others (w : World) :
  staging table others c w ->
  exists w',
    addFileChunk buffer w = Ret tt w' /\ staging table others (c ++ buffer) w' /\
    sink w' = sink w /\ _finished w' = _finished w.
Proof.
  intros (Hfl & Hfd & Hfree & Htab & Hfiles). unfold addFileChunk. rewrite bind_get.
  unfold assert. rewrite (proj2 (Z.leb_le _ _) Hfd), bind_ret.
  destruct (sys_write_spec (_workingFd w) buffer w)
    as (r & w1 & Hrun & [Hs Hwf Hfin _ Hfl1 _] & Hcase).
  rewrite (bind_Ret _ _ _ _ _ Hrun).
  rewrite Hfl in Hfl1. cbn [tail] in Hfl1.
  assert (Hp : pending w = NoFault) by (unfold pending; by rewrite Hfl).
  assert (Hd0 : fdtab w !! _workingFd w
                = Some {| fd_path := workingFilename; fd_pos := length c;
                          fd_wronly := true |})
    by (rewrite Htab; apply lookup_insert_eq).
  assert (Hc0 : files w !! workingFilename = Some c)
    by (rewrite Hfiles; apply lookup_insert_eq).
  destruct Hcase as [(_ & _ & _ & [(e & He & _)
                                   | (_ & [Hnone | (d & Hd & [Hw | Hn])])])
                    | (d & c' & data & _ & Hd & _ & Hc' & Hdata & -> & _ & Hf & Htab')].
  - congruence.
  - congruence.
  - rewrite Hd0 in Hd. injection Hd as <-. discriminate Hw.
  - rewrite Hd0 in Hd. injection Hd as <-. cbn in Hn. congruence.
  - rewrite Hd0 in Hd. injection Hd as <-. cbn [fd_path fd_pos] in *.
    assert (c' = c) as -> by congruence.
    rewrite Hp in Hdata. subst data.
    replace (Z.of_nat (length buffer) <? 0) with false
      by (symmetry; apply Z.ltb_ge; lia).
    eexists. split; [reflexivity|].
    unfold staging. rewrite Hwf, Htab', Hf, splice_end, length_app, Htab, Hfiles.
    rewrite !insert_insert_eq. repeat split; auto.
Qed.

Lemma addFileChunks_staging (bufs : list (list byte)) table others :
  forall (c : list byte) (w : World),
  staging table others c w ->
  exists w',
    for_each addFileChunk bufs w = Ret tt w' /\
    staging table others (c ++ concat bufs) w' /\
    sink w' = sink w /\ _finished w' = _finished w.
Proof.
  induction bufs as [|buf bufs IH]; intros c w Hst.
  - exists w. cbn [concat]. by rewrite app_nil_r.
  - cbn [for_each concat].
    destruct (addFileChunk_staging buf c _ _ w Hst) as (w1 & Hrun & Hst1 & Hs1 & Hfin1).
    rewrite (bind_Ret _ _ _ _ _ Hrun).
    destruct (IH _ w1 Hst1) as (w2 & Hrun2 & Hst2 & Hs2 & Hfin2).
    exists w2. rewrite app_assoc, Hs2, Hs1, Hfin2, Hfin1.
    split; [exact Hrun2|]. split; [exact Hst2|]. done.
Qed.

Lemma commitFilePush_staging (filename : string) (c : list byte) table others (w : World) :
  staging table others c w -> fsPath filename <> workingFilename ->
  exists w',
    commitFilePush filename w = Ret tt w' /\
    files w' = <[fsPath filename := c]> (delete workingFilename others) /\
    fdtab w' = table /\ _workingFd w' = -1 /\
    faults w' = [] /\ _finished w' = _finished w /\
    sink w' = sink w ++ [YString OK_nl].
Proof.
  intros (Hfl & Hfd & Hfree & Htab & Hfiles) Hne.
  unfold commitFilePush. rewrite bind_get.
  edestruct (sys_close_ok (_workingFd w)) as (w1 & Hrun1 & Htab1 & Hf1 & Hs1 & Hfl1 & _ & Hfin1 & _);
    [exact Hfl | rewrite Htab; apply lookup_insert_eq |].
  rewrite (bind_Ret _ _ _ _ _ Hrun1), bind_modify.
  rewrite Htab, delete_insert_eq, (delete_id _ _ Hfree) in Htab1.
  destruct (ensurePath_spec (fsPath filename) (set_workingFd (-1) w1))
    as (ok & w2 & Hrun2 & [Hs2 Hwf2 Hfin2 _ Hfl2 _] & Htab2 & Hf2 & Hok).
  rewrite (bind_Ret _ _ _ _ _ Hrun2).
  wsimpl. rewrite Hfl1 in Hfl2. cbn [tail] in Hfl2.
  destruct Hok as [(_ & e & He & _) | (-> & _)].
  { by apply (no_fault_pending (set_workingFd (-1) w1)) in He. }
  cbn [negb]. rewrite bind_ret.
  destruct (sys_remove_spec (fsPath filename) w2)
    as (r3 & w3 & Hrun3 & [Hs3 Hwf3 Hfin3 _ Hfl3 _] & Htab3 & Hrm).
  rewrite (bind_Ret _ _ _ _ _ Hrun3).
  rewrite Hfl2 in Hfl3. cbn [tail] in Hfl3.
  assert (Hf3 : files w3 = delete (fsPath filename) (files w)).
  { destruct Hrm as [(_ & Hf3 & [(e & He & _) | (Hnone & _)]) | (_ & _ & _ & _ & Hf3)].
    - by apply (no_fault_pending w2) in He.
    - rewrite Hf3, delete_id; [by rewrite Hf2, Hf1 | by rewrite <- Hf1, <- Hf2].
    - by rewrite Hf3, Hf2, Hf1. }
  assert (Hwork3 : files w3 !! workingFilename = Some c).
  { rewrite Hf3, lookup_delete_ne, Hfiles by done. apply lookup_insert_eq. }
  destruct (sys_open_spec workingFilename O_RDONLY w3)
    as (fd & w4 & Hrun4 & [Hs4 Hwf4 Hfin4 _ Hfl4 _] & Hop).
  rewrite (bind_Ret _ _ _ _ _ Hrun4).
  rewrite Hfl3 in Hfl4. cbn [tail] in Hfl4.
  destruct Hop as [(_ & _ & _ & [(e & He & _) | (Hnone & _)])
                  | (-> & _ & _ & Htab4 & [(c' & _ & Hf4) | (_ & Hcr & _)])];
    [by apply (no_fault_pending w3) in He | congruence | | discriminate Hcr].
  cbn [o_trunc O_RDONLY o_wronly] in *.
  pose proof (fresh_fd_nonneg (fdtab w3)) as Hfd4.
  pose proof (fresh_fd_fresh (fdtab w3)) as Hfresh4.
  unfold assert. rewrite (proj2 (Z.leb_le _ _) Hfd4), bind_ret.
  edestruct (sys_close_ok (fresh_fd (fdtab w3)))
    as (w5 & Hrun5 & Htab5 & Hf5 & Hs5 & Hfl5 & Hwf5 & Hfin5 & _);
    [exact Hfl4 | rewrite Htab4; apply lookup_insert_eq |].
  rewrite (bind_Ret _ _ _ _ _ Hrun5).
  rewrite Htab4, delete_insert_eq, (delete_id _ _ Hfresh4) in Htab5.
  destruct (sys_rename_spec workingFilename (fsPath filename) w5)
    as (res & w6 & Hrun6 & [Hs6 Hwf6 Hfin6 _ Hfl6 _] & Htab6 & Hrn).
  rewrite (bind_Ret _ _ _ _ _ Hrun6).
  rewrite Hfl5 in Hfl6. cbn [tail] in Hfl6.
  assert (Hf5' : files w5 = delete (fsPath filename) (files w))
    by (by rewrite Hf5, Hf4).
  destruct Hrn as [(_ & _ & [(e & He & _) | [(Hnone & _) | ([x Hx] & _)]])
                  | (-> & _ & _ & c6 & Hold & _ & Hf6)].
  - by apply (no_fault_pending w5) in He.
  - rewrite Hf5, Hf4 in Hnone. congruence.
  - rewrite Hf5', lookup_delete_eq in Hx. discriminate Hx.
  - cbn [Z.ltb Z.compare]. rewrite bind_ret.
    eexists. split; [reflexivity|]. wsimpl.
    rewrite Hf5, Hf4, Hwork3 in Hold. injection Hold as <-.
    rewrite Htab6, Htab5, Htab3, Htab2. wsimpl. rewrite Htab1.
    rewrite Hwf6, Hwf5, Hwf4, Hwf3, Hwf2. wsimpl.
    rewrite Hfin6, Hfin5, Hfin4, Hfin3, Hfin2. wsimpl. rewrite Hfin1.
    rewrite Hs6, Hs5, Hs4, Hs3, Hs2. wsimpl. rewrite Hs1.
    repeat split; auto.
    rewrite Hf6, Hf5', Hfiles. apply map_eq. intros p.
    destruct (decide (p = fsPath filename)) as [->|Hp];
      [by rewrite !lookup_insert_eq|].
    rewrite !lookup_insert_ne by done.
    destruct (decide (p = workingFilename)) as [->|Hw];
      [by rewrite !lookup_delete_eq|].
    rewrite !lookup_delete_ne by done. by rewrite lookup_insert_ne.
Qed.

Lemma push_staging (bufs : list (list byte)) (filename : string) (w : World) :
  faults w = [] ->
  fsPath filename <> workingFilename ->
  exists w',
    push bufs filename w = Ret tt w' /\
    files w' = <[fsPath filename := concat bufs]> (delete workingFilename (files w)) /\
    fdtab w' = (if 0 <=? _workingFd w then delete (_workingFd w) (fdtab w)
                else fdtab w) /\
    _workingFd w' = -1 /\ _finished w' = _finished w /\
    sink w' = sink w ++ [YString OK_nl].
Proof.
  intros Hfl Hne. unfold push.
  destruct (startFilePush_staging w Hfl) as (wa & Hstart & Hsta & Hsa & Hfina).
  destruct (addFileChunks_staging bufs _ _ [] wa Hsta) as (wb & Hadd & Hstb & Hsb & Hfinb).
  destruct (commitFilePush_staging filename _ _ _ wb Hstb Hne)
    as (w' & Hcommit & Hf & Htab & Hwf & _ & Hfin & Hs).
  exists w'. rewrite (bind_Ret _ _ _ _ _ Hstart), (bind_Ret _ _ _ _ _ Hadd).
  rewrite Hs, Hsb, Hsa, Hfin, Hfinb, Hfina. cbn [app] in Hf. auto 10.
Qed.

(** X8: an upload that nothing disturbs, in full.  After start, chunks and
    commit to a destination other than the working file: the destination
    holds the bytes of the chunks in order, the working file is gone,
    every other file is as before; no descriptor is left open (the table
    is the one before, less a handle that was pending); the session has
    no pending handle; the only fragment emitted is "OK\n". *)
Theorem push_effect (bufs : list (list byte)) (filename : string) (w : World) :
  faults w = [] ->
  fsPath filename <> workingFilename ->
  exists w',
    push bufs filename w = Ret tt w' /\
    files w' = <[fsPath filename := concat bufs]> (delete workingFilename (files w)) /\
    fdtab w' = (if 0 <=? _workingFd w then delete (_workingFd w) (fdtab w)
                else fdtab w) /\
    _workingFd w' = -1 /\ _finished w' = _finished w /\
    sink w' = sink w ++ [YString OK_nl].
Proof. exact (push_staging bufs filename w). Qed.


(** *** The pending handle *)

Lemma commitFilePush_handle (filename : string) (w : World) :
  match commitFilePush filename w with
  | Ret _ w' | Fatal _ w' =>
      _workingFd w' = -1 /\ _finished w' = _finished w /\
      forall p, p <> workingFilename -> p <> fsPath filename ->
        files w' !! p = files w !! p
  | OutOfFuel => False
  end.
Proof.
  unfold commitFilePush. rewrite bind_get.
  destruct (sys_close_spec (_workingFd w) w)
    as (r1 & w1 & Hrun1 & [_ _ Hfin1 _ _ _] & Hf1 & _).
  rewrite (bind_Ret _ _ _ _ _ Hrun1), bind_modify.
  destruct (ensurePath_spec (fsPath filename) (set_workingFd (-1) w1))
    as (ok & w2 & Hrun2 & [_ Hwf2 Hfin2 _ _ _] & _ & Hf2 & _).
  rewrite (bind_Ret _ _ _ _ _ Hrun2). wsimpl.
  destruct (sys_remove_spec (fsPath filename)
              (if ok then w2
               else set_sink (sink w2 ++ [YError ("Cannot create path "
                      +:+ fsPath filename +:+ ": " +:+ strerror (errno w2))]) w2))
    as (r3 & w3 & Hrun3 & [_ Hwf3 Hfin3 _ _ _] & _ & Hrm).
  assert (Hwf3' : _workingFd w3 = -1) by (rewrite Hwf3; by destruct ok).
  assert (Hfin3' : _finished w3 = _finished w)
    by (rewrite Hfin3; destruct ok; wsimpl; congruence).
  assert (Hf3 : forall p, p <> fsPath filename -> files w3 !! p = files w !! p).
  { intros p Hp. rewrite <- Hf1, <- Hf2.
    destruct Hrm as [(_ & -> & _) | (_ & _ & _ & _ & ->)];
      rewrite ?lookup_delete_ne by done; by destruct ok. }
  destruct (sys_open_spec workingFilename O_RDONLY w3)
    as (fd & w4 & Hrun4 & [_ Hwf4 Hfin4 _ _ _] & Hop).
  destruct (sys_close_spec fd w4)
    as (r5 & w5 & Hrun5 & [_ Hwf5 Hfin5 _ _ _] & Hf5 & _).
  destruct (sys_rename_spec workingFilename (fsPath filename) w5)
    as (res & w6 & Hrun6 & [_ Hwf6 Hfin6 _ _ _] & _ & Hrn).
  assert (Hf6 : forall p, p <> workingFilename -> p <> fsPath filename ->
                  files w6 !! p = files w5 !! p).
  { intros p Hp1 Hp2.
    destruct Hrn as [(_ & -> & _) | (_ & _ & _ & c & _ & _ & ->)]; [done|].
    by rewrite lookup_insert_ne, lookup_delete_ne. }
  destruct Hop as [(-> & Hf4 & _) | (-> & _ & _ & _ & Hf4)].
  - destruct ok; cbn [negb]; norm;
      rewrite (bind_Ret _ _ _ _ _ Hrun3), (bind_Ret _ _ _ _ _ Hrun4); cbn;
      (repeat split; [congruence | congruence |]);
      intros p _ Hp; rewrite Hf4; auto.
  - assert (Hf4' : files w4 = files w3).
    { destruct Hf4 as [(c & _ & Hf4) | (_ & Hcr & _)]; [exact Hf4 | discriminate Hcr]. }
    pose proof (fresh_fd_nonneg (fdtab w3)) as Hfd.
    destruct ok; cbn [negb]; norm;
      rewrite (bind_Ret _ _ _ _ _ Hrun3), (bind_Ret _ _ _ _ _ Hrun4);
      unfold assert; rewrite (proj2 (Z.leb_le _ _) Hfd); norm;
      rewrite (bind_Ret _ _ _ _ _ Hrun5), (bind_Ret _ _ _ _ _ Hrun6);
      destruct (res <? 0); norm; unfold yieldString, modify; wsimpl;
      (repeat split; [congruence | congruence |]);
      intros p Hp1 Hp2; rewrite Hf6, Hf5, Hf4' by done; auto.
Qed.

(** X10: a chunk needs a start that succeeded.  When the open of
    [startFilePush] fails the error is reported and no handle is pending,
    and the [addFileChunk] that follows ends the program at its assertion;
    nothing was written. *)
Theorem chunk_after_failed_start (buffer : list byte) (e : errno_t) (w : World) :
  _workingFd w < 0 -> pending w = Fail e ->
  exists w',
    (startFilePush ;; addFileChunk buffer) w
      = Fatal (AssertFailed "_workingFd >= 0") w' /\
    sink w' = sink w ++ [YError (strerror e)] /\
    files w' = files w /\ fdtab w' = fdtab w /\ _workingFd w' = -1.
Proof.
  intros Hwf He.
  assert (Hstart : exists w1,
            startFilePush w = Ret tt w1 /\
            sink w1 = sink w ++ [YError (strerror e)] /\
            files w1 = files w /\ fdtab w1 = fdtab w /\ _workingFd w1 = -1).
  { unfold startFilePush. rewrite bind_get.
    replace (0 <=? _workingFd w) with false by (symmetry; apply Z.leb_gt; lia).
    rewrite bind_ret.
    destruct (sys_open_spec workingFilename O_TRUNC_WRONLY_CREAT w)
      as (fd & w1 & Hrun & [Hs _ _ _ _ _] & Hcase).
    rewrite (bind_Ret _ _ _ _ _ Hrun), bind_modify.
    destruct Hcase as [(-> & Hf & Htab & [(e' & He' & Herr) | (_ & Hcr & _)])
                      | (_ & Hnf & _)];
      [| discriminate Hcr | by destruct (Hnf e)].
    assert (e' = e) as -> by congruence.
    cbn [Z.ltb Z.compare]. norm.
    eexists. split; [reflexivity|]. wsimpl. by rewrite Hs, Hf, Htab, Herr. }
  destruct Hstart as (w1 & Hrun & Hs & Hf & Htab & Hfd).
  exists w1. rewrite (bind_Ret _ _ _ _ _ Hrun).
  split; [apply addFileChunk_unstarted; lia | done].
Qed.

(** X11: a commit ends the upload whatever happens: when [commitFilePush]
    returns, and also when it ends at the sanity re-open, no handle is
    pending; an [addFileChunk] after a commit that returned ends the
    program at its assertion. *)
Theorem chunk_after_commit (filename : string) (buffer : list byte) (w : World) :
  match commitFilePush filename w with
  | Ret _ w' =>
      _workingFd w' = -1 /\
      addFileChunk buffer w' = Fatal (AssertFailed "_workingFd >= 0") w'
  | Fatal _ w' => _workingFd w' = -1
  | OutOfFuel => False
  end.
Proof.
  pose proof (commitFilePush_handle filename w) as Hh.
  destruct (commitFilePush filename w) as [[] w'|f w'|]; [| |done].
  - destruct Hh as (Hwf & _). split; [done|].
    apply addFileChunk_unstarted. lia.
  - by destruct Hh as (Hwf & _).
Qed.

End Uploads.

(** *** Removing, capacity, and whole sessions *)

Section Session.
Context `{Platform}.

(** X12: once [doRemove] has run on an undisturbed system the file is
    gone, whether it was there or not, and a pull of the same name is
    answered with the one error fragment of a missing file; the
    descriptor table is as before. *)
Theorem pull_after_remove (fuel : nat) (filename : string) (w : World) :
  faults w = [] ->
  exists w1 w2,
    doRemove filename w = Ret tt w1 /\
    doPull fuel filename w1 = Ret tt w2 /\
    files w1 = delete (fsPath filename) (files w) /\
    files w2 = files w1 /\ fdtab w2 = fdtab w /\
    sink w2 = sink w1 ++ [YError "No such file or directory"].
Proof.
  intros Hfl.
  assert (Hnf : forall w0, faults w0 = [] -> forall e, pending w0 <> Fail e)
    by (intros w0 H0 e; unfold pending; by rewrite H0).
  unfold doRemove.
  destruct (sys_remove_spec (fsPath filename) w)
    as (r & w1 & Hrun & [Hs1 _ _ _ Hfl1 _] & Htab1 & Hcase).
  rewrite Hfl in Hfl1. cbn [tail] in Hfl1.
  rewrite (bind_Ret _ _ _ _ _ Hrun).
  assert (Hgone : files w1 = delete (fsPath filename) (files w)).
  { destruct Hcase as [(_ & Hf & [(e & He & _) | (Hnone & _)]) | (_ & _ & _ & _ & Hf)];
      [by destruct (Hnf w Hfl e) | by rewrite Hf, delete_id | done]. }
  set (w1' := (if r <? 0
               then set_sink (sink w1 ++ [YError (strerror (errno w1))]) w1
               else w1)).
  assert (Hw1' : files w1' = files w1 /\ fdtab w1' = fdtab w1 /\ faults w1' = faults w1)
    by (unfold w1'; by destruct (r <? 0)).
  destruct Hw1' as (Hf1' & Htab1' & Hfl1').
  set (w1'' := set_sink (sink w1' ++ [YString OK_nl]) w1').
  assert (Hremoved : ((if r <? 0 then w ← get; yieldError (strerror (errno w))
                       else ret tt) ;; yieldString OK_nl) w1 = Ret tt w1'').
  { unfold w1'', w1'. by destruct (r <? 0). }
  rewrite Hremoved. exists w1''.
  unfold doPull.
  destruct (sys_open_spec (fsPath filename) O_RDONLY w1'')
    as (fd & w2 & Hrun2 & [Hs2 _ _ _ _ _] & Hop).
  rewrite (bind_Ret _ _ _ _ _ Hrun2).
  assert (Hmissing : files w1'' !! fsPath filename = None).
  { unfold w1''. wsimpl. rewrite Hf1', Hgone. apply lookup_delete_eq. }
  destruct Hop as [(-> & Hf2 & Htab2 & [(e & He & _) | (_ & _ & Herr)])
                  | (_ & _ & _ & _ & [(c & Hc & _) | (_ & Hcr & _)])];
    [ exfalso; apply (Hnf w1'' (eq_trans Hfl1' Hfl1) e He)
    | | congruence | discriminate Hcr ].
  cbn [Z.ltb Z.compare]. norm.
  eexists. split; [reflexivity|]. split; [reflexivity|]. wsimpl.
  rewrite Hs2, Hf2, Htab2, Herr. unfold w1''. wsimpl.
  by rewrite Hf1', Htab1', Htab1.
Qed.

(** X13: when the capacity query succeeds and the byte counts fit the
    [int] they are computed in, [doStats] emits one string: the free
    bytes, a space, the total bytes and a newline, where the free bytes
    are free clusters times sectors per cluster times the sector size and
    the total counts all clusters but the two reserved entries of the
    table. *)
Theorem doStats_reports_bytes (w : World) :
  (forall e, pending w <> Fail e) ->
  0 <= free_clst (volume w) -> 0 <= csize (volume w) ->
  2 <= n_fatent (volume w) -> 1 <= CONFIG_WL_SECTOR_SIZE ->
  free_clst (volume w) * csize (volume w) * CONFIG_WL_SECTOR_SIZE < 2 ^ 31 ->
  (n_fatent (volume w) - 2) * csize (volume w) * CONFIG_WL_SECTOR_SIZE < 2 ^ 31 ->
  exists w',
    doStats w = Ret tt w' /\
    files w' = files w /\
    sink w' = sink w ++
      [YString (pretty (free_clst (volume w) * csize (volume w) * CONFIG_WL_SECTOR_SIZE)
                +:+ " "
                +:+ pretty ((n_fatent (volume w) - 2) * csize (volume w)
                            * CONFIG_WL_SECTOR_SIZE)
                +:+ nl)].
Proof.
  intros Hnf Hfree Hcs Hent Hsec Hfb Htb. unfold doStats.
  destruct (f_getfree_spec w)
    as (res & w1 & Hrun & [Hs _ _ _ _ _] & _ & Hf & _ & Hcase).
  rewrite (bind_Ret _ _ _ _ _ Hrun). cbv beta iota.
  destruct Hcase as [(_ & e & He) | (-> & _)]; [by destruct (Hnf e)|].
  cbn [Z.eqb negb].
  set (fs := volume w) in *.
  assert (Hfs : 0 <= free_clst fs * csize fs < 2 ^ 31) by nia.
  assert (Hts : 0 <= (n_fatent fs - 2) * csize fs < 2 ^ 31) by nia.
  assert (H32 : 2 ^ 31 < 2 ^ 32) by done.
  rewrite !TimersFacts.to_uint32_small by lia.
  rewrite (TimersFacts.to_int32_small (free_clst fs * csize fs)) by lia.
  rewrite (TimersFacts.to_int32_small ((n_fatent fs - 2) * csize fs)) by lia.
  rewrite !TimersFacts.to_int32_small by (split; [nia | lia]).
  eexists. split; [reflexivity|]. wsimpl. by rewrite Hs, Hf.
Qed.

(** **** What every operation keeps *)

Lemma kept_refl (ts : list string) (w w' : World) :
  handle_ok w ->
  files w' = files w -> fdtab w' = fdtab w ->
  _workingFd w' = _workingFd w -> _finished w' = _finished w ->
  kept ts w w'.
Proof.
  intros Hok Hf Htab Hwf Hfin. unfold kept, handle_ok.
  rewrite Hf, Htab, Hwf, Hfin. auto.
Qed.

Lemma kept_trans (ts ts' : list string) (w w1 w2 : World) :
  kept ts w w1 -> kept ts' w1 w2 -> kept (ts ++ ts') w w2.
Proof.
  intros (_ & Hfin1 & Hf1) (Hok & Hfin2 & Hf2). repeat split; [done | auto |].
  intros p Hp. rewrite Hf2, Hf1; [done | |]; intros Hin; apply Hp;
    apply elem_of_app; auto.
Qed.

Lemma for_each_onEntry_quiet (prefixLen : nat) (evs : list dir_event) : forall w : World,
  match for_each (onEntry prefixLen) evs w with
  | Ret _ w' | Fatal _ w' =>
      files w' = files w /\ fdtab w' = fdtab w /\
      _workingFd w' = _workingFd w /\ _finished w' = _finished w
  | OutOfFuel => False
  end.
Proof.
  induction evs as [|ev evs IH]; intros w; [done|].
  cbn [for_each].
  assert (Hone : match onEntry prefixLen ev w with
                 | Ret _ w' | Fatal _ w' =>
                     files w' = files w /\ fdtab w' = fdtab w /\
                     _workingFd w' = _workingFd w /\ _finished w' = _finished w
                 | OutOfFuel => False
                 end).
  { destruct ev as [type path name | error]; [|done].
    unfold onEntry. destruct (startswith name "__"); [done|].
    assert (Hyield : ((match type with
                       | File => yieldString "F"
                       | Directory => yieldString "D"
                       | Other => yieldString "?"
                       end) : M unit) = yieldString (marker type))
      by (by destruct type).
    rewrite Hyield, bind_yieldString. unfold substr.
    by destruct (String.length path <? prefixLen)%nat. }
  destruct (onEntry prefixLen ev w) as [[] w1|f w1|] eqn:Hrun; [| |done].
  - rewrite (bind_Ret _ _ _ _ _ Hrun). specialize (IH w1).
    destruct Hone as (Hf & Htab & Hwf & Hfin).
    destruct (for_each (onEntry prefixLen) evs w1) as [[] w2|f w2|]; [| |done];
      rewrite <- Hf, <- Htab, <- Hwf, <- Hfin; exact IH.
  - by rewrite (bind_Fatal _ _ _ _ _ Hrun).
Qed.

Lemma perform_kept (fuel : nat) (op : operation) (w : World) :
  handle_ok w ->
  match perform fuel op w with
  | Ret _ w' | Fatal _ w' => kept (targets op) w w'
  | OutOfFuel => True
  end.
Proof.
  intros Hok. destruct op as [prefix|filename|filename| |buffer|filename| |];
    cbn [perform targets].
  - (* doList *)
    unfold doList. rewrite bind_get.
    pose proof (for_each_onEntry_quiet (String.length getStoragePrefix + 1)
                  (listDirectory (getStoragePrefix +:+ prefix) (files w)) w) as Hq.
    destruct (for_each _ _ w) as [[] w1|f w1|] eqn:Hrun; [| |done].
    + rewrite (bind_Ret _ _ _ _ _ Hrun). destruct Hq as (Hf & Htab & Hwf & Hfin).
      by apply kept_refl.
    + rewrite (bind_Fatal _ _ _ _ _ Hrun). destruct Hq as (Hf & Htab & Hwf & Hfin).
      by apply kept_refl.
  - (* doPull *)
    pose proof (doPull_any fuel filename w) as Hp.
    assert (Hsame : forall w', files w' = files w -> _workingFd w' = _workingFd w ->
              _finished w' = _finished w ->
              (forall k, is_Some (fdtab w !! k) -> fdtab w' !! k = fdtab w !! k) ->
              kept [] w w').
    { intros w' Hf Hwf Hfin Hothers. repeat split.
      - destruct Hok as [Hno | (pos & Hd)]; [left; congruence|].
        right. exists pos. rewrite Hwf, Hothers; [done | by rewrite Hd].
      - congruence.
      - intros p _. by rewrite Hf. }
    destruct (doPull fuel filename w) as [[] w'|f w'|]; [| |done].
    + destruct Hp as (Hf & Hwf & Hfin & Hothers & _). by apply Hsame.
    + destruct Hp as (_ & Hf & Hwf & Hfin & Hothers & _). by apply Hsame.
  - (* doRemove *)
    unfold doRemove.
    destruct (sys_remove_spec (fsPath filename) w)
      as (r & w1 & Hrun & [_ Hwf Hfin _ _ _] & Htab & Hcase).
    rewrite (bind_Ret _ _ _ _ _ Hrun).
    assert (Hk : kept [fsPath filename] w w1).
    { repeat split.
      - unfold handle_ok. by rewrite Hwf, Htab.
      - congruence.
      - intros p Hp. destruct Hcase as [(_ & Hf & _) | (_ & _ & _ & _ & Hf)];
          rewrite Hf; [done|]. apply lookup_delete_ne. intros <-. apply Hp. left. }
    destruct (r <? 0); norm; unfold yieldString, yieldError, modify; cbn;
      destruct Hk as (Hok1 & Hfin1 & Hf1); by repeat split.
  - (* startFilePush *)
    unfold startFilePush. rewrite bind_get.
    assert (Hclosed : exists w0,
              ((if 0 <=? _workingFd w then sys_close (_workingFd w) ;; ret ()
                else ret ()) : M unit) w = Ret tt w0 /\
              files w0 = files w /\ _finished w0 = _finished w).
    { destruct (0 <=? _workingFd w); [|by exists w].
      destruct (sys_close_spec (_workingFd w) w)
        as (r & w0 & Hrun & [_ _ Hfin _ _ _] & Hf & _).
      rewrite (bind_Ret _ _ _ _ _ Hrun). by exists w0. }
    destruct Hclosed as (w0 & Hrun0 & Hf0 & Hfin0).
    rewrite (bind_Ret _ _ _ _ _ Hrun0).
    destruct (sys_open_spec workingFilename O_TRUNC_WRONLY_CREAT w0)
      as (fd & w1 & Hrun & [_ _ Hfin1 _ _ _] & Hcase).
    rewrite (bind_Ret _ _ _ _ _ Hrun), bind_modify.
    destruct Hcase as [(-> & Hf & _) | (-> & _ & _ & Htab & Hfiles)].
    + cbn [Z.ltb Z.compare]. norm. unfold yieldError, modify.
      cbv beta iota. split; [by left|]. wsimpl.
      split; [congruence | intros p _; congruence].
    + pose proof (fresh_fd_nonneg (fdtab w0)) as Hfd.
      replace (fresh_fd (fdtab w0) <? 0) with false
        by (symmetry; apply Z.ltb_ge; lia).
      cbv beta iota. split; [|wsimpl; split; [congruence|]].
      * right. exists 0%nat. wsimpl. by rewrite Htab, lookup_insert_eq.
      * intros p Hp. rewrite <- Hf0.
        assert (p <> workingFilename) by (intros ->; apply Hp; left).
        destruct Hfiles as [(c & _ & ->) | (_ & _ & ->)]; cbn;
          by rewrite lookup_insert_ne.
  - (* addFileChunk *)
    unfold addFileChunk. rewrite bind_get. unfold assert.
    destruct (0 <=? _workingFd w) eqn:Hfd.
    2:{ cbn. apply kept_refl; done. }
    rewrite bind_ret.
    destruct (sys_write_spec (_workingFd w) buffer w)
      as (r & w1 & Hrun & [_ Hwf Hfin _ _ _] & Hcase).
    rewrite (bind_Ret _ _ _ _ _ Hrun).
    assert (Hk : kept [workingFilename] w w1).
    { destruct Hcase as [(_ & Hf & Htab & _)
                        | (d & c & data & _ & Hd & _ & _ & _ & _ & _ & Hf & Htab)].
      - by apply kept_refl.
      - destruct Hok as [Hno | (pos & Hpos)];
          [apply Z.leb_le in Hfd; lia|].
        assert (d = {| fd_path := workingFilename; fd_pos := pos; fd_wronly := true |})
          as -> by congruence.
        cbn [fd_path fd_pos] in *. repeat split.
        + right. eexists. rewrite Hwf, Htab. apply lookup_insert_eq.
        + congruence.
        + intros p Hp. rewrite Hf. apply lookup_insert_ne. intros <-. apply Hp. left. }
    destruct (r <? 0); norm; unfold yieldError, modify; cbn;
      destruct Hk as (Hok1 & Hfin1 & Hf1); by repeat split.
  - (* commitFilePush *)
    pose proof (commitFilePush_handle filename w) as Hh.
    destruct (commitFilePush filename w) as [[] w'|f w'|]; [| |done];
      destruct Hh as (Hwf & Hfin & Hf);
      (split; [by left | split; [congruence|]]);
      intros p Hp; apply Hf; intros ->; apply Hp; first [left | right; left].
  - (* performExit *)
    cbn. split; [exact Hok | by split].
  - (* doStats *)
    unfold doStats.
    destruct (f_getfree_spec w)
      as (res & w1 & Hrun & [_ Hwf Hfin _ _ _] & Htab & Hf & _ & _).
    rewrite (bind_Ret _ _ _ _ _ Hrun). cbv beta iota.
    destruct (negb (res =? 0)); unfold yieldError, yieldString, modify; cbn;
      apply (kept_refl [] w w1); done.
Qed.

(** X14: what a whole session keeps, whatever the environment does.
    Started with a sound handle (none pending, or a descriptor open for
    writing on the working file), any sequence of operations that returns
    or ends the program leaves the handle sound and a finished session
    finished, and has left alone every file that is not the working file
    (for an upload) or the file named in a removal or a commit. *)
Theorem session_kept (fuel : nat) (ops : list operation) : forall w : World,
  handle_ok w ->
  match session fuel ops w with
  | Ret _ w' | Fatal _ w' => kept (concat (map targets ops)) w w'
  | OutOfFuel => True
  end.
Proof.
  unfold session. induction ops as [|op ops IH]; intros w Hok.
  - cbn. by apply kept_refl.
  - cbn [for_each map concat].
    pose proof (perform_kept fuel op w Hok) as Hop.
    destruct (perform fuel op w) as [[] w1|f w1|] eqn:Hrun;
      [| | by unfold mbind, M_bind, bind; rewrite Hrun].
    + rewrite (bind_Ret _ _ _ _ _ Hrun).
      specialize (IH w1 (proj1 Hop)).
      destruct (for_each (perform fuel) ops w1) as [[] w2|f w2|]; [| |done];
        by apply (kept_trans _ _ w w1 w2).
    + rewrite (bind_Fatal _ _ _ _ _ Hrun).
      destruct Hop as (Hok1 & Hfin1 & Hf1). split; [done | split; [done|]].
      intros p Hp. apply Hf1. intros Hin. apply Hp. apply elem_of_app. auto.
Qed.

End Session.

(** *** Runs on the concrete board *)

Import Board.

Lemma doList_lines_witness :
  Forall (fits 8)
    [ DirEntry File "/spiffs/" "a.txt"; DirEntry Directory "/spiffs/" "lib";
      DirError "I/O error" ] /\
  @doList shelf "" blank
  = Ret tt (set_sink
              (line 8 (DirEntry File "/spiffs/" "a.txt")
               ++ line 8 (DirEntry Directory "/spiffs/" "lib")
               ++ [YError "I/O error"; YString nl]) blank).
Proof.
  split; [repeat constructor; simpl; lia|].
  apply (@doList_lines shelf "" blank). repeat constructor; simpl; lia.
Defined.

Lemma doList_short_path_throws_witness :
  (String.length "/spiffs" < 8)%nat /\
  @doList bare "" blank
  = Fatal (Uncaught "std::out_of_range") (set_sink [YString "F"] blank).
Proof.
  split; [simpl; lia|].
  apply (@doList_short_path_throws bare "" blank [] [] File "/spiffs" "a.txt");
    [reflexivity | constructor | reflexivity | simpl; lia].
Defined.

Lemma fsPath_slash_optional_witness :
  "a.txt" <> "" /\
  (forall rest, "a.txt" = String "/" rest ->
     fsPath "a.txt" = getStoragePrefix +:+ "a.txt") /\
  ((forall rest, "a.txt" <> String "/" rest) ->
     fsPath "a.txt" = getStoragePrefix +:+ "/" +:+ "a.txt") /\
  (fsPath "/a.txt" = fsPath "a.txt" <->
   forall rest, "a.txt" <> String "/" rest) /\
  (fsPath "a.txt" = workingFilename <->
   "a.txt" = "__tmp.txt" \/ "a.txt" = "/__tmp.txt").
Proof.
  split; [discriminate|]. apply (fsPath_slash_optional "a.txt"). discriminate.
Defined.

(** One leading "/" is optional, a second one is not. *)
Example fsPath_leading_slashes :
  fsPath "a" = "/spiffs/a" /\ fsPath "/a" = "/spiffs/a" /\
  fsPath "//a" = "/spiffs//a".
Proof. repeat split. Qed.

Lemma doPull_ends_and_aborts_only_on_failed_read_witness :
  (forall c, files holding !! fsPath "a.txt" = Some c -> (length c < 4)%nat) /\
  match doPull 4 "a.txt" holding with
  | Ret _ w' =>
      (exists e,
         sink w' = sink holding ++ [YError (strerror e)] /\
         trace w' = trace holding ++
           [{| call := SysOpen (fsPath "a.txt") O_RDONLY; result := -1;
               after := files holding |}]) \/
      (exists fd out evs r,
         sink w' = sink holding ++ out ++ [YString nl] /\ Forall is_buffer out /\
         trace w' = trace holding
           ++ [{| call := SysOpen (fsPath "a.txt") O_RDONLY; result := fd;
                  after := files holding |}]
           ++ evs
           ++ [{| call := SysClose fd; result := r; after := files holding |}] /\
         Forall (fun e => call e = SysRead fd /\ 0 <= result e) evs)
  | Fatal f w' =>
      f = AssertFailed "result != MBEDTLS_ERR_BASE64_BUFFER_TOO_SMALL" /\
      exists fd evs,
        trace w' = trace holding
          ++ [{| call := SysOpen (fsPath "a.txt") O_RDONLY; result := fd;
                 after := files holding |}]
          ++ evs /\
        Forall (fun e => call e = SysRead fd) evs /\
        Exists (fun e => result e = -1) evs
  | OutOfFuel => False
  end.
Proof.
  assert (Hfuel : forall c, files holding !! fsPath "a.txt" = Some c ->
                            (length c < 4)%nat).
  { intros c Hc. vm_compute in Hc. injection Hc as <-. simpl. lia. }
  split; [exact Hfuel|].
  apply (doPull_ends_and_aborts_only_on_failed_read 4 "a.txt" holding Hfuel).
Defined.

Lemma doPull_repeatable_witness :
  (faults holding = [] /\ files holding !! fsPath "a.txt" = Some abc /\
   (length abc < 4)%nat) /\
  exists w1 w2,
    doPull 4 "a.txt" holding = Ret tt w1 /\
    fdtab w1 = fdtab holding /\ files w1 = files holding /\
    sink w1 = sink holding ++ pulled abc /\
    doPull 4 "a.txt" w1 = Ret tt w2 /\
    fdtab w2 = fdtab holding /\ files w2 = files holding /\
    sink w2 = sink holding ++ pulled abc ++ pulled abc.
Proof.
  split; [split; [reflexivity | split; [by vm_compute | simpl; lia]]|].
  apply (doPull_repeatable 4 "a.txt" holding abc);
    [reflexivity | by vm_compute | simpl; lia].
Defined.

Lemma push_effect_witness :
  (faults blank = [] /\ fsPath "a.txt" <> workingFilename) /\
  exists w',
    push [abc; abc] "a.txt" blank = Ret tt w' /\
    files w' = <[fsPath "a.txt" := concat [abc; abc]]>
                 (delete workingFilename (files blank)) /\
    fdtab w' = (if 0 <=? _workingFd blank then delete (_workingFd blank) (fdtab blank)
                else fdtab blank) /\
    _workingFd w' = -1 /\ _finished w' = _finished blank /\
    sink w' = sink blank ++ [YString OK_nl].
Proof.
  split; [split; [reflexivity | by vm_compute]|].
  apply (push_effect [abc; abc] "a.txt" blank); [reflexivity | by vm_compute].
Defined.


Lemma chunk_after_failed_start_witness :
  (_workingFd (boot ∅ [Fail ENOSPC]) < 0 /\
   pending (boot ∅ [Fail ENOSPC]) = Fail ENOSPC) /\
  exists w',
    (startFilePush ;; addFileChunk abc) (boot ∅ [Fail ENOSPC])
      = Fatal (AssertFailed "_workingFd >= 0") w' /\
    sink w' = sink (boot ∅ [Fail ENOSPC]) ++ [YError (strerror ENOSPC)] /\
    files w' = files (boot ∅ [Fail ENOSPC]) /\
    fdtab w' = fdtab (boot ∅ [Fail ENOSPC]) /\ _workingFd w' = -1.
Proof.
  split; [split; [simpl; lia | reflexivity]|].
  apply (chunk_after_failed_start abc ENOSPC (boot ∅ [Fail ENOSPC]));
    [simpl; lia | reflexivity].
Defined.

Lemma pull_after_remove_witness :
  faults holding = [] /\
  exists w1 w2,
    doRemove "a.txt" holding = Ret tt w1 /\
    doPull 4 "a.txt" w1 = Ret tt w2 /\
    files w1 = delete (fsPath "a.txt") (files holding) /\
    files w2 = files w1 /\ fdtab w2 = fdtab holding /\
    sink w2 = sink w1 ++ [YError "No such file or directory"].
Proof.
  split; [reflexivity|].
  apply (pull_after_remove 4 "a.txt" holding). reflexivity.
Defined.

Lemma doStats_reports_bytes_witness :
  ((forall e, pending blank <> Fail e) /\
   0 <= free_clst (volume blank) /\ 0 <= csize (volume blank) /\
   2 <= n_fatent (volume blank) /\ 1 <= CONFIG_WL_SECTOR_SIZE /\
   free_clst (volume blank) * csize (volume blank) * CONFIG_WL_SECTOR_SIZE < 2 ^ 31 /\
   (n_fatent (volume blank) - 2) * csize (volume blank) * CONFIG_WL_SECTOR_SIZE
     < 2 ^ 31) /\
  exists w',
    doStats blank = Ret tt w' /\
    files w' = files blank /\
    sink w' = sink blank ++ [YString (pretty 819200 +:+ " " +:+ pretty 1048576 +:+ nl)].
Proof.
  split; [repeat split; solve [discriminate | by vm_compute]|].
  assert (Hnf : forall e, pending blank <> Fail e) by discriminate.
  exact (doStats_reports_bytes blank Hnf ltac:(by vm_compute) ltac:(by vm_compute)
           ltac:(by vm_compute) ltac:(by vm_compute) ltac:(by vm_compute)
           ltac:(by vm_compute)).
Defined.

Lemma session_kept_witness :
  handle_ok blank /\
  match session 4 [OpStart; OpChunk abc; OpCommit "a.txt"; OpPull "a.txt"; OpExit]
          blank with
  | Ret _ w' | Fatal _ w' =>
      kept (concat (map targets
                      [OpStart; OpChunk abc; OpCommit "a.txt"; OpPull "a.txt"; OpExit]))
        blank w'
  | OutOfFuel => True
  end.
Proof.
  split; [by left|].
  apply (session_kept 4
           [OpStart; OpChunk abc; OpCommit "a.txt"; OpPull "a.txt"; OpExit] blank).
  by left.
Defined.

End SessionFacts.

(** ** The timer bridge, further *)

Module BridgeFacts.
Import Timers TimersFacts.

Lemma to_uint32_to_int32 (h : Z) : 0 <= h < 2 ^ 32 -> to_uint32 (to_int32 h) = h.
Proof.
  intros Hh. unfold to_uint32, to_int32.
  change (2 ^ 31) with 2147483648 in *. change (2 ^ 32) with 4294967296 in *.
  Z.div_mod_to_equations. lia.
Qed.

Lemma to_int32_high (h : Z) : 2 ^ 31 <= h < 2 ^ 32 -> to_int32 h = h - 2 ^ 32.
Proof.
  intros Hh. unfold to_int32.
  change (2 ^ 31) with 2147483648 in *. change (2 ^ 32) with 4294967296 in *.
  Z.div_mod_to_equations. lia.
Qed.

Section Bridge.
Context `{Runtime}.

Lemma number_to_int_in_range (n : Z) :
  INT_MIN <= n <= INT_MAX -> number_to_int n = n.
Proof.
  intros [Hlo Hhi]. unfold number_to_int.
  by rewrite (proj2 (Z.leb_le _ _) Hlo), (proj2 (Z.leb_le _ _) Hhi).
Qed.

Lemma dukCreateTimer_run (n : Z) (oneShot : bool) (f : nat) (h : Z)
    (rest : list Z) (s : Machine) :
  INT_MIN <= n <= INT_MAX ->
  n <> 0 -> pdMS_TO_TICKS n <> 0 ->
  allocator s = h :: rest -> h <> 0 ->
  exists s',
    dukCreateTimer (JNumber n) (JBoolean oneShot) (JFunction f) s
      = Return (JNumber (to_int32 h)) s' /\
    rtos s' = <[h := {| xTimerPeriodInTicks := pdMS_TO_TICKS n;
                        uxAutoReload := negb oneShot;
                        pxCallbackAutoReload := negb oneShot;
                        active := true |}]> (rtos s) /\
    timerSlot s' = <[to_uint32 (to_int32 h) := JFunction f]> (timerSlot s) /\
    allocator s' = rest /\
    scheduled s' = scheduled s /\ called s' = called s /\
    xTickCount s' = xTickCount s /\ m_startTicks s' = m_startTicks s.
Proof.
  intros Hint Hn Hticks Halloc Hh.
  unfold dukCreateTimer, duk_require_number, duk_require_boolean,
    duk_require_function, createTimer, xTimerCreate, xTimerStart, slot_put.
  apply Z.eqb_neq in Hn, Hticks, Hh.
  unfold mbind, T_bind, bind, get, modify, ret. cbn -[number_to_int].
  rewrite (number_to_int_in_range n Hint).
  rewrite Hn. destruct oneShot; cbn [negb]; rewrite Hticks, Halloc; cbn;
    rewrite Hh; cbn; rewrite lookup_insert_eq; cbn;
    (eexists; split; [reflexivity|]); msimpl; rewrite insert_insert_eq; auto 10.
Qed.

(** X15: what a successful [createTimer(period, oneShot, callback)] from
    script leaves behind (the period within the range of [int], not 0 and
    at least one tick, the RTOS handing out a timer at a nonzero 32-bit
    address [h]): the native timer
    [h], running, auto-reload exactly when [oneShot] is false and with the
    matching firing callback; [callback] in the registry under [h]; every
    other timer and registry entry as before; nothing scheduled or called.
    The id returned is [h] read as an [int]. *)
Theorem dukCreateTimer_registers (n : Z) (oneShot : bool) (f : nat) (h : Z)
    (rest : list Z) (s : Machine) :
  INT_MIN <= n <= INT_MAX ->
  n <> 0 -> pdMS_TO_TICKS n <> 0 ->
  allocator s = h :: rest -> 0 < h < 2 ^ 32 ->
  exists s',
    dukCreateTimer (JNumber n) (JBoolean oneShot) (JFunction f) s
      = Return (JNumber (to_int32 h)) s' /\
    rtos s' !! h = Some {| xTimerPeriodInTicks := pdMS_TO_TICKS n;
                           uxAutoReload := negb oneShot;
                           pxCallbackAutoReload := negb oneShot;
                           active := true |} /\
    timerSlot s' !! h = Some (JFunction f) /\
    (forall k, k <> h ->
       rtos s' !! k = rtos s !! k /\ timerSlot s' !! k = timerSlot s !! k) /\
    scheduled s' = scheduled s /\ called s' = called s.
Proof.
  intros Hint Hn Hticks Halloc Hh.
  destruct (dukCreateTimer_run n oneShot f h rest s Hint Hn Hticks Halloc)
    as (s' & Hrun & Hr & Hs & _ & Hq & Hc & _); [lia|].
  rewrite to_uint32_to_int32 in Hs by lia.
  exists s'. rewrite Hr, Hs, !lookup_insert_eq. repeat split; auto.
  - by rewrite lookup_insert_ne.
  - by rewrite lookup_insert_ne.
Qed.

Lemma dukDeleteTimer_hit (n : Z) (v : jsval) (s : Machine) :
  timerSlot s !! n = Some v -> INT_MIN <= n <= INT_MAX ->
  dukDeleteTimer (JNumber n) s
  = xTimerDelete (to_uint32 n) (set_timerSlot (delete n (timerSlot s)) s).
Proof.
  intros Hslot Hn. unfold dukDeleteTimer, duk_require_int, slot_has, slot_del.
  unfold mbind, T_bind, bind, get, ret, modify. rewrite Hslot.
  rewrite bool_decide_eq_true_2 by eauto.
  by replace (Z.max INT_MIN (Z.min INT_MAX n)) with n by lia.
Qed.

Lemma xTimerDelete_run (h : Z) (t : xTIMER) (s : Machine) :
  rtos s !! h = Some t ->
  xTimerDelete h s = Return tt (set_rtos (delete h (rtos s)) s).
Proof.
  intros Ht. unfold xTimerDelete. unfold mbind, T_bind, bind, get, modify.
  by rewrite Ht.
Qed.

Lemma xTimerDelete_gone (h : Z) (s : Machine) :
  rtos s !! h = None ->
  xTimerDelete h s = Crash "xTimerDelete: not a timer" s.
Proof.
  intros Ht. unfold xTimerDelete. unfold mbind, T_bind, bind, get, crash.
  by rewrite Ht.
Qed.

Lemma int_range (h : Z) : 0 <= h < 2 ^ 31 -> INT_MIN <= h <= INT_MAX.
Proof.
  unfold INT_MIN, INT_MAX. change (2 ^ 31) with 2147483648. lia.
Qed.

(** X16: create, then delete with the id returned, is a round trip on
    the registry and on the native timers (the period within the range of
    [int], not 0 and at least one tick; the handle below 2^31, so that
    the id is the handle, and not in use before): both are as they were
    before the creation, and nothing was scheduled or called. *)
Theorem create_then_delete (n : Z) (oneShot : bool) (f : nat) (h : Z)
    (rest : list Z) (s : Machine) :
  INT_MIN <= n <= INT_MAX ->
  n <> 0 -> pdMS_TO_TICKS n <> 0 ->
  allocator s = h :: rest -> 0 < h < 2 ^ 31 ->
  timerSlot s !! h = None -> rtos s !! h = None ->
  exists s1 s2,
    dukCreateTimer (JNumber n) (JBoolean oneShot) (JFunction f) s
      = Return (JNumber h) s1 /\
    dukDeleteTimer (JNumber h) s1 = Return tt s2 /\
    timerSlot s2 = timerSlot s /\ rtos s2 = rtos s /\
    scheduled s2 = scheduled s /\ called s2 = called s.
Proof.
  intros Hint Hn Hticks Halloc Hh Hslot Hrtos.
  assert (H32 : 2 ^ 31 < 2 ^ 32) by done.
  destruct (dukCreateTimer_run n oneShot f h rest s Hint Hn Hticks Halloc)
    as (s1 & Hrun & Hr & Hs & _ & Hq & Hc & _); [lia|].
  rewrite to_int32_small in Hrun, Hs by lia.
  rewrite to_uint32_small in Hs by lia.
  exists s1. eexists. split; [exact Hrun|].
  rewrite (dukDeleteTimer_hit h (JFunction f)), to_uint32_small;
    [ | lia | by rewrite Hs, lookup_insert_eq | apply int_range; lia ].
  erewrite xTimerDelete_run by (msimpl; rewrite Hr; apply lookup_insert_eq).
  split; [reflexivity|]. msimpl.
  rewrite Hs, Hr, !delete_insert_id by done. auto.
Qed.

(** X17: arguments are checked before anything is done.  [createTimer]
    with a first argument that is not a number, a second that is not a
    boolean or a third that is not a function throws a [TypeError], and so
    does [deleteTimer] with an argument that is not a number; the machine
    is as before: no timer is created, nothing is registered or removed. *)
Theorem bad_arguments_throw (a0 a1 a2 : jsval) (s : Machine) :
  ((forall n, a0 <> JNumber n) \/ (forall b, a1 <> JBoolean b) \/
   (forall f, a2 <> JFunction f) ->
   exists what, dukCreateTimer a0 a1 a2 s = Throw (TypeError what) s) /\
  ((forall n, a0 <> JNumber n) ->
   exists what, dukDeleteTimer a0 s = Throw (TypeError what) s).
Proof.
  split.
  - intros Hbad. unfold dukCreateTimer.
    destruct a0 as [|b0|n0|s0|f0]; try (by eexists);
    destruct a1 as [|b1|n1|s1|f1]; try (by eexists);
    destruct a2 as [|b2|n2|s2|f2]; try (by eexists).
    destruct Hbad as [Hbad | [Hbad | Hbad]]; by edestruct Hbad.
  - intros Hbad. unfold dukDeleteTimer.
    destruct a0 as [|b0|n0|s0|f0]; try (by eexists). by edestruct Hbad.
Qed.

(** X18: [deleteTimer] does not take back a firing that is already
    scheduled.  An auto-reload timer fires, the script deletes it, the
    loop drains: the drain throws a [TypeError] (the entry is gone, the
    value looked up is not callable); the callback is not called; the
    registry entry and the native timer are gone and the queue is empty. *)
Theorem deleteTimer_cancels_pending_firing (h : Z) (t : xTIMER) (f : nat)
    (s : Machine) :
  0 <= h < 2 ^ 31 ->
  rtos s !! h = Some t ->
  uxAutoReload t = true -> pxCallbackAutoReload t = true ->
  timerSlot s !! h = Some (JFunction f) ->
  scheduled s = [] ->
  exists s',
    (expire h ;; dukDeleteTimer (JNumber h) ;; drain) s
      = Throw (TypeError "callable required") s' /\
    called s' = called s /\
    timerSlot s' = delete h (timerSlot s) /\ rtos s' = delete h (rtos s) /\
    scheduled s' = [].
Proof.
  intros Hh Ht Hauto Hcb Hslot Hq.
  assert (H32 : 2 ^ 31 < 2 ^ 32) by done.
  destruct (expire_run h t s Ht) as (s1 & Hexp & Hq1 & Hr1 & Hs1 & Hc1 & _);
    [congruence|].
  rewrite (bind_Return _ _ _ _ _ Hexp).
  rewrite Hauto in Hq1, Hr1. cbn [negb] in Hq1.
  rewrite Hq, to_int32_small in Hq1 by done. cbn [app] in Hq1.
  assert (Hdel : dukDeleteTimer (JNumber h) s1
                 = Return tt (set_rtos (delete h (rtos s1))
                                (set_timerSlot (delete h (timerSlot s1)) s1))).
  { rewrite (dukDeleteTimer_hit h (JFunction f)), to_uint32_small;
      [ | lia | by rewrite Hs1 | apply int_range; lia ].
    by erewrite xTimerDelete_run by (msimpl; by rewrite Hr1). }
  rewrite (bind_Return _ _ _ _ _ Hdel).
  erewrite drain_run by (msimpl; exact Hq1).
  rewrite dukInvokeTimer_miss by (msimpl; apply lookup_delete_eq).
  eexists. split; [reflexivity|]. msimpl. by rewrite Hc1, Hs1, Hr1.
Qed.

(** X19: a one-shot timer that has fired but whose invocation is not
    drained yet is still registered, although its native timer was
    deleted by the firing: [deleteTimer] with its id finds the entry,
    removes it, and deletes the native timer a second time, on a handle
    the RTOS no longer holds, where the model ends the program. *)
Theorem deleteTimer_on_fired_one_shot (h : Z) (t : xTIMER) (f : nat) (s : Machine) :
  0 <= h < 2 ^ 31 ->
  rtos s !! h = Some t ->
  uxAutoReload t = false -> pxCallbackAutoReload t = false ->
  timerSlot s !! h = Some (JFunction f) ->
  exists s',
    (expire h ;; dukDeleteTimer (JNumber h)) s
      = Crash "xTimerDelete: not a timer" s' /\
    rtos s' = delete h (rtos s) /\
    timerSlot s' = delete h (timerSlot s) /\
    scheduled s' = scheduled s ++ [(h, true)] /\
    called s' = called s.
Proof.
  intros Hh Ht Hauto Hcb Hslot.
  assert (H32 : 2 ^ 31 < 2 ^ 32) by done.
  destruct (expire_run h t s Ht) as (s1 & Hexp & Hq1 & Hr1 & Hs1 & Hc1 & _);
    [congruence|].
  rewrite (bind_Return _ _ _ _ _ Hexp).
  rewrite Hauto in Hq1, Hr1. cbn [negb] in Hq1.
  rewrite to_int32_small in Hq1 by done.
  rewrite (dukDeleteTimer_hit h (JFunction f)), to_uint32_small;
    [ | lia | by rewrite Hs1 | apply int_range; lia ].
  rewrite xTimerDelete_gone by (msimpl; rewrite Hr1; apply lookup_delete_eq).
  eexists. split; [reflexivity|]. msimpl. by rewrite Hr1, Hs1, Hq1, Hc1.
Qed.

(** X20: the life of a one-shot timer.  Fired and drained once (the
    callback returning and leaving the bridge alone), its callback has
    been called once, the registry entry and the native timer are gone,
    nothing is scheduled, and a [deleteTimer] with its id afterwards
    changes nothing. *)
Theorem one_shot_fires_once (h : Z) (t : xTIMER) (f : nat) (s : Machine) :
  0 <= h < 2 ^ 31 ->
  rtos s !! h = Some t ->
  uxAutoReload t = false -> pxCallbackAutoReload t = false ->
  timerSlot s !! h = Some (JFunction f) ->
  scheduled s = [] ->
  (forall s0, exists s1,
     script f s0 = (s1, None) /\
     timerSlot s1 = timerSlot s0 /\ rtos s1 = rtos s0 /\
     scheduled s1 = scheduled s0 /\ called s1 = called s0) ->
  exists s',
    (expire h ;; drain) s = Return tt s' /\
    called s' = called s ++ [f] /\
    timerSlot s' = delete h (timerSlot s) /\ rtos s' = delete h (rtos s) /\
    scheduled s' = [] /\
    dukDeleteTimer (JNumber h) s' = Return tt s'.
Proof.
  intros Hh Ht Hauto Hcb Hslot Hq Hscript.
  destruct (expire_run h t s Ht) as (s1 & Hexp & Hq1 & Hr1 & Hs1 & Hc1 & _);
    [congruence|].
  rewrite (bind_Return _ _ _ _ _ Hexp).
  rewrite Hauto in Hq1, Hr1. cbn [negb] in Hq1.
  rewrite Hq, to_int32_small in Hq1 by done. cbn [app] in Hq1.
  destruct (Hscript (set_called (called (set_scheduled [] s1) ++ [f])
                       (set_scheduled [] s1)))
    as (s2 & Hrun & Hs2 & Hr2 & Hq2 & Hc2).
  msimpl.
  rewrite (drain_run h true [] s1 Hq1).
  rewrite (dukInvokeTimer_run h true f _ s2); [ | by msimpl; rewrite Hs1 | done ].
  eexists. split; [reflexivity|]. msimpl.
  rewrite Hc2, Hc1, Hs2, Hs1, Hr2, Hr1, Hq2. repeat split; auto.
  apply dukDeleteTimer_miss. msimpl. apply lookup_delete_eq.
Qed.

(** X21: the clean-up of a one-shot timer is skipped when its callback
    throws: the error leaves the drain, the callback has been called once,
    the native timer is gone (deleted by the firing) but the registry
    entry stays; a [deleteTimer] with its id afterwards removes the entry
    and deletes the native timer a second time, where the model ends the
    program. *)
Theorem one_shot_callback_throws_entry_stays (h : Z) (t : xTIMER) (f : nat)
    (e : error) (s : Machine) :
  0 <= h < 2 ^ 31 ->
  rtos s !! h = Some t ->
  uxAutoReload t = false -> pxCallbackAutoReload t = false ->
  timerSlot s !! h = Some (JFunction f) ->
  scheduled s = [] ->
  (forall s0, exists s1,
     script f s0 = (s1, Some e) /\
     timerSlot s1 = timerSlot s0 /\ rtos s1 = rtos s0 /\
     scheduled s1 = scheduled s0 /\ called s1 = called s0) ->
  exists s',
    (expire h ;; drain) s = Throw e s' /\
    called s' = called s ++ [f] /\
    timerSlot s' = timerSlot s /\ rtos s' = delete h (rtos s) /\
    dukDeleteTimer (JNumber h) s'
    = Crash "xTimerDelete: not a timer"
        (set_timerSlot (delete h (timerSlot s')) s').
Proof.
  intros Hh Ht Hauto Hcb Hslot Hq Hscript.
  assert (H32 : 2 ^ 31 < 2 ^ 32) by done.
  destruct (expire_run h t s Ht) as (s1 & Hexp & Hq1 & Hr1 & Hs1 & Hc1 & _);
    [congruence|].
  rewrite (bind_Return _ _ _ _ _ Hexp).
  rewrite Hauto in Hq1, Hr1. cbn [negb] in Hq1.
  rewrite Hq, to_int32_small in Hq1 by done. cbn [app] in Hq1.
  destruct (Hscript (set_called (called (set_scheduled [] s1) ++ [f])
                       (set_scheduled [] s1)))
    as (s2 & Hrun & Hs2 & Hr2 & Hq2 & Hc2).
  msimpl.
  rewrite (drain_run h true [] s1 Hq1).
  rewrite (dukInvokeTimer_throws h true f e _ s2); [ | by msimpl; rewrite Hs1 | done ].
  exists s2. split; [reflexivity|].
  rewrite Hc2, Hc1, Hs2, Hs1, Hr2, Hr1. repeat split; auto.
  rewrite (dukDeleteTimer_hit h (JFunction f)), to_uint32_small;
    [ | lia | by rewrite Hs2, Hs1 | apply int_range; lia ].
  rewrite xTimerDelete_gone; [by rewrite Hs2, Hs1|].
  msimpl. rewrite Hr2, Hr1. apply lookup_delete_eq.
Qed.

(** X22: [millis] counts from [initialize], in steps of whole
    milliseconds per tick.  When the embedded script that [initialize]
    compiles and runs (after [setupSlot] and [registerFunctions]) returns,
    [initialize] returns and takes the tick count of that moment as the
    start; [d] ticks later [millis] returns [d] times the integer quotient
    1000 / configTICK_RATE_HZ (so 0 at once, and always 0 for a tick rate
    above 1000), also when the 32-bit tick counter has wrapped in between,
    as long as the product fits an [int].  After the script, [initialize]
    changes nothing but the start. *)
Theorem dukMillis_elapsed (d : Z) (s s1 : Machine) :
  (setupSlot ;; registerFunctions ;; registerRuntime) s = Return tt s1 ->
  0 <= xTickCount s1 < 2 ^ 32 -> 0 <= d < 2 ^ 32 ->
  0 < configTICK_RATE_HZ ->
  d * (1000 / configTICK_RATE_HZ) < 2 ^ 31 ->
  exists s',
    (initialize ;; advance d ;; dukMillis) s
      = Return (JNumber (d * (1000 / configTICK_RATE_HZ))) s' /\
    m_startTicks s' = xTickCount s1 /\
    timerSlot s' = timerSlot s1 /\ rtos s' = rtos s1 /\
    globals s' = globals s1 /\ scheduled s' = scheduled s1 /\
    called s' = called s1.
Proof.
  intros Hrun Hx Hd Hrate Hms.
  assert (Hinit : initialize s = Return tt (set_startTicks (xTickCount s1) s1)).
  { unfold initialize. unfold mbind, T_bind, bind in *.
    destruct (setupSlot s) as [[] sa|e sa|why sa]; [|done|done].
    destruct (registerFunctions sa) as [[] sb|e sb|why sb]; [|done|done].
    destruct (registerRuntime sb) as [[] sc|e sc|why sc]; [|done|done].
    by injection Hrun as ->. }
  rewrite (bind_Return _ _ _ _ _ Hinit).
  unfold advance, dukMillis, portTICK_RATE_MS.
  unfold mbind, T_bind, bind, get, modify, ret. cbn.
  assert (Hq : 0 <= 1000 / configTICK_RATE_HZ) by (apply Z.div_pos; lia).
  assert (Hel : to_uint32 (to_uint32 (xTickCount s1 + d) - xTickCount s1) = d).
  { unfold to_uint32. change (2 ^ 32) with 4294967296 in *.
    Z.div_mod_to_equations. lia. }
  rewrite Hel.
  assert (H32 : 2 ^ 31 < 2 ^ 32) by done.
  rewrite to_uint32_small, to_int32_small by nia.
  eexists. split; [reflexivity|]. done.
Qed.

(** X23: a timer whose handle is 2^31 or above cannot be reached by its
    id.  The id returned is negative ([h] - 2^32) while the callback is
    registered under the unsigned [h]: [deleteTimer] with the id returned
    changes nothing, and when the timer fires the drain throws a
    [TypeError] without calling the callback, which stays registered
    (the period within the range of [int], not 0 and at least one tick;
    nothing being registered under the negative id, nothing scheduled). *)
Theorem high_handle_unreachable (n : Z) (oneShot : bool) (f : nat) (h : Z)
    (rest : list Z) (s : Machine) :
  INT_MIN <= n <= INT_MAX ->
  n <> 0 -> pdMS_TO_TICKS n <> 0 ->
  allocator s = h :: rest -> 2 ^ 31 <= h < 2 ^ 32 ->
  timerSlot s !! (h - 2 ^ 32) = None ->
  scheduled s = [] ->
  exists s1 s2,
    dukCreateTimer (JNumber n) (JBoolean oneShot) (JFunction f) s
      = Return (JNumber (h - 2 ^ 32)) s1 /\
    timerSlot s1 !! h = Some (JFunction f) /\
    dukDeleteTimer (JNumber (h - 2 ^ 32)) s1 = Return tt s1 /\
    (expire h ;; drain) s1 = Throw (TypeError "callable required") s2 /\
    called s2 = called s /\ timerSlot s2 !! h = Some (JFunction f).
Proof.
  intros Hint Hn Hticks Halloc Hh Hslot Hq.
  assert (H31 : 0 < 2 ^ 31) by done.
  destruct (dukCreateTimer_run n oneShot f h rest s Hint Hn Hticks Halloc)
    as (s1 & Hrun & Hr & Hs & _ & Hq1 & Hc1 & _); [lia|].
  rewrite to_uint32_to_int32 in Hs by lia.
  rewrite to_int32_high in Hrun by done.
  assert (Hmiss : timerSlot s1 !! (h - 2 ^ 32) = None).
  { rewrite Hs, lookup_insert_ne; [done|]. change (2 ^ 32) with 4294967296. lia. }
  destruct (expire_run h _ s1 (eq_trans (f_equal (fun m => m !! h) Hr)
                                 (lookup_insert_eq _ _ _)))
    as (s2 & Hexp & Hq2 & Hr2 & Hs2 & Hc2 & _); [done|].
  cbn [uxAutoReload] in Hq2.
  rewrite Hq1, Hq, to_int32_high in Hq2 by done. cbn [app] in Hq2.
  exists s1. eexists. split; [exact Hrun|].
  split; [by rewrite Hs, lookup_insert_eq|].
  split; [by apply dukDeleteTimer_miss|].
  rewrite (bind_Return _ _ _ _ _ Hexp).
  erewrite drain_run by exact Hq2.
  rewrite dukInvokeTimer_miss by (msimpl; by rewrite Hs2).
  split; [reflexivity|]. msimpl.
  by rewrite Hc2, Hc1, Hs2, Hs, lookup_insert_eq.
Qed.

End Bridge.

(** *** Runs on the concrete board *)

Import Board.

Lemma dukCreateTimer_registers_witness :
  (INT_MIN <= 50 <= INT_MAX /\ 50 <> 0 /\ pdMS_TO_TICKS 50 <> 0 /\
   allocator (machine [handle]) = [handle] /\ 0 < handle < 2 ^ 32) /\
  exists s',
    dukCreateTimer (JNumber 50) (JBoolean false) (JFunction 0) (machine [handle])
      = Return (JNumber (to_int32 handle)) s' /\
    rtos s' !! handle
      = Some {| xTimerPeriodInTicks := pdMS_TO_TICKS 50;
                uxAutoReload := negb false;
                pxCallbackAutoReload := negb false;
                active := true |} /\
    timerSlot s' !! handle = Some (JFunction 0) /\
    (forall k, k <> handle ->
       rtos s' !! k = rtos (machine [handle]) !! k /\
       timerSlot s' !! k = timerSlot (machine [handle]) !! k) /\
    scheduled s' = scheduled (machine [handle]) /\
    called s' = called (machine [handle]).
Proof.
  split; [repeat split; by vm_compute|].
  apply (dukCreateTimer_registers 50 false 0%nat handle [] (machine [handle]));
    by vm_compute.
Defined.

Lemma create_then_delete_witness :
  (INT_MIN <= 50 <= INT_MAX /\ 50 <> 0 /\ pdMS_TO_TICKS 50 <> 0 /\
   allocator (machine [handle]) = [handle] /\ 0 < handle < 2 ^ 31 /\
   timerSlot (machine [handle]) !! handle = None /\
   rtos (machine [handle]) !! handle = None) /\
  exists s1 s2,
    dukCreateTimer (JNumber 50) (JBoolean true) (JFunction 0) (machine [handle])
      = Return (JNumber handle) s1 /\
    dukDeleteTimer (JNumber handle) s1 = Return tt s2 /\
    timerSlot s2 = timerSlot (machine [handle]) /\
    rtos s2 = rtos (machine [handle]) /\
    scheduled s2 = scheduled (machine [handle]) /\
    called s2 = called (machine [handle]).
Proof.
  split; [repeat split; by vm_compute|].
  apply (create_then_delete 50 true 0%nat handle [] (machine [handle]));
    by vm_compute.
Defined.

Lemma bad_arguments_throw_witness :
  (forall n, JString "soon" <> JNumber n) /\
  (exists what,
     dukCreateTimer (JString "soon") (JBoolean true) (JFunction 0) ticking
     = Throw (TypeError what) ticking) /\
  (exists what,
     dukDeleteTimer (JString "soon") ticking = Throw (TypeError what) ticking).
Proof.
  destruct (bad_arguments_throw (JString "soon") (JBoolean true) (JFunction 0) ticking)
    as [Hcreate Hdelete].
  split; [discriminate|].
  split; [apply Hcreate; left; discriminate | apply Hdelete; discriminate].
Defined.

Lemma deleteTimer_cancels_pending_firing_witness :
  (0 <= handle < 2 ^ 31 /\
   timerSlot ticking !! handle = Some (JFunction 0) /\ scheduled ticking = []) /\
  exists s',
    (expire handle ;; dukDeleteTimer (JNumber handle) ;; drain) ticking
      = Throw (TypeError "callable required") s' /\
    called s' = called ticking /\
    timerSlot s' = delete handle (timerSlot ticking) /\
    rtos s' = delete handle (rtos ticking) /\
    scheduled s' = [].
Proof.
  split; [repeat split; by vm_compute|].
  apply (deleteTimer_cancels_pending_firing handle
           {| xTimerPeriodInTicks := 5; uxAutoReload := true;
              pxCallbackAutoReload := true; active := true |} 0%nat ticking);
    solve [reflexivity | by vm_compute].
Defined.

Lemma deleteTimer_on_fired_one_shot_witness :
  (0 <= handle < 2 ^ 31 /\
   timerSlot (armed 0) !! handle = Some (JFunction 0)) /\
  exists s',
    (expire handle ;; dukDeleteTimer (JNumber handle)) (armed 0)
      = Crash "xTimerDelete: not a timer" s' /\
    rtos s' = delete handle (rtos (armed 0)) /\
    timerSlot s' = delete handle (timerSlot (armed 0)) /\
    scheduled s' = scheduled (armed 0) ++ [(handle, true)] /\
    called s' = called (armed 0).
Proof.
  split; [repeat split; by vm_compute|].
  apply (deleteTimer_on_fired_one_shot handle
           {| xTimerPeriodInTicks := 5; uxAutoReload := false;
              pxCallbackAutoReload := false; active := true |} 0%nat (armed 0));
    solve [reflexivity | by vm_compute].
Defined.

Lemma one_shot_fires_once_witness :
  (0 <= handle < 2 ^ 31 /\
   timerSlot (armed 0) !! handle = Some (JFunction 0) /\ scheduled (armed 0) = []) /\
  exists s',
    (expire handle ;; drain) (armed 0) = Return tt s' /\
    called s' = called (armed 0) ++ [0%nat] /\
    timerSlot s' = delete handle (timerSlot (armed 0)) /\
    rtos s' = delete handle (rtos (armed 0)) /\
    scheduled s' = [] /\
    dukDeleteTimer (JNumber handle) s' = Return tt s'.
Proof.
  split; [repeat split; by vm_compute|].
  apply (one_shot_fires_once handle
           {| xTimerPeriodInTicks := 5; uxAutoReload := false;
              pxCallbackAutoReload := false; active := true |} 0%nat (armed 0));
    [by vm_compute | by vm_compute | reflexivity | reflexivity | by vm_compute
    | reflexivity |].
  intros s0. exists s0. repeat split; reflexivity.
Defined.

Lemma one_shot_callback_throws_entry_stays_witness :
  (0 <= handle < 2 ^ 31 /\
   timerSlot (armed 1) !! handle = Some (JFunction 1) /\ scheduled (armed 1) = []) /\
  exists s',
    (expire handle ;; drain) (armed 1)
      = Throw (ScriptError "thrown by the callback") s' /\
    called s' = called (armed 1) ++ [1%nat] /\
    timerSlot s' = timerSlot (armed 1) /\
    rtos s' = delete handle (rtos (armed 1)) /\
    dukDeleteTimer (JNumber handle) s'
    = Crash "xTimerDelete: not a timer"
        (set_timerSlot (delete handle (timerSlot s')) s').
Proof.
  split; [repeat split; by vm_compute|].
  apply (one_shot_callback_throws_entry_stays handle
           {| xTimerPeriodInTicks := 5; uxAutoReload := false;
              pxCallbackAutoReload := false; active := true |} 1%nat
           (ScriptError "thrown by the callback") (armed 1));
    [by vm_compute | by vm_compute | reflexivity | reflexivity | by vm_compute
    | reflexivity |].
  intros s0. exists s0. repeat split; reflexivity.
Defined.

Lemma dukMillis_elapsed_witness :
  ((setupSlot ;; registerFunctions ;; registerRuntime) late = Return tt late /\
   0 <= xTickCount late < 2 ^ 32 /\ 0 <= 10 < 2 ^ 32 /\
   0 < configTICK_RATE_HZ /\ 10 * (1000 / configTICK_RATE_HZ) < 2 ^ 31) /\
  exists s',
    (initialize ;; advance 10 ;; dukMillis) late = Return (JNumber 100) s' /\
    m_startTicks s' = xTickCount late /\
    timerSlot s' = timerSlot late /\ rtos s' = rtos late /\
    globals s' = globals late /\ scheduled s' = scheduled late /\
    called s' = called late.
Proof.
  split; [repeat split; by vm_compute|].
  exact (dukMillis_elapsed 10 late late ltac:(by vm_compute) ltac:(by vm_compute)
           ltac:(by vm_compute) ltac:(by vm_compute) ltac:(by vm_compute)).
Defined.

Lemma high_handle_unreachable_witness :
  (INT_MIN <= 50 <= INT_MAX /\ 50 <> 0 /\ pdMS_TO_TICKS 50 <> 0 /\
   allocator (machine [high_handle]) = [high_handle] /\
   2 ^ 31 <= high_handle < 2 ^ 32 /\
   timerSlot (machine [high_handle]) !! (high_handle - 2 ^ 32) = None /\
   scheduled (machine [high_handle]) = []) /\
  exists s1 s2,
    dukCreateTimer (JNumber 50) (JBoolean false) (JFunction 0) (machine [high_handle])
      = Return (JNumber (high_handle - 2 ^ 32)) s1 /\
    timerSlot s1 !! high_handle = Some (JFunction 0) /\
    dukDeleteTimer (JNumber (high_handle - 2 ^ 32)) s1 = Return tt s1 /\
    (expire high_handle ;; drain) s1 = Throw (TypeError "callable required") s2 /\
    called s2 = called (machine [high_handle]) /\
    timerSlot s2 !! high_handle = Some (JFunction 0).
Proof.
  split; [repeat split; by vm_compute|].
  apply (high_handle_unreachable 50 false 0%nat high_handle []
           (machine [high_handle])); by vm_compute.
Defined.

End BridgeFacts.
